(** * xbit2bin: Xilinx bitstream header stripping and word swapping

    A shallow embedding of [xbin2bit.c] and the properties of its header
    analyzer ([analyze_xilinx_header]), its word swapper ([xbit2bin_bswap])
    and its transcoder ([xbit2bin]).

    Bytes are [Init.Byte.byte]; 32-bit words are [Z] and live in memory as
    four bytes in the order of the host ([endianness]); C arrays are lists
    of bytes; file descriptors are a [world] record that is passed along. *)

From Stdlib Require Import ZArith List Lia PeanoNat Bool.
From Stdlib Require Strings.Byte.
From coqutil Require Import Byte Word.LittleEndianList.
From coqutil Require Import Z.prove_Zeq_bitwise.
Import ListNotations.
Import Init.Byte.

Local Open Scope Z_scope.

(** ** Words in memory *)

Inductive endianness : Set :=
  | LittleEndian
  | BigEndian.

(** The four bytes of a [uint32_t] object, lowest address first. *)
Definition uint32_bytes (host : endianness) (w : Z) : list byte :=
  match host with
  | LittleEndian => le_split 4 w
  | BigEndian => rev (le_split 4 w)
  end.

(** The value of the [uint32_t] object that four bytes form. *)
Definition uint32_of_bytes (host : endianness) (bs : list byte) : Z :=
  match host with
  | LittleEndian => le_combine bs
  | BigEndian => le_combine (rev bs)
  end.

(** Modelled from the spec: [bswap32] comes from <sys/endian.h>, which is
    not part of the sources; it is the "reversal of the 4 bytes composing
    each 32-bit word", written on the value of the word. *)
Definition bswap32 (x : Z) : Z :=
  Z.lor (Z.lor (Z.shiftl (Z.land x 255) 24)
               (Z.shiftl (Z.land (Z.shiftr x 8) 255) 16))
        (Z.lor (Z.shiftl (Z.land (Z.shiftr x 16) 255) 8)
               (Z.land (Z.shiftr x 24) 255)).

(** ** Buffers *)

(** [store_at buf off data]: the array [buf] after [data] has been copied
    to [buf + off] (what [memmove] and [read] do to their destination). *)
Definition store_at (buf : list byte) (off : nat) (data : list byte)
  : list byte :=
  firstn off buf ++ data ++ skipn (off + length data) buf.

(** [memmove(buf + dst, buf + src, n)]. *)
Definition memmove (buf : list byte) (dst src n : nat) : list byte :=
  store_at buf dst (firstn n (skipn src buf)).

(** Reference function of the proofs: every complete group of four bytes
    reversed, an incomplete last group left as it is. *)
Fixpoint wordswap (l : list byte) : list byte :=
  match l with
  | b0 :: b1 :: b2 :: b3 :: rest => b3 :: b2 :: b1 :: b0 :: wordswap rest
  | _ => l
  end.

(** ** The files *)

(** [fin] is what is left to read of the input file; at its end [read]
    returns 0, or -1 when [fin_error] is set (an input that ends with an
    I/O error).  [fout] is what has been written; [fout_room] is the number
    of bytes the output still accepts ([None]: no limit). *)
Record world : Set := mkWorld {
  fin : list byte;
  fin_error : bool;
  fout : list byte;
  fout_room : option nat
}.

(** [read(fin, buf + off, count)] on a regular file: the next [count] bytes,
    fewer at the end of the file. *)
Definition read (w : world) (buf : list byte) (off count : nat)
  : Z * list byte * world :=
  match fin w with
  | [] => ((if fin_error w then -1 else 0), buf, w)
  | _ :: _ =>
      let got := firstn count (fin w) in
      (Z.of_nat (length got), store_at buf off got,
       mkWorld (skipn count (fin w)) (fin_error w) (fout w) (fout_room w))
  end.

(** [write(fout, buf, n)]: short when the output has no room for [n] bytes. *)
Definition write (w : world) (buf : list byte) (n : Z) : Z * world :=
  let data := firstn (Z.to_nat n) buf in
  let sent := match fout_room w with
              | None => data
              | Some room => firstn room data
              end in
  (Z.of_nat (length sent),
   mkWorld (fin w) (fin_error w) (fout w ++ sent)
           (option_map (fun room => (room - length sent)%nat) (fout_room w))).

(** An input file and an output that takes everything, both just opened. *)
Definition open_files (input : list byte) : world :=
  mkWorld input false [] None.

(** The messages of [xbit2bin] on stderr, one per failure. *)
Inductive trouble : Set :=
  | ReadingHeader
  | AnalyzingHeader
  | ReadingData
  | WritingHeader
  | WritingData.

Inductive outcome : Set :=
  | Converted
  | Trouble (t : trouble).

(** The value [xbit2bin] returns. *)
Definition return_value (o : outcome) : Z :=
  match o with
  | Converted => 0
  | Trouble _ => -1
  end.

(** Number of bytes we will read to examine header. *)
Definition MAXHDR : nat := 256.

Definition DATBUF_SIZE : nat := 64 * 1024.

Definition buswords_noswap : list Z := [0x000000bb; 0x11220044].
Definition buswords_swap : list Z := [0xbb000000; 0x44002211].

(** [sizeof] of an array of [uint32_t]. *)
Definition sizeof_words (ws : list Z) : nat := (4 * length ws)%nat.

Definition is_dummy (b : byte) : bool := Strings.Byte.eqb b xff.

(** The bound of the scan loop: [i < MAXHDR - sizeof(buswords_swap)]. *)
Definition scan_steps : nat := (MAXHDR - sizeof_words buswords_swap)%nat.

Section Host.

Variable host : endianness.

(** The bytes of an array of [uint32_t] in memory. *)
Definition object_bytes (ws : list Z) : list byte :=
  flat_map (uint32_bytes host) ws.

(** The two markers, for [do_swap] clear and set. *)
Definition marker (do_swap : bool) : list byte :=
  object_bytes (if do_swap then buswords_swap else buswords_noswap).

(** ** analyze_xilinx_header *)

(** The scan loop, [steps] iterations before [i] reaches
    [MAXHDR - sizeof(buswords_swap)]; the result is [(i, dummies)] when the
    loop is left.  [None]: [hdr[i]] is outside the buffer. *)
Fixpoint scan_dummies (steps : nat) (hdr : list byte) (i dummies : nat)
  : option (nat * nat) :=
  match steps with
  | O => Some (i, dummies)
  | S steps' =>
      match nth_error hdr i with
      | None => None
      | Some b =>
          if is_dummy b then scan_dummies steps' hdr (S i) (S dummies)
          else if (32 <=? dummies)%nat then Some (i, dummies)
          else scan_dummies steps' hdr (S i) 0%nat
      end
  end.

(** [memcmp(&hdr[i], obj, sizeof(obj)) == 0]; [None] when the bytes
    compared are not all inside the buffer. *)
Definition memcmp_eq (hdr : list byte) (i : nat) (obj : list byte)
  : option bool :=
  let got := firstn (length obj) (skipn i hdr) in
  if (length got =? length obj)%nat
  then Some (if list_eq_dec Strings.Byte.byte_eq_dec got obj
             then true else false)
  else None.

(** The value returned and [*do_swap]; [None] when an access leaves the
    buffer. *)
Definition analyze_xilinx_header (hdr : list byte) : option (Z * bool) :=
  match scan_dummies scan_steps hdr 0 0 with
  | None => None
  | Some (i, dummies) =>
      if (dummies <? 32)%nat then Some (-1, false)
      else
        match memcmp_eq hdr i (object_bytes buswords_noswap) with
        | None => None
        | Some true => Some (Z.of_nat i - 32, false)
        | Some false =>
            match memcmp_eq hdr i (object_bytes buswords_swap) with
            | None => None
            | Some true => Some (Z.of_nat i - 32, true)
            | Some false => Some (-1, false)
            end
        end
  end.

(** ** xbit2bin_bswap *)

(** [bswap32] applied to a word in memory. *)
Definition swap_word (bs : list byte) : list byte :=
  uint32_bytes host (bswap32 (uint32_of_bytes host bs)).

(** The loop body: word [i] of [datbuf], taken as an array of [uint32_t],
    becomes its [bswap32].
    A word that is not wholly inside the list is left alone; with the
    arrays of [xbit2bin], whose sizes are multiples of 4, that does not
    happen. *)
Definition bswap_at (datbuf : list byte) (i : nat) : list byte :=
  match firstn 4 (skipn (4 * i) datbuf) with
  | [b0; b1; b2; b3] => store_at datbuf (4 * i) (swap_word [b0; b1; b2; b3])
  | _ => datbuf
  end.

(** The loop [for (i = 0; i * sizeof(uint32_t) < n; i++)]; it is left
    after at most [steps] iterations.  ([n] is not negative where
    [xbit2bin] calls the function.) *)
Fixpoint bswap_loop (steps : nat) (datbuf : list byte) (n : Z) (i : nat)
  : list byte :=
  match steps with
  | O => datbuf
  | S steps' =>
      if Z.of_nat i * 4 <? n
      then bswap_loop steps' (bswap_at datbuf i) n (S i)
      else datbuf
  end.

(** Byte-order swap buffer of n bytes. *)
Definition xbit2bin_bswap (datbuf : list byte) (n : Z) : list byte :=
  bswap_loop (Z.to_nat n) datbuf n 0.

(** ** xbit2bin *)

(** Where [xbit2bin] stands once the header is read, analyzed, stripped and
    padded to a word multiple: it has returned ([Stop]), or it is about to
    swap and write the [n] bytes at the head of [hdr] ([Emit]). *)
Inductive staged : Set :=
  | Stop (o : outcome) (w : world)
  | Emit (hdr : list byte) (n : Z) (do_swap : bool) (w : world).

Definition xbit2bin_header (hdr : list byte) (w : world) : option staged :=
  let '(r, hdr, w) := read w hdr 0 MAXHDR in
  if negb (r =? Z.of_nat MAXHDR) then Some (Stop (Trouble ReadingHeader) w)
  else
    match analyze_xilinx_header hdr with
    | None => None
    | Some (strip, do_swap) =>
        if strip <? 0 then Some (Stop (Trouble AnalyzingHeader) w)
        else
          let n := Z.of_nat MAXHDR - strip in
          let hdr := if 0 <? strip
                     then memmove hdr 0 (Z.to_nat strip) (Z.to_nat n)
                     else hdr in
          if negb (Z.land n 3 =? 0) then
            let '(r, hdr, w) :=
              read w hdr (Z.to_nat n) (Z.to_nat (4 - Z.land n 3)) in
            if negb (r =? 4 - Z.land n 3)
            then Some (Stop (Trouble ReadingData) w)
            else Some (Emit hdr (n + (4 - Z.land n 3)) do_swap w)
          else Some (Emit hdr n do_swap w)
    end.

(** The loop that copies the rest; [None] when [fuel] iterations were not
    enough to reach the end of the input. *)
Fixpoint copy_rest (fuel : nat) (do_swap : bool) (datbuf : list byte)
  (w : world) : option (outcome * world) :=
  match fuel with
  | O => None
  | S fuel' =>
      let '(n, datbuf, w) := read w datbuf 0 DATBUF_SIZE in
      if n =? 0 then Some (Converted, w)
      else if n <? 0 then Some (Trouble ReadingData, w)
      else
        let datbuf := if do_swap then xbit2bin_bswap datbuf n else datbuf in
        let '(m, w) := write w datbuf n in
        if negb (m =? n) then Some (Trouble WritingData, w)
        else copy_rest fuel' do_swap datbuf w
  end.

(** [hdr] and [datbuf] are the contents of the two automatic arrays when
    the function is entered.  The loop gets more fuel than the input has
    bytes left, and each turn but the last reads one byte at least. *)
Definition xbit2bin (hdr datbuf : list byte) (w : world)
  : option (outcome * world) :=
  match xbit2bin_header hdr w with
  | None => None
  | Some (Stop o w) => Some (o, w)
  | Some (Emit hdr n do_swap w) =>
      let hdr := if do_swap then xbit2bin_bswap hdr n else hdr in
      let '(m, w) := write w hdr n in
      if negb (m =? n) then Some (Trouble WritingHeader, w)
      else copy_rest (S (length (fin w))) do_swap datbuf w
  end.

End Host.

(** * Definitions of the statements *)

(** The number of iterations of the loop of [xbit2bin_bswap]. *)
Definition nwords (n : Z) : nat := Z.to_nat ((n + 3) / 4).

(** [len] bytes 0xff at [hdr[s]], ..., [hdr[s + len - 1]]. *)
Definition dummies_at (hdr : list byte) (s len : nat) : Prop :=
  forall j, (j < len)%nat -> nth_error hdr (s + j) = Some xff.

(** Somewhere in [l] there are 32 bytes 0xff in a row. *)
Definition run32_in (l : list byte) : Prop :=
  exists s, dummies_at l s 32.

(** The number of bytes 0xff that [l] starts with. *)
Fixpoint dummy_run (l : list byte) : nat :=
  match l with
  | [] => 0
  | b :: l' => if is_dummy b then S (dummy_run l') else 0
  end.

(** [run32_in], computed. *)
Fixpoint has_run32 (l : list byte) : bool :=
  match l with
  | [] => false
  | _ :: l' => (32 <=? dummy_run l)%nat || has_run32 l'
  end.

(** The bytes of [l] that form complete 32-bit words. *)
Definition complete_words (l : list byte) : list byte :=
  firstn (4 * (length l / 4)) l.

(** A bitstream file: [pre] (the metadata), [k] dummy bytes, the bus width
    marker for [do_swap], and [post] (the rest of the header and the
    payload). *)
Definition bitstream (host : endianness) (pre : list byte) (k : nat)
  (do_swap : bool) (post : list byte) : list byte :=
  pre ++ repeat xff k ++ marker host do_swap ++ post.

(** A header as in the scenario of the specification: 40 bytes of
    metadata, 32 dummy bytes at [40..71], the marker at [72..79]. *)
Definition metadata_example : list byte := repeat x41 40.

Definition payload_example : list byte := repeat x5a 1000.

Definition input_example (do_swap : bool) : list byte :=
  bitstream LittleEndian metadata_example 32 do_swap
    (repeat x00 176 ++ payload_example).

Definition header_example (do_swap : bool) : list byte :=
  bitstream LittleEndian metadata_example 32 do_swap (repeat x00 176).

(** An input whose payload is not a whole number of words. *)
Definition odd_payload_example : list byte :=
  bitstream LittleEndian [] 32 true (repeat x00 216)
  ++ [x01; x02; x03; x04; x05; x06; x07].

(** Headers with more than one run of dummy bytes. *)
Definition run31_then_sync : list byte :=
  bitstream LittleEndian [] 31 true
    (bitstream LittleEndian [] 32 true (repeat x00 177)).

Definition false_sync_then_run32 : list byte :=
  bitstream LittleEndian (repeat xff 32 ++ repeat x00 8) 32 true
    (repeat x00 176).

Definition two_long_runs : list byte :=
  bitstream LittleEndian [] 33 true
    (bitstream LittleEndian [] 33 true (repeat x00 174)).

(** An input of 256 bytes that leaves 255 bytes of header. *)
Definition header_only_unaligned : list byte :=
  bitstream LittleEndian [x00] 32 false (repeat x00 215).

(** Why [xbit2bin] fails with [t] on the input file [input]. *)
Definition failure_cause (host : endianness) (input : list byte)
  (t : trouble) : Prop :=
  match t with
  | ReadingHeader => (length input < MAXHDR)%nat
  | AnalyzingHeader =>
      (MAXHDR <= length input)%nat /\
      exists strip do_swap,
        analyze_xilinx_header host (firstn MAXHDR input)
        = Some (strip, do_swap) /\ strip < 0
  | ReadingData =>
      (MAXHDR <= length input)%nat /\
      exists s do_swap,
        analyze_xilinx_header host (firstn MAXHDR input)
        = Some (Z.of_nat s, do_swap) /\
        (length input < MAXHDR + s mod 4)%nat
  | WritingHeader | WritingData => False
  end.

(** ** main *)

(** A C string: its bytes before the terminating 0. *)
Definition cstring : Set := list byte.

Definition bytes_eqb (p q : list byte) : bool :=
  if list_eq_dec Strings.Byte.byte_eq_dec p q then true else false.

(** The files that [open] can reach, by path: the contents of the file,
    [None] where [open] fails. *)
Definition filesystem : Set := cstring -> option (list byte).

(** The file system once [data] has been written from the start of the
    file at [p] through a descriptor opened with [O_WRONLY] alone: nothing
    truncates the file, what it held behind [data] stays. *)
Definition fs_write (fs : filesystem) (p : cstring) (data : list byte)
  : filesystem :=
  fun q =>
    if bytes_eqb q p
    then option_map (fun old => store_at old 0 data) (fs p)
    else fs q.

(** ["/dev/devcfg"] *)
Definition devcfg : cstring :=
  [x2f; x64; x65; x76; x2f; x64; x65; x76; x63; x66; x67].

(** How [main] ends: with one of its own messages, or with what
    [xbit2bin] returned. *)
Inductive report : Set :=
  | Usage
  | OpeningForRead
  | OpeningForWrite
  | Ran (o : outcome).

(** The status of the process: [exit(1)], or [return (0)] from [main]. *)
Definition exit_status (r : report) : Z :=
  match r with
  | Ran o => if return_value o <? 0 then 1 else 0
  | _ => 1
  end.

(** [main], with [argc] the length of [argv]; the two files are regular
    files that are read and written without I/O error.  (The two
    descriptors have their own offsets, and [xbit2bin] has always read
    more than it has written: it reads the same bytes when both paths
    name one file.) *)
Definition main (host : endianness) (hdr datbuf : list byte)
  (argv : list cstring) (fs : filesystem) : option (report * filesystem) :=
  let argc := Z.of_nat (length argv) in
  if argc <? 2 then Some (Usage, fs)
  else
    let filename_out := if 2 <? argc then nth 2 argv [] else devcfg in
    match fs (nth 1 argv []) with
    | None => Some (OpeningForRead, fs)
    | Some input =>
        match fs filename_out with
        | None => Some (OpeningForWrite, fs)
        | Some _ =>
            match xbit2bin host hdr datbuf (open_files input) with
            | None => None
            | Some (o, w) => Some (Ran o, fs_write fs filename_out (fout w))
            end
        end
    end.

(** Two files for [main]: a bitstream at ["in"], and 2000 bytes at
    ["/dev/devcfg"]. *)
Definition path_example : cstring := [x69; x6e].

Definition fs_example : filesystem :=
  fun p =>
    if bytes_eqb p path_example then Some (input_example true)
    else if bytes_eqb p devcfg then Some (repeat xaa 2000)
    else None.

(** The first 256 bytes of a file whose 32 dummy bytes are at
    [217..248]. *)
Definition late_run_example : list byte :=
  repeat x00 217 ++ repeat xff 32 ++ firstn 7 (marker LittleEndian false).

(** ** Worlds that differ in what is not the input *)

(** [w] with another error flag, another output and other room. *)
Definition retag (e : bool) (o : list byte) (r : option nat) (w : world)
  : world :=
  mkWorld (fin w) e o r.

Definition staged_map (f : world -> world) (st : staged) : staged :=
  match st with
  | Stop o w => Stop o (f w)
  | Emit hdr n do_swap w => Emit hdr n do_swap (f w)
  end.

(** The files when the header phase is over. *)
Definition staged_world (st : staged) : world :=
  match st with
  | Stop _ w => w
  | Emit _ _ _ w => w
  end.

(** [w] with an output that takes [r] more bytes. *)
Definition with_room (r : nat) (w : world) : world :=
  mkWorld (fin w) (fin_error w) (fout w) (Some r).

(** [w] with an input that ends with a read error. *)
Definition with_error (w : world) : world :=
  mkWorld (fin w) true (fout w) (fout_room w).

(** What [xbit2bin] returns on an input that ends with a read error when
    it returns [o] on the same input with a clean end. *)
Definition outcome_with_error (o : outcome) : outcome :=
  match o with
  | Converted => Trouble ReadingData
  | Trouble t => Trouble t
  end.

(** ** xbit2bin_bswap and the copy loop with the accesses checked *)

(** The body of the loop of [xbit2bin_bswap]; [None] when word [i] is not
    wholly inside the array. *)
Definition bswap_at_checked (host : endianness) (datbuf : list byte)
  (i : nat) : option (list byte) :=
  match firstn 4 (skipn (4 * i) datbuf) with
  | [b0; b1; b2; b3] =>
      Some (store_at datbuf (4 * i) (swap_word host [b0; b1; b2; b3]))
  | _ => None
  end.

Fixpoint bswap_loop_checked (host : endianness) (steps : nat)
  (datbuf : list byte) (n : Z) (i : nat) : option (list byte) :=
  match steps with
  | O => Some datbuf
  | S steps' =>
      if Z.of_nat i * 4 <? n
      then match bswap_at_checked host datbuf i with
           | None => None
           | Some datbuf' => bswap_loop_checked host steps' datbuf' n (S i)
           end
      else Some datbuf
  end.

Definition xbit2bin_bswap_checked (host : endianness) (datbuf : list byte)
  (n : Z) : option (list byte) :=
  bswap_loop_checked host (Z.to_nat n) datbuf n 0.

(** The copy loop of [xbit2bin] with the checked swap; [None] when the
    swap leaves [datbuf], or when [fuel] iterations were not enough. *)
Fixpoint copy_rest_checked (host : endianness) (fuel : nat) (do_swap : bool)
  (datbuf : list byte) (w : world) : option (outcome * world) :=
  match fuel with
  | O => None
  | S fuel' =>
      let '(n, datbuf, w) := read w datbuf 0 DATBUF_SIZE in
      if n =? 0 then Some (Converted, w)
      else if n <? 0 then Some (Trouble ReadingData, w)
      else
        match (if do_swap then xbit2bin_bswap_checked host datbuf n
               else Some datbuf) with
        | None => None
        | Some datbuf =>
            let '(m, w) := write w datbuf n in
            if negb (m =? n) then Some (Trouble WritingData, w)
            else copy_rest_checked host fuel' do_swap datbuf w
        end
  end.

(** * Properties *)

(** ** The byte swap of a word *)

Lemma bswap32_le_combine (b0 b1 b2 b3 : byte) :
  bswap32 (le_combine [b0; b1; b2; b3]) = le_combine [b3; b2; b1; b0].
Proof.
  unfold bswap32. cbv [le_combine]. rewrite !Z.shiftl_0_l, !Z.lor_0_r.
  pose proof (byte.unsigned_range b0) as H0.
  pose proof (byte.unsigned_range b1) as H1.
  pose proof (byte.unsigned_range b2) as H2.
  pose proof (byte.unsigned_range b3) as H3.
  change 255 with (Z.ones 8).
  prove_Zeq_bitwise.
Qed.


(** ** Buffers and word groups *)

Lemma store_at_length (buf : list byte) (off : nat) (data : list byte) :
  (off + length data <= length buf)%nat ->
  length (store_at buf off data) = length buf.
Proof.
  intros H. unfold store_at.
  rewrite !length_app, length_firstn, length_skipn. lia.
Qed.

Lemma store_at_0 (buf data : list byte) :
  store_at buf 0 data = data ++ skipn (length data) buf.
Proof. reflexivity. Qed.

Lemma wordswap_length (l : list byte) : length (wordswap l) = length l.
Proof.
  induction l as [l IH] using (well_founded_induction
    (Wf_nat.well_founded_ltof _ (@length byte))).
  destruct l as [|b0 [|b1 [|b2 [|b3 rest]]]]; try reflexivity.
  cbn [wordswap length]. rewrite IH; [reflexivity|].
  unfold Wf_nat.ltof. cbn [length]. lia.
Qed.

Lemma wordswap_app (l1 l2 : list byte) :
  (length l1 mod 4 = 0)%nat ->
  wordswap (l1 ++ l2) = wordswap l1 ++ wordswap l2.
Proof.
  induction l1 as [l1 IH] using (well_founded_induction
    (Wf_nat.well_founded_ltof _ (@length byte))).
  intros Hm.
  destruct l1 as [|b0 [|b1 [|b2 [|b3 rest]]]]; try reflexivity;
    try (cbn in Hm; discriminate).
  cbn [wordswap app]. rewrite IH; [reflexivity| |].
  - unfold Wf_nat.ltof. cbn [length]. lia.
  - cbn [length] in Hm.
    replace (S (S (S (S (length rest))))) with (length rest + 1 * 4)%nat
      in Hm by lia.
    rewrite Nat.Div0.mod_add in Hm. exact Hm.
Qed.

Lemma wordswap_involutive (l : list byte) : wordswap (wordswap l) = l.
Proof.
  induction l as [l IH] using (well_founded_induction
    (Wf_nat.well_founded_ltof _ (@length byte))).
  destruct l as [|b0 [|b1 [|b2 [|b3 rest]]]]; try reflexivity.
  cbn [wordswap]. rewrite IH; [reflexivity|].
  unfold Wf_nat.ltof. cbn [length]. lia.
Qed.

Lemma nwords_spec (n : Z) (i : nat) :
  Z.of_nat i * 4 < n <-> (i < nwords n)%nat.
Proof.
  unfold nwords.
  pose proof (Z.div_mod (n + 3) 4 ltac:(lia)) as E.
  pose proof (Z.mod_pos_bound (n + 3) 4 ltac:(lia)) as B.
  split; intros H; lia.
Qed.

Lemma nwords_le (n : Z) : (nwords n <= Z.to_nat n)%nat.
Proof.
  unfold nwords.
  pose proof (Z.div_mod (n + 3) 4 ltac:(lia)) as E.
  pose proof (Z.mod_pos_bound (n + 3) 4 ltac:(lia)) as B.
  lia.
Qed.

Lemma nwords_mul4 (k : nat) : nwords (Z.of_nat (4 * k)) = k.
Proof.
  unfold nwords.
  replace (Z.of_nat (4 * k) + 3) with (3 + Z.of_nat k * 4) by lia.
  rewrite Z.div_add by lia. change (3 / 4) with 0. lia.
Qed.

Section HostFacts.

Variable host : endianness.

Lemma swap_word_reverses (b0 b1 b2 b3 : byte) :
  swap_word host [b0; b1; b2; b3] = [b3; b2; b1; b0].
Proof.
  unfold swap_word, uint32_of_bytes, uint32_bytes. destruct host.
  - rewrite bswap32_le_combine.
    exact (split_le_combine [b3; b2; b1; b0]).
  - cbn [rev app]. rewrite bswap32_le_combine.
    change 4%nat with (length [b0; b1; b2; b3]).
    rewrite split_le_combine. reflexivity.
Qed.

Lemma bswap_loop_fold (steps : nat) :
  forall (datbuf : list byte) (n : Z) (i : nat),
    (nwords n - i <= steps)%nat ->
    bswap_loop host steps datbuf n i
    = fold_left (bswap_at host) (seq i (nwords n - i)) datbuf.
Proof.
  induction steps as [|steps IH]; intros datbuf n i Hs; cbn [bswap_loop].
  - replace (nwords n - i)%nat with 0%nat by lia. reflexivity.
  - destruct (Z.ltb_spec (Z.of_nat i * 4) n) as [Hlt | Hge].
    + apply nwords_spec in Hlt.
      rewrite IH by lia.
      replace (nwords n - i)%nat with (S (nwords n - S i)) by lia.
      reflexivity.
    + assert (~ (i < nwords n)%nat) by (rewrite <- nwords_spec; lia).
      replace (nwords n - i)%nat with 0%nat by lia. reflexivity.
Qed.

Lemma bswap_at_words (datbuf : list byte) (k : nat) :
  (4 * S k <= length datbuf)%nat ->
  bswap_at host (wordswap (firstn (4 * k) datbuf) ++ skipn (4 * k) datbuf) k
  = wordswap (firstn (4 * S k) datbuf) ++ skipn (4 * S k) datbuf.
Proof.
  intros Hlen.
  assert (Hl : length (wordswap (firstn (4 * k) datbuf)) = (4 * k)%nat)
    by (rewrite wordswap_length, length_firstn; lia).
  unfold bswap_at.
  rewrite skipn_app, Hl, Nat.sub_diag, skipn_O.
  rewrite (skipn_all2 (wordswap _)) by lia. cbn [app].
  remember (skipn (4 * k) datbuf) as tl eqn:Htl.
  assert (Htll : (4 <= length tl)%nat) by (subst tl; rewrite length_skipn; lia).
  destruct tl as [|b0 [|b1 [|b2 [|b3 rest]]]]; try (cbn in Htll; lia).
  cbn [firstn]. rewrite swap_word_reverses.
  unfold store_at.
  rewrite firstn_app, Hl, Nat.sub_diag, firstn_O, app_nil_r.
  rewrite (firstn_all2 (wordswap _)) by lia.
  rewrite skipn_app, Hl.
  rewrite (skipn_all2 (wordswap _)) by (cbn [length]; lia).
  cbn [length app].
  replace (4 * k + 4 - 4 * k)%nat with 4%nat by lia. cbn [skipn].
  replace (4 * S k)%nat with (4 * k + 4)%nat by lia.
  pose proof (firstn_skipn (4 * k) datbuf) as Hd. rewrite <- Htl in Hd.
  assert (Hp : length (firstn (4 * k) datbuf) = (4 * k)%nat)
    by (rewrite length_firstn; lia).
  set (pre := firstn (4 * k) datbuf) in *. clearbody pre. subst datbuf.
  rewrite <- Hp, firstn_app_2, skipn_app.
  rewrite skipn_all2 by lia.
  replace (length pre + 4 - length pre)%nat with 4%nat by lia.
  cbn [firstn skipn app].
  rewrite wordswap_app
    by (rewrite Hp, Nat.mul_comm; apply Nat.Div0.mod_mul).
  rewrite <- app_assoc. reflexivity.
Qed.

Lemma fold_bswap_at_words (k : nat) (datbuf : list byte) :
  (4 * k <= length datbuf)%nat ->
  fold_left (bswap_at host) (seq 0 k) datbuf
  = wordswap (firstn (4 * k) datbuf) ++ skipn (4 * k) datbuf.
Proof.
  induction k as [|k IH]; intros Hlen.
  - reflexivity.
  - rewrite seq_S, fold_left_app, IH by lia. cbn [fold_left Nat.add].
    apply bswap_at_words. exact Hlen.
Qed.

(** What [xbit2bin_bswap] does to an array that holds the words it
    touches: the first [ceil(n/4)] words are reversed. *)
Lemma xbit2bin_bswap_words (datbuf : list byte) (n : Z) :
  (4 * nwords n <= length datbuf)%nat ->
  xbit2bin_bswap host datbuf n
  = wordswap (firstn (4 * nwords n) datbuf) ++ skipn (4 * nwords n) datbuf.
Proof.
  intros Hlen. unfold xbit2bin_bswap.
  rewrite bswap_loop_fold by (pose proof (nwords_le n); lia).
  rewrite Nat.sub_0_r. apply fold_bswap_at_words. exact Hlen.
Qed.

Lemma xbit2bin_bswap_aligned (datbuf : list byte) (k : nat) :
  (4 * k <= length datbuf)%nat ->
  xbit2bin_bswap host datbuf (Z.of_nat (4 * k))
  = wordswap (firstn (4 * k) datbuf) ++ skipn (4 * k) datbuf.
Proof.
  intros Hlen. rewrite xbit2bin_bswap_words; rewrite nwords_mul4; auto.
Qed.

End HostFacts.

(** ** The header analyzer *)

Lemma is_dummy_iff (b : byte) : is_dummy b = true <-> b = xff.
Proof.
  unfold is_dummy. split.
  - apply Strings.Byte.byte_dec_bl.
  - apply Strings.Byte.byte_dec_lb.
Qed.

Lemma dummies_at_repeat (pre post : list byte) (k : nat) :
  dummies_at (pre ++ repeat xff k ++ post) (length pre) k.
Proof.
  intros j Hj.
  rewrite nth_error_app2 by lia.
  replace (length pre + j - length pre)%nat with j by lia.
  rewrite nth_error_app1 by (rewrite repeat_length; lia).
  apply nth_error_repeat. exact Hj.
Qed.

Lemma dummies_at_shorter (hdr : list byte) (s len s' len' : nat) :
  dummies_at hdr s len -> (s <= s')%nat -> (s' + len' <= s + len)%nat ->
  dummies_at hdr s' len'.
Proof.
  intros H Hs Hl j Hj.
  replace (s' + j)%nat with (s + (s' - s + j))%nat by lia.
  apply H. lia.
Qed.

Lemma dummies_at_snoc (hdr : list byte) (i d : nat) :
  (d <= i)%nat -> dummies_at hdr (i - d) d -> nth_error hdr i = Some xff ->
  dummies_at hdr (S i - S d) (S d).
Proof.
  intros Hd H Hi j Hj.
  destruct (Nat.eq_dec j d) as [-> | Hne].
  - replace (S i - S d + d)%nat with i by lia. exact Hi.
  - replace (S i - S d + j)%nat with (i - d + j)%nat by lia. apply H. lia.
Qed.

Lemma dummies_at_nil (hdr : list byte) (s : nat) : dummies_at hdr s 0.
Proof. intros j Hj. lia. Qed.

Lemma dummy_run_spec (l : list byte) :
  forall k, dummies_at l 0 k <-> (k <= dummy_run l)%nat.
Proof.
  induction l as [|b l IH]; intros k; cbn [dummy_run].
  - split; intros H.
    + destruct k; [lia|]. specialize (H 0%nat ltac:(lia)). discriminate.
    + replace k with 0%nat by lia. apply dummies_at_nil.
  - destruct (is_dummy b) eqn:Hb.
    + apply is_dummy_iff in Hb. subst b.
      destruct k as [|k]; [split; [lia|intros _; apply dummies_at_nil]|].
      rewrite <- Nat.succ_le_mono, <- IH. split; intros H j Hj.
      * apply (H (S j)). lia.
      * destruct j as [|j]; [reflexivity|]. apply (H j). lia.
    + split; intros H.
      * destruct k; [lia|]. specialize (H 0%nat ltac:(lia)).
        injection H as ->. discriminate.
      * replace k with 0%nat by lia. apply dummies_at_nil.
Qed.

Lemma has_run32_iff (l : list byte) : has_run32 l = true <-> run32_in l.
Proof.
  induction l as [|b l IH].
  - split; [discriminate|]. intros [s Hs].
    specialize (Hs 0%nat ltac:(lia)). destruct s; discriminate.
  - cbn [has_run32]. rewrite Bool.orb_true_iff, Nat.leb_le, IH.
    rewrite <- dummy_run_spec. split.
    + intros [H | [s Hs]]; [exists 0%nat; exact H|].
      exists (S s). intros j Hj. apply (Hs j Hj).
    + intros [[|s] Hs]; [left; exact Hs|].
      right. exists s. intros j Hj. apply (Hs j Hj).
Qed.

Lemma has_run32_false (l : list byte) : has_run32 l = false -> ~ run32_in l.
Proof.
  intros H Hr. apply has_run32_iff in Hr. congruence.
Qed.

(** A list whose last byte is not 0xff (or that is empty). *)
Lemma last_no_dummy (l : list byte) :
  is_dummy (last l x00) = false ->
  nth_error l (length l - 1) <> Some xff.
Proof.
  induction l as [|a l IH]; [discriminate|].
  destruct l as [|a' l'].
  - cbn. intros Ha E. injection E as ->. discriminate.
  - intros Hl. cbn [length] in *.
    replace (S (S (length l')) - 1)%nat with (S (S (length l') - 1)) by lia.
    cbn [nth_error]. apply IH. exact Hl.
Qed.

Section Analyzer.

Variable host : endianness.

Lemma object_bytes_length (ws : list Z) :
  length (object_bytes host ws) = sizeof_words ws.
Proof.
  unfold object_bytes, sizeof_words.
  induction ws as [|w ws IH]; [reflexivity|].
  cbn [flat_map length]. rewrite length_app, IH.
  unfold uint32_bytes. destruct host; cbn [length]; rewrite ?length_rev;
    rewrite length_le_split; lia.
Qed.

Lemma marker_noswap : object_bytes host buswords_noswap = marker host false.
Proof. reflexivity. Qed.

Lemma marker_swap : object_bytes host buswords_swap = marker host true.
Proof. reflexivity. Qed.

Lemma marker_length (sw : bool) : length (marker host sw) = 8%nat.
Proof.
  unfold marker. rewrite object_bytes_length. destruct sw; reflexivity.
Qed.

Lemma marker_no_dummy (sw : bool) (b : byte) :
  In b (marker host sw) -> b <> xff.
Proof.
  unfold marker. intros Hin.
  destruct sw, host; vm_compute in Hin;
    repeat (destruct Hin as [<- | Hin]; [discriminate|]); contradiction.
Qed.

Lemma marker_distinct : marker host true <> marker host false.
Proof. unfold marker. destruct host; vm_compute; discriminate. Qed.

Lemma scan_dummies_sound (steps : nat) :
  forall (hdr : list byte) (i d i' d' : nat),
    scan_dummies steps hdr i d = Some (i', d') ->
    (d <= i)%nat -> dummies_at hdr (i - d) d ->
    (i <= i' <= i + steps)%nat /\ (d' <= i')%nat /\
    dummies_at hdr (i' - d') d' /\
    (i' < i + steps -> 32 <= d')%nat.
Proof.
  induction steps as [|steps IH]; intros hdr i d i' d' Hscan Hd Hrun;
    cbn [scan_dummies] in Hscan.
  - injection Hscan as <- <-. repeat split; auto; lia.
  - destruct (nth_error hdr i) as [b|] eqn:Hb; [|discriminate].
    destruct (is_dummy b) eqn:Hff.
    + apply is_dummy_iff in Hff. subst b.
      apply IH in Hscan; [|lia|apply dummies_at_snoc; auto].
      destruct Hscan as (H1 & H2 & H3 & H4). repeat split; auto; lia.
    + destruct (Nat.leb_spec 32 d) as [H32 | H32].
      * injection Hscan as <- <-. repeat split; auto; lia.
      * apply IH in Hscan; [|lia|rewrite Nat.sub_0_r; apply dummies_at_nil].
        destruct Hscan as (H1 & H2 & H3 & H4). repeat split; auto; lia.
Qed.

Lemma scan_dummies_defined (steps : nat) :
  forall (hdr : list byte) (i d : nat),
    (i + steps <= length hdr)%nat ->
    exists i' d', scan_dummies steps hdr i d = Some (i', d').
Proof.
  induction steps as [|steps IH]; intros hdr i d Hlen; cbn [scan_dummies].
  - eauto.
  - destruct (nth_error hdr i) as [b|] eqn:Hb.
    + destruct (is_dummy b); [apply IH; lia|].
      destruct (32 <=? d)%nat; [eauto | apply IH; lia].
    + apply nth_error_None in Hb. lia.
Qed.

Lemma memcmp_eq_defined (hdr : list byte) (i : nat) (obj : list byte) :
  (i + length obj <= length hdr)%nat ->
  memcmp_eq hdr i obj
  = Some (if list_eq_dec Strings.Byte.byte_eq_dec
               (firstn (length obj) (skipn i hdr)) obj
          then true else false).
Proof.
  intros Hlen. unfold memcmp_eq.
  rewrite length_firstn, length_skipn, Nat.min_l by lia.
  rewrite Nat.eqb_refl. reflexivity.
Qed.

Lemma scan_steps_eq : scan_steps = 248%nat.
Proof. reflexivity. Qed.

Lemma scan_header_sound (hdr : list byte) (i d : nat) :
  scan_dummies scan_steps hdr 0 0 = Some (i, d) ->
  (i <= 248)%nat /\ (d <= i)%nat /\ dummies_at hdr (i - d) d.
Proof.
  intros H.
  apply scan_dummies_sound in H; [|lia|apply dummies_at_nil].
  rewrite scan_steps_eq in H.
  destruct H as (H1 & H2 & H3 & _). repeat split; auto; lia.
Qed.

(** The analyzer in terms of its scan, for a buffer that holds the eight
    bytes after every position where the scan can stop. *)
Lemma analyze_by_scan (hdr : list byte) (i d : nat) :
  (MAXHDR <= length hdr)%nat ->
  scan_dummies scan_steps hdr 0 0 = Some (i, d) ->
  analyze_xilinx_header host hdr
  = Some (if (d <? 32)%nat then (-1, false)
          else if list_eq_dec Strings.Byte.byte_eq_dec
                    (firstn 8 (skipn i hdr)) (marker host false)
               then (Z.of_nat i - 32, false)
               else if list_eq_dec Strings.Byte.byte_eq_dec
                         (firstn 8 (skipn i hdr)) (marker host true)
                    then (Z.of_nat i - 32, true)
                    else (-1, false)).
Proof.
  intros Hlen Hscan. unfold analyze_xilinx_header.
  pose proof (scan_header_sound _ _ _ Hscan) as (Hi & _).
  rewrite Hscan.
  destruct (d <? 32)%nat; [reflexivity|].
  rewrite marker_noswap, marker_swap.
  rewrite !memcmp_eq_defined
    by (rewrite marker_length; unfold MAXHDR in Hlen; lia).
  rewrite !marker_length.
  destruct (list_eq_dec Strings.Byte.byte_eq_dec
              (firstn 8 (skipn i hdr)) (marker host false)); [reflexivity|].
  destruct (list_eq_dec Strings.Byte.byte_eq_dec
              (firstn 8 (skipn i hdr)) (marker host true)); reflexivity.
Qed.

(** No access of the analyzer leaves a buffer of [MAXHDR] bytes. *)
Lemma analyze_defined (hdr : list byte) :
  (MAXHDR <= length hdr)%nat ->
  exists r, analyze_xilinx_header host hdr = Some r.
Proof.
  intros Hlen.
  destruct (scan_dummies_defined scan_steps hdr 0 0) as (i & d & Hscan).
  { rewrite scan_steps_eq. unfold MAXHDR in Hlen. lia. }
  rewrite (analyze_by_scan hdr i d Hlen Hscan). eauto.
Qed.

(** What a successful analysis has seen. *)
Lemma analyze_success (hdr : list byte) (strip : Z) (do_swap : bool) :
  (MAXHDR <= length hdr)%nat ->
  analyze_xilinx_header host hdr = Some (strip, do_swap) ->
  0 <= strip ->
  exists i d,
    scan_dummies scan_steps hdr 0 0 = Some (i, d) /\ (32 <= d)%nat /\
    strip = Z.of_nat i - 32 /\
    firstn 8 (skipn i hdr) = marker host do_swap.
Proof.
  intros Hlen Han Hpos.
  destruct (scan_dummies_defined scan_steps hdr 0 0) as (i & d & Hscan).
  { rewrite scan_steps_eq. unfold MAXHDR in Hlen. lia. }
  rewrite (analyze_by_scan hdr i d Hlen Hscan) in Han.
  exists i, d. split; [exact Hscan|].
  destruct (Nat.ltb_spec d 32) as [Hd | Hd].
  { injection Han as <- <-. lia. }
  destruct (list_eq_dec _ _ (marker host false)) as [E0 | N0].
  { injection Han as <- <-. auto. }
  destruct (list_eq_dec _ _ (marker host true)) as [E1 | N1].
  { injection Han as <- <-. auto. }
  injection Han as <- <-. lia.
Qed.

(** An analysis that finds no 32 dummy bytes in a row fails. *)
Lemma analyze_no_run32 (hdr : list byte) :
  (MAXHDR <= length hdr)%nat -> ~ run32_in hdr ->
  analyze_xilinx_header host hdr = Some (-1, false).
Proof.
  intros Hlen Hno.
  destruct (scan_dummies_defined scan_steps hdr 0 0) as (i & d & Hscan).
  { rewrite scan_steps_eq. unfold MAXHDR in Hlen. lia. }
  rewrite (analyze_by_scan hdr i d Hlen Hscan).
  destruct (Nat.ltb_spec d 32) as [Hd | Hd]; [reflexivity|].
  exfalso. apply Hno. exists (i - 32)%nat.
  apply scan_header_sound in Hscan. destruct Hscan as (_ & Hdi & Hrun).
  apply (dummies_at_shorter hdr (i - d) d); auto; lia.
Qed.

(** The scan does not stop where no 32 dummy bytes in a row lie behind. *)
Lemma scan_dummies_skip (m : nat) :
  forall (steps : nat) (hdr : list byte) (i d : nat),
    (m <= steps)%nat -> (d <= i)%nat -> dummies_at hdr (i - d) d ->
    (i + m <= length hdr)%nat ->
    (forall s, (s + 32 <= i + m)%nat -> ~ dummies_at hdr s 32) ->
    exists d',
      scan_dummies steps hdr i d = scan_dummies (steps - m) hdr (i + m) d' /\
      (d' <= i + m)%nat /\ dummies_at hdr (i + m - d') d'.
Proof.
  induction m as [|m IH]; intros steps hdr i d Hm Hd Hrun Hlen Hno.
  - exists d. rewrite Nat.sub_0_r, Nat.add_0_r. auto.
  - destruct steps as [|steps]; [lia|]. cbn [scan_dummies].
    destruct (nth_error hdr i) as [b|] eqn:Hb;
      [|apply nth_error_None in Hb; lia].
    replace (i + S m)%nat with (S i + m)%nat in * by lia.
    replace (S steps - S m)%nat with (steps - m)%nat by lia.
    destruct (is_dummy b) eqn:Hff.
    + apply is_dummy_iff in Hff. subst b.
      apply IH; auto; try lia. apply dummies_at_snoc; auto.
    + destruct (Nat.leb_spec 32 d) as [H32 | H32].
      * exfalso. apply (Hno (i - 32)%nat); [lia|].
        apply (dummies_at_shorter hdr (i - d) d); auto; lia.
      * apply IH; auto; try lia.
        rewrite Nat.sub_0_r. apply dummies_at_nil.
Qed.

(** The scan counts its way through dummy bytes. *)
Lemma scan_dummies_run (k : nat) :
  forall (steps : nat) (hdr : list byte) (i d : nat),
    (k <= steps)%nat -> dummies_at hdr i k ->
    scan_dummies steps hdr i d = scan_dummies (steps - k) hdr (i + k) (d + k).
Proof.
  induction k as [|k IH]; intros steps hdr i d Hk Hrun.
  - rewrite Nat.sub_0_r, !Nat.add_0_r. reflexivity.
  - destruct steps as [|steps]; [lia|]. cbn [scan_dummies].
    assert (Hb : nth_error hdr i = Some xff)
      by (rewrite <- (Nat.add_0_r i); apply Hrun; lia).
    rewrite Hb.
    replace (is_dummy xff) with true by reflexivity.
    rewrite IH; [|lia|].
    + f_equal; lia.
    + apply (dummies_at_shorter hdr i (S k)); auto; lia.
Qed.

(** The scan of a header made of [pre], [k] dummy bytes, eight bytes [m]
    that start with another byte, and [post], stops at [m]. *)
Lemma scan_header_structured (pre m post : list byte) (k : nat) :
  ~ run32_in pre -> (32 <= k)%nat ->
  length m = 8%nat -> nth_error m 0 <> Some xff ->
  length (pre ++ repeat xff k ++ m ++ post) = MAXHDR ->
  exists d,
    scan_dummies scan_steps (pre ++ repeat xff k ++ m ++ post) 0 0
    = Some ((length pre + k)%nat, d) /\ (32 <= d)%nat.
Proof.
  intros Hpre Hk Hml Hm0 Hlen.
  set (hdr := pre ++ repeat xff k ++ m ++ post) in *.
  assert (Hl : (length pre + k + 8 + length post = 256)%nat).
  { unfold hdr, MAXHDR in Hlen.
    rewrite !length_app, repeat_length, Hml in Hlen. lia. }
  rewrite scan_steps_eq.
  destruct (scan_dummies_skip (length pre) 248 hdr 0 0) as (d & E & Hd & Hrun);
    try lia.
  { apply dummies_at_nil. }
  { rewrite Hlen. unfold MAXHDR. lia. }
  { intros s Hs Hw. apply Hpre. exists s. intros j Hj.
    rewrite <- (Hw j Hj). unfold hdr.
    symmetry. apply nth_error_app1. cbn [Nat.add] in Hs. lia. }
  rewrite E. cbn [Nat.add].
  rewrite (scan_dummies_run k) by (try lia; apply dummies_at_repeat).
  exists (d + k)%nat. split; [|lia].
  destruct (248 - length pre - k)%nat as [|steps] eqn:Esteps;
    cbn [scan_dummies]; [reflexivity|].
  destruct m as [|b m']; [discriminate|].
  assert (Hb : nth_error hdr (length pre + k) = Some b).
  { unfold hdr. rewrite nth_error_app2 by lia.
    rewrite nth_error_app2 by (rewrite repeat_length; lia).
    rewrite repeat_length.
    replace (length pre + k - length pre - k)%nat with 0%nat by lia.
    reflexivity. }
  rewrite Hb.
  assert (Hnd : is_dummy b = false).
  { destruct (is_dummy b) eqn:Hff; [|reflexivity].
    apply is_dummy_iff in Hff. subst b. exfalso. apply Hm0. reflexivity. }
  rewrite Hnd.
  destruct (Nat.leb_spec 32 (d + k)) as [H32 | H32]; [reflexivity|lia].
Qed.

(** The eight bytes that the analyzer compares in such a header. *)
Lemma structured_compared (pre m post : list byte) (k : nat) :
  length m = 8%nat ->
  firstn 8 (skipn (length pre + k) (pre ++ repeat xff k ++ m ++ post)) = m.
Proof.
  intros Hml.
  rewrite app_assoc, skipn_app.
  rewrite skipn_all2 by (rewrite length_app, repeat_length; lia).
  rewrite length_app, repeat_length, Nat.sub_diag, skipn_O. cbn [app].
  rewrite firstn_app, Hml, Nat.sub_diag, firstn_O, app_nil_r.
  apply firstn_all2. lia.
Qed.

Lemma marker_first_no_dummy (sw : bool) :
  nth_error (marker host sw) 0 <> Some xff.
Proof.
  intros H. apply nth_error_In in H. exact (marker_no_dummy sw _ H eq_refl).
Qed.

(** The analysis of such a header when [m] is a marker. *)
Lemma analyze_structured (pre post : list byte) (k : nat) (sw : bool) :
  ~ run32_in pre -> (32 <= k)%nat ->
  length (pre ++ repeat xff k ++ marker host sw ++ post) = MAXHDR ->
  analyze_xilinx_header host (pre ++ repeat xff k ++ marker host sw ++ post)
  = Some (Z.of_nat (length pre + k) - 32, sw).
Proof.
  intros Hpre Hk Hlen.
  destruct (scan_header_structured pre (marker host sw) post k Hpre Hk
              (marker_length sw) (marker_first_no_dummy sw) Hlen)
    as (d & Hscan & Hd).
  rewrite (analyze_by_scan _ _ _ ltac:(rewrite Hlen; lia) Hscan).
  destruct (Nat.ltb_spec d 32) as [Hd' | _]; [lia|].
  rewrite structured_compared by apply marker_length.
  destruct sw.
  - destruct (list_eq_dec Strings.Byte.byte_eq_dec
                (marker host true) (marker host false))
      as [E | _]; [exfalso; exact (marker_distinct E)|].
    destruct (list_eq_dec Strings.Byte.byte_eq_dec
                (marker host true) (marker host true))
      as [_ | N]; [reflexivity|congruence].
  - destruct (list_eq_dec Strings.Byte.byte_eq_dec
                (marker host false) (marker host false))
      as [_ | N]; [reflexivity|congruence].
Qed.

(** The analysis of such a header when [m] is none of the two markers. *)
Lemma analyze_unknown_marker (pre m post : list byte) (k : nat) :
  ~ run32_in pre -> (32 <= k)%nat ->
  length m = 8%nat -> nth_error m 0 <> Some xff ->
  m <> marker host false -> m <> marker host true ->
  length (pre ++ repeat xff k ++ m ++ post) = MAXHDR ->
  analyze_xilinx_header host (pre ++ repeat xff k ++ m ++ post)
  = Some (-1, false).
Proof.
  intros Hpre Hk Hml Hm0 Hn0 Hn1 Hlen.
  destruct (scan_header_structured pre m post k Hpre Hk Hml Hm0 Hlen)
    as (d & Hscan & Hd).
  rewrite (analyze_by_scan _ _ _ ltac:(rewrite Hlen; lia) Hscan).
  destruct (Nat.ltb_spec d 32) as [Hd' | _]; [lia|].
  rewrite structured_compared by exact Hml.
  destruct (list_eq_dec Strings.Byte.byte_eq_dec m (marker host false))
    as [E | _]; [contradiction|].
  destruct (list_eq_dec Strings.Byte.byte_eq_dec m (marker host true))
    as [E | _]; [contradiction|reflexivity].
Qed.

(** A header whose longest run of dummy bytes before a marker is shorter
    than 32, and that has no such run elsewhere, has none at all. *)
Lemma no_run32_structured (pre post : list byte) (k : nat) (sw : bool) :
  (k < 32)%nat -> ~ run32_in pre ->
  nth_error pre (length pre - 1) <> Some xff ->
  ~ run32_in post ->
  ~ run32_in (pre ++ repeat xff k ++ marker host sw ++ post).
Proof.
  intros Hk Hpre Hlast Hpost [s Hw].
  set (hdr := pre ++ repeat xff k ++ marker host sw ++ post) in *.
  pose proof (marker_length sw) as Hml.
  assert (Hin_marker :
            forall j, (length pre + k <= j < length pre + k + 8)%nat ->
                      nth_error hdr j <> Some xff).
  { intros j Hj Hx. unfold hdr in Hx.
    rewrite nth_error_app2 in Hx by lia.
    rewrite nth_error_app2 in Hx by (rewrite repeat_length; lia).
    rewrite nth_error_app1 in Hx by (rewrite repeat_length; lia).
    apply nth_error_In in Hx. exact (marker_no_dummy sw _ Hx eq_refl). }
  destruct (Nat.le_gt_cases (s + 32) (length pre)) as [H1 | H1].
  { apply Hpre. exists s. intros j Hj. rewrite <- (Hw j Hj).
    unfold hdr. symmetry. apply nth_error_app1. lia. }
  destruct (Nat.lt_ge_cases s (length pre)) as [H2 | H2].
  { apply Hlast.
    specialize (Hw (length pre - 1 - s)%nat ltac:(lia)).
    replace (s + (length pre - 1 - s))%nat with (length pre - 1)%nat in Hw
      by lia.
    unfold hdr in Hw. rewrite nth_error_app1 in Hw by lia. exact Hw. }
  destruct (Nat.lt_ge_cases s (length pre + k)) as [H3 | H3].
  { apply (Hin_marker (length pre + k)%nat); [lia|].
    specialize (Hw (length pre + k - s)%nat ltac:(lia)).
    replace (s + (length pre + k - s))%nat with (length pre + k)%nat in Hw
      by lia.
    exact Hw. }
  destruct (Nat.lt_ge_cases s (length pre + k + 8)) as [H4 | H4].
  { apply (Hin_marker s); [lia|].
    specialize (Hw 0%nat ltac:(lia)). rewrite Nat.add_0_r in Hw. exact Hw. }
  apply Hpost. exists (s - (length pre + k + 8))%nat. intros j Hj.
  rewrite <- (Hw j Hj). unfold hdr.
  rewrite nth_error_app2 by lia.
  rewrite nth_error_app2 by (rewrite repeat_length; lia).
  rewrite nth_error_app2 by (rewrite repeat_length; lia).
  rewrite repeat_length, Hml. f_equal. lia.
Qed.

(** Where the scan is, no 32 dummy bytes in a row lie before the run that
    it is counting, and that run cannot be made longer to the left. *)
Lemma scan_dummies_first (steps : nat) :
  forall (hdr : list byte) (i d i' d' : nat),
    scan_dummies steps hdr i d = Some (i', d') ->
    (d <= i)%nat -> dummies_at hdr (i - d) d ->
    (i = d \/ nth_error hdr (i - d - 1) <> Some xff) ->
    (forall s, (s + 32 <= i - d)%nat -> ~ dummies_at hdr s 32) ->
    (i' = d' \/ nth_error hdr (i' - d' - 1) <> Some xff) /\
    (forall s, (s + 32 <= i' - d')%nat -> ~ dummies_at hdr s 32).
Proof.
  induction steps as [|steps IH]; intros hdr i d i' d' Hscan Hd Hrun Hmax Hno;
    cbn [scan_dummies] in Hscan.
  - injection Hscan as <- <-. auto.
  - destruct (nth_error hdr i) as [b|] eqn:Hb; [|discriminate].
    destruct (is_dummy b) eqn:Hff.
    + apply is_dummy_iff in Hff. subst b.
      apply IH in Hscan; auto; try lia.
      * apply dummies_at_snoc; auto.
      * destruct Hmax as [-> | Hmax]; [left; reflexivity|].
        right. replace (S i - S d - 1)%nat with (i - d - 1)%nat by lia.
        exact Hmax.
    + destruct (Nat.leb_spec 32 d) as [H32 | H32].
      * injection Hscan as <- <-. auto.
      * apply IH in Hscan; auto; try lia.
        -- rewrite Nat.sub_0_r. apply dummies_at_nil.
        -- right. replace (S i - 0 - 1)%nat with i by lia.
           rewrite Hb. intros E. injection E as ->. discriminate.
        -- intros s Hs Hw. rewrite Nat.sub_0_r in Hs.
           destruct (Nat.eq_dec (s + 32) (S i)) as [E | NE].
           { specialize (Hw 31%nat ltac:(lia)).
             replace (s + 31)%nat with i in Hw by lia.
             rewrite Hb in Hw. injection Hw as ->. discriminate. }
           destruct (Nat.le_gt_cases (s + 32) (i - d)) as [Hl | Hg].
           { exact (Hno s Hl Hw). }
           destruct Hmax as [-> | Hmax]; [lia|].
           apply Hmax.
           specialize (Hw (i - d - 1 - s)%nat ltac:(lia)).
           replace (s + (i - d - 1 - s))%nat with (i - d - 1)%nat in Hw by lia.
           exact Hw.
Qed.

Lemma skipn_nth_error (l : list byte) :
  forall (s : nat) (b : byte),
    nth_error l s = Some b -> skipn s l = b :: skipn (S s) l.
Proof.
  induction l as [|a l IH]; intros [|s] b H; try discriminate.
  - injection H as ->. reflexivity.
  - cbn [nth_error] in H. cbn [skipn]. apply IH. exact H.
Qed.

Lemma dummies_at_firstn (hdr : list byte) (s d : nat) :
  dummies_at hdr s d -> firstn d (skipn s hdr) = repeat xff d.
Proof.
  revert s. induction d as [|d IH]; intros s H; [reflexivity|].
  assert (H0 : nth_error hdr s = Some xff)
    by (rewrite <- (Nat.add_0_r s); apply H; lia).
  rewrite (skipn_nth_error hdr s xff H0).
  cbn [firstn repeat]. f_equal.
  apply IH. intros j Hj.
  replace (S s + j)%nat with (s + S j)%nat by lia. apply H. lia.
Qed.

(** Every header of 256 bytes that the analysis accepts is made of bytes
    [pre] without 32 dummy bytes in a row, a run of [k >= 32] dummy bytes,
    the marker and the rest; the offset is the position of the marker
    minus 32. *)
Lemma analyze_success_structure (hdr : list byte) (strip : Z)
  (do_swap : bool) :
  length hdr = MAXHDR ->
  analyze_xilinx_header host hdr = Some (strip, do_swap) -> 0 <= strip ->
  exists pre k post,
    hdr = pre ++ repeat xff k ++ marker host do_swap ++ post /\
    has_run32 pre = false /\ (32 <= k)%nat /\
    strip = Z.of_nat (length pre + k) - 32.
Proof.
  intros Hlen Han Hpos.
  pose proof (eq_refl : MAXHDR = 256%nat) as HM.
  destruct (analyze_success hdr strip do_swap ltac:(lia) Han Hpos)
    as (i & d & Hscan & Hd & -> & Hm).
  pose proof (scan_header_sound _ _ _ Hscan) as (Hi & Hdi & Hrun).
  pose proof (scan_dummies_first _ _ _ _ _ _ Hscan ltac:(lia)
                (dummies_at_nil _ _) (or_introl eq_refl)
                ltac:(intros s Hs; cbn in Hs; lia)) as (_ & Hno).
  exists (firstn (i - d) hdr), d, (skipn (i + 8) hdr).
  assert (Hpl : length (firstn (i - d) hdr) = (i - d)%nat)
    by (rewrite length_firstn; lia).
  repeat apply conj.
  - rewrite <- Hm, <- (dummies_at_firstn hdr (i - d) d Hrun).
    rewrite <- (firstn_skipn (i - d) hdr) at 1. f_equal.
    rewrite <- (firstn_skipn d (skipn (i - d) hdr)) at 1. f_equal.
    rewrite skipn_skipn. replace (d + (i - d))%nat with i by lia.
    rewrite <- (firstn_skipn 8 (skipn i hdr)) at 1. f_equal.
    rewrite skipn_skipn. f_equal. lia.
  - destruct (has_run32 (firstn (i - d) hdr)) eqn:E; [|reflexivity].
    exfalso. apply has_run32_iff in E. destruct E as [s Hs].
    assert (Hin : (s + 32 <= i - d)%nat).
    { assert (Hn : nth_error (firstn (i - d) hdr) (s + 31) <> None)
        by (rewrite (Hs 31%nat); [discriminate|lia]).
      apply nth_error_Some in Hn. lia. }
    apply (Hno s Hin). intros j Hj.
    rewrite <- (Hs j Hj).
    rewrite <- (firstn_skipn (i - d) hdr) at 1.
    apply nth_error_app1. lia.
  - exact Hd.
  - rewrite Hpl. lia.
Qed.

End Analyzer.

(** ** The word swapper on any array *)

Lemma complete_words_all (l : list byte) :
  (length l mod 4 = 0)%nat -> complete_words l = l.
Proof.
  intros H. unfold complete_words. apply firstn_all2.
  pose proof (Nat.div_mod_eq (length l) 4). lia.
Qed.

Lemma complete_words_app (l1 l2 : list byte) :
  (length l1 mod 4 = 0)%nat ->
  complete_words (l1 ++ l2) = l1 ++ complete_words l2.
Proof.
  intros H. unfold complete_words. rewrite length_app.
  pose proof (Nat.div_mod_eq (length l1) 4) as E. rewrite H, Nat.add_0_r in E.
  replace (length l1 + length l2)%nat
    with (length l2 + (length l1 / 4) * 4)%nat by lia.
  rewrite Nat.div_add by lia.
  replace (4 * (length l2 / 4 + length l1 / 4))%nat
    with (length l1 + 4 * (length l2 / 4))%nat by lia.
  apply firstn_app_2.
Qed.

Section Swapper.

Variable host : endianness.

Lemma bswap_at_cases (datbuf : list byte) (i : nat) :
  bswap_at host datbuf i = datbuf \/
  exists b0 b1 b2 b3,
    firstn 4 (skipn (4 * i) datbuf) = [b0; b1; b2; b3] /\
    (4 * i + 4 <= length datbuf)%nat /\
    bswap_at host datbuf i = store_at datbuf (4 * i) [b3; b2; b1; b0].
Proof.
  unfold bswap_at.
  destruct (firstn 4 (skipn (4 * i) datbuf))
    as [|b0 [|b1 [|b2 [|b3 [|b4 tl]]]]] eqn:E; auto.
  right. exists b0, b1, b2, b3. split; [reflexivity|].
  rewrite swap_word_reverses. split; [|reflexivity].
  apply (f_equal (@length byte)) in E.
  rewrite length_firstn, length_skipn in E. cbn [length] in E. lia.
Qed.

Lemma bswap_at_length (datbuf : list byte) (i : nat) :
  length (bswap_at host datbuf i) = length datbuf.
Proof.
  destruct (bswap_at_cases datbuf i)
    as [-> | (b0 & b1 & b2 & b3 & _ & Hl & ->)]; [reflexivity|].
  apply store_at_length. cbn [length]. lia.
Qed.

Lemma bswap_at_firstn (datbuf : list byte) (i m : nat) :
  (m <= 4 * i)%nat ->
  firstn m (bswap_at host datbuf i) = firstn m datbuf.
Proof.
  intros Hm.
  destruct (bswap_at_cases datbuf i)
    as [-> | (b0 & b1 & b2 & b3 & _ & Hl & ->)]; [reflexivity|].
  unfold store_at. rewrite firstn_app, firstn_firstn, Nat.min_l by lia.
  rewrite length_firstn, Nat.min_l by lia.
  replace (m - 4 * i)%nat with 0%nat by lia.
  rewrite firstn_O, app_nil_r. reflexivity.
Qed.

Lemma fold_bswap_at_length (k : nat) :
  forall (i : nat) (datbuf : list byte),
    length (fold_left (bswap_at host) (seq i k) datbuf) = length datbuf.
Proof.
  induction k as [|k IH]; intros i datbuf; cbn [seq fold_left].
  - reflexivity.
  - rewrite IH. apply bswap_at_length.
Qed.

Lemma fold_bswap_at_firstn (k : nat) :
  forall (i : nat) (datbuf : list byte) (m : nat),
    (m <= 4 * i)%nat ->
    firstn m (fold_left (bswap_at host) (seq i k) datbuf) = firstn m datbuf.
Proof.
  induction k as [|k IH]; intros i datbuf m Hm; cbn [seq fold_left].
  - reflexivity.
  - rewrite IH by lia. apply bswap_at_firstn. exact Hm.
Qed.

Lemma xbit2bin_bswap_fold (datbuf : list byte) (n : Z) :
  xbit2bin_bswap host datbuf n
  = fold_left (bswap_at host) (seq 0 (nwords n)) datbuf.
Proof.
  unfold xbit2bin_bswap.
  rewrite bswap_loop_fold by (pose proof (nwords_le n); lia).
  rewrite Nat.sub_0_r. reflexivity.
Qed.

(** A buffer of a whole number of words, swapped over its length. *)
Lemma xbit2bin_bswap_whole (buf : list byte) :
  (length buf mod 4 = 0)%nat ->
  xbit2bin_bswap host buf (Z.of_nat (length buf)) = wordswap buf.
Proof.
  intros Hmod.
  pose proof (Nat.div_mod_eq (length buf) 4) as E.
  rewrite Hmod, Nat.add_0_r in E.
  rewrite E at 1. rewrite xbit2bin_bswap_aligned by lia.
  rewrite <- E, firstn_all, skipn_all, app_nil_r. reflexivity.
Qed.

Lemma xbit2bin_bswap_length (datbuf : list byte) (n : Z) :
  length (xbit2bin_bswap host datbuf n) = length datbuf.
Proof. rewrite xbit2bin_bswap_fold. apply fold_bswap_at_length. Qed.

(** Whatever [n] is, the complete words among the first [n] bytes come
    out reversed. *)
Lemma xbit2bin_bswap_complete (datbuf : list byte) (n : nat) :
  (n <= length datbuf)%nat ->
  firstn (4 * (n / 4)) (xbit2bin_bswap host datbuf (Z.of_nat n))
  = wordswap (firstn (4 * (n / 4)) datbuf).
Proof.
  intros Hn. rewrite xbit2bin_bswap_fold.
  pose proof (Nat.div_mod_eq n 4) as E.
  pose proof (Nat.mod_upper_bound n 4 ltac:(lia)) as B.
  assert (Hq : (n / 4 <= nwords (Z.of_nat n))%nat).
  { destruct (Nat.le_gt_cases (n / 4) (nwords (Z.of_nat n))) as [H | H]; auto.
    assert (Hlt : (nwords (Z.of_nat n) < n / 4)%nat) by lia.
    assert (~ (Z.of_nat (n / 4 - 1) * 4 < Z.of_nat n)) as Hc
      by (rewrite nwords_spec; lia).
    lia. }
  replace (nwords (Z.of_nat n)) with (n / 4 + (nwords (Z.of_nat n) - n / 4))%nat
    by lia.
  rewrite seq_app, fold_left_app.
  rewrite fold_bswap_at_firstn by lia.
  rewrite fold_bswap_at_words by lia.
  rewrite firstn_app, wordswap_length, length_firstn, Nat.min_l by lia.
  rewrite Nat.sub_diag, firstn_O, app_nil_r.
  apply firstn_all2. rewrite wordswap_length, length_firstn. lia.
Qed.

End Swapper.

(** ** Reading and writing *)

Lemma DATBUF_SIZE_eq : DATBUF_SIZE = (4 * (128 * 128))%nat.
Proof. unfold DATBUF_SIZE. lia. Qed.

Lemma read_nonempty (w : world) (buf : list byte) (off count : nat) :
  fin w <> [] ->
  read w buf off count
  = (Z.of_nat (length (firstn count (fin w))),
     store_at buf off (firstn count (fin w)),
     mkWorld (skipn count (fin w)) (fin_error w) (fout w) (fout_room w)).
Proof. unfold read. destruct (fin w); [congruence|reflexivity]. Qed.

Lemma read_eof (w : world) (buf : list byte) (off count : nat) :
  fin w = [] ->
  read w buf off count = ((if fin_error w then -1 else 0), buf, w).
Proof. unfold read. intros ->. reflexivity. Qed.

Lemma write_unlimited (w : world) (buf : list byte) (n : Z) :
  fout_room w = None ->
  write w buf n
  = (Z.of_nat (length (firstn (Z.to_nat n) buf)),
     mkWorld (fin w) (fin_error w) (fout w ++ firstn (Z.to_nat n) buf) None).
Proof. unfold write. intros ->. reflexivity. Qed.

Section Transcoder.

Variable host : endianness.

Lemma scan_dummies_app (steps : nat) :
  forall (hdr extra : list byte) (i d : nat),
    (i + steps <= length hdr)%nat ->
    scan_dummies steps (hdr ++ extra) i d = scan_dummies steps hdr i d.
Proof.
  induction steps as [|steps IH]; intros hdr extra i d Hlen;
    cbn [scan_dummies]; [reflexivity|].
  rewrite nth_error_app1 by lia.
  destruct (nth_error hdr i) as [b|]; [|reflexivity].
  rewrite !IH by lia. reflexivity.
Qed.

(** The analyzer looks at the first [MAXHDR] bytes only. *)
Lemma analyze_app (hdr extra : list byte) :
  length hdr = MAXHDR ->
  analyze_xilinx_header host (hdr ++ extra) = analyze_xilinx_header host hdr.
Proof.
  intros Hlen.
  destruct (scan_dummies_defined scan_steps hdr 0 0) as (i & d & Hscan).
  { rewrite scan_steps_eq, Hlen. unfold MAXHDR. lia. }
  pose proof (scan_header_sound _ _ _ Hscan) as (Hi & _).
  assert (Hscan' : scan_dummies scan_steps (hdr ++ extra) 0 0 = Some (i, d)).
  { rewrite scan_dummies_app; [exact Hscan|].
    rewrite scan_steps_eq, Hlen. unfold MAXHDR. lia. }
  rewrite (analyze_by_scan host _ _ _ ltac:(rewrite Hlen; lia) Hscan).
  rewrite (analyze_by_scan host _ _ _
             ltac:(rewrite length_app, Hlen; lia) Hscan').
  unfold MAXHDR in Hlen.
  rewrite skipn_app, firstn_app, length_skipn.
  replace (8 - (length hdr - i))%nat with 0%nat by lia.
  rewrite firstn_O, app_nil_r. reflexivity.
Qed.

(** *** The loop that copies the rest *)

Lemma copy_rest_eof (fuel : nat) (do_swap : bool) (datbuf : list byte)
  (w : world) :
  fin w = [] -> fin_error w = false ->
  copy_rest host (S fuel) do_swap datbuf w = Some (Converted, w).
Proof.
  intros Hfin Herr. cbn [copy_rest].
  rewrite read_eof by exact Hfin. rewrite Herr. reflexivity.
Qed.

(** One turn of the loop on an input that is not at its end. *)
Lemma copy_rest_step (fuel : nat) (do_swap : bool) (datbuf : list byte)
  (w : world) :
  fin w <> [] -> fout_room w = None ->
  let got := firstn DATBUF_SIZE (fin w) in
  let datbuf1 := store_at datbuf 0 got in
  let datbuf2 := if do_swap
                 then xbit2bin_bswap host datbuf1 (Z.of_nat (length got))
                 else datbuf1 in
  copy_rest host (S fuel) do_swap datbuf w
  = copy_rest host fuel do_swap datbuf2
      (mkWorld (skipn DATBUF_SIZE (fin w)) (fin_error w)
               (fout w ++ firstn (length got) datbuf2) None).
Proof.
  intros Hfin Hroom got datbuf1 datbuf2. cbn [copy_rest].
  rewrite read_nonempty by exact Hfin.
  fold got. fold datbuf1.
  assert (Hgot : (0 < length got)%nat).
  { unfold got. rewrite length_firstn. pose proof DATBUF_SIZE_eq.
    destruct (fin w); [congruence|cbn [length]; lia]. }
  destruct (Z.eqb_spec (Z.of_nat (length got)) 0) as [E | _]; [lia|].
  destruct (Z.ltb_spec (Z.of_nat (length got)) 0) as [E | _]; [lia|].
  fold datbuf2.
  rewrite write_unlimited by exact Hroom.
  rewrite Nat2Z.id. cbn [fin fin_error fout].
  assert (Hlen : (length got <= length datbuf2)%nat).
  { unfold datbuf2. destruct do_swap; [rewrite xbit2bin_bswap_length|];
      unfold datbuf1; rewrite store_at_0, length_app; lia. }
  rewrite length_firstn, Nat.min_l by exact Hlen.
  rewrite Z.eqb_refl. reflexivity.
Qed.

(** Without swapping the loop appends the rest of the input to the output. *)
Lemma copy_rest_noswap (fuel : nat) :
  forall (datbuf : list byte) (w : world),
    fin_error w = false -> fout_room w = None ->
    (length (fin w) < fuel)%nat ->
    copy_rest host fuel false datbuf w
    = Some (Converted, mkWorld [] false (fout w ++ fin w) None).
Proof.
  induction fuel as [|fuel IH]; intros datbuf w Herr Hroom Hfuel; [lia|].
  destruct (fin w) as [|b rest] eqn:Hfin.
  - rewrite copy_rest_eof by assumption.
    destruct w as [fi fe fo fr]. cbn in *. subst.
    rewrite app_nil_r. reflexivity.
  - rewrite copy_rest_step by (rewrite ?Hfin; auto; discriminate).
    cbv zeta. rewrite Hfin.
    set (got := firstn DATBUF_SIZE (b :: rest)).
    rewrite IH; cbn [fin fin_error fout fout_room]; auto.
    + rewrite store_at_0, firstn_app, Nat.sub_diag, firstn_O, app_nil_r.
      rewrite firstn_all, <- app_assoc. unfold got.
      rewrite firstn_skipn. reflexivity.
    + rewrite length_skipn. pose proof DATBUF_SIZE_eq.
      cbn [length] in *. lia.
Qed.

(** With swapping it appends as many bytes, and of these every complete
    word is a word of the rest of the input, reversed. *)
Lemma copy_rest_swap (fuel : nat) :
  forall (datbuf : list byte) (w : world),
    fin_error w = false -> fout_room w = None ->
    (length (fin w) < fuel)%nat ->
    exists out,
      copy_rest host fuel true datbuf w
      = Some (Converted, mkWorld [] false (fout w ++ out) None) /\
      length out = length (fin w) /\
      complete_words out = wordswap (complete_words (fin w)).
Proof.
  induction fuel as [|fuel IH]; intros datbuf w Herr Hroom Hfuel; [lia|].
  destruct (fin w) as [|b rest] eqn:Hfin.
  - exists []. rewrite copy_rest_eof by assumption.
    destruct w as [fi fe fo fr]. cbn in *. subst. rewrite app_nil_r. auto.
  - rewrite copy_rest_step by (rewrite ?Hfin; auto; discriminate).
    cbv zeta. rewrite Hfin.
    set (got := firstn DATBUF_SIZE (b :: rest)).
    set (datbuf1 := store_at datbuf 0 got).
    set (datbuf2 := xbit2bin_bswap host datbuf1 (Z.of_nat (length got))).
    set (oc := firstn (length got) datbuf2).
    assert (Hd1 : (length got <= length datbuf1)%nat)
      by (unfold datbuf1; rewrite store_at_0, length_app; lia).
    assert (Hoc : length oc = length got).
    { unfold oc, datbuf2.
      rewrite length_firstn, xbit2bin_bswap_length. lia. }
    assert (Hcw : complete_words oc = wordswap (complete_words got)).
    { unfold complete_words. rewrite Hoc. unfold oc.
      rewrite firstn_firstn, Nat.min_l by apply Nat.Div0.mul_div_le.
      unfold datbuf2. rewrite xbit2bin_bswap_complete by exact Hd1.
      f_equal. unfold datbuf1. rewrite store_at_0, firstn_app.
      replace (4 * (length got / 4) - length got)%nat with 0%nat
        by (pose proof (Nat.Div0.mul_div_le (length got) 4); lia).
      rewrite firstn_O, app_nil_r. reflexivity. }
    destruct (IH datbuf2
                (mkWorld (skipn DATBUF_SIZE (b :: rest)) (fin_error w)
                         (fout w ++ oc) None))
      as (out & Hrun & Hlen & Hwords); cbn [fin fin_error fout fout_room]; auto.
    { rewrite length_skipn. pose proof DATBUF_SIZE_eq. cbn [length] in *. lia. }
    cbn [fin fout] in Hrun, Hlen, Hwords.
    exists (oc ++ out). rewrite Hrun, <- app_assoc.
    split; [reflexivity|].
    assert (Hsplit : b :: rest = got ++ skipn DATBUF_SIZE (b :: rest))
      by (unfold got; symmetry; apply firstn_skipn).
    split.
    { rewrite length_app, Hoc, Hlen, <- length_app, <- Hsplit. reflexivity. }
    destruct (skipn DATBUF_SIZE (b :: rest)) as [|b' rest'] eqn:Hrest.
    + destruct out; [|discriminate]. rewrite app_nil_r.
      rewrite Hsplit, app_nil_r. exact Hcw.
    + assert (Hfull : length got = DATBUF_SIZE).
      { unfold got. rewrite length_firstn. apply Nat.min_l.
        apply (f_equal (@length byte)) in Hrest.
        rewrite length_skipn in Hrest. cbn [length] in *. lia. }
      assert (Hmod : (length got mod 4 = 0)%nat).
      { rewrite Hfull, DATBUF_SIZE_eq, Nat.mul_comm. apply Nat.Div0.mod_mul. }
      rewrite complete_words_all in Hcw by (rewrite Hoc; exact Hmod).
      rewrite (complete_words_all got) in Hcw by exact Hmod.
      rewrite Hsplit.
      rewrite !complete_words_app by (rewrite ?Hoc; exact Hmod).
      rewrite wordswap_app by exact Hmod.
      rewrite Hwords, Hcw. reflexivity.
Qed.

(** *** The header *)

Lemma land_3 (n : Z) : Z.land n 3 = n mod 4.
Proof. change 3 with (Z.ones 2). rewrite Z.land_ones by lia. reflexivity. Qed.

(** A successful analysis strips at most 216 bytes. *)
Lemma analyze_strip_bound (hdr : list byte) (strip : Z) (do_swap : bool) :
  (MAXHDR <= length hdr)%nat ->
  analyze_xilinx_header host hdr = Some (strip, do_swap) -> 0 <= strip ->
  strip <= 216.
Proof.
  intros Hlen Han Hpos.
  destruct (analyze_success host hdr strip do_swap Hlen Han Hpos)
    as (i & d & Hscan & _ & -> & _).
  apply scan_header_sound in Hscan. lia.
Qed.

(** The header stage on an input that analyzes well and holds the bytes
    that pad the stripped header to a multiple of 4: the stage ends ready
    to emit the input from [strip] on, up to the padded end of the header. *)
Lemma xbit2bin_header_emits (hdr0 : list byte) (w : world) (s : nat)
  (do_swap : bool) :
  (MAXHDR <= length (fin w))%nat ->
  analyze_xilinx_header host (firstn MAXHDR (fin w))
  = Some (Z.of_nat s, do_swap) ->
  (MAXHDR + s mod 4 <= length (fin w))%nat ->
  exists hdr,
    xbit2bin_header host hdr0 w
    = Some (Emit hdr (Z.of_nat (MAXHDR - s + s mod 4)) do_swap
              (mkWorld (skipn (MAXHDR + s mod 4) (fin w)) (fin_error w)
                       (fout w) (fout_room w))) /\
    firstn (MAXHDR - s + s mod 4) hdr
    = firstn (MAXHDR - s + s mod 4) (skipn s (fin w)) /\
    ((MAXHDR - s + s mod 4) mod 4 = 0)%nat /\ (s <= 216)%nat.
Proof.
  intros Hlen Han Hpad.
  pose proof (eq_refl : MAXHDR = 256%nat) as HM.
  set (c := firstn MAXHDR (fin w)) in *.
  assert (Hc : length c = MAXHDR) by (unfold c; rewrite length_firstn; lia).
  assert (Hs : (s <= 216)%nat).
  { pose proof (analyze_strip_bound c (Z.of_nat s) do_swap
                  ltac:(lia) Han ltac:(lia)). lia. }
  pose proof (Nat.div_mod_eq s 4) as Es.
  pose proof (Nat.mod_upper_bound s 4 ltac:(lia)) as Bs.
  assert (Hmod : ((MAXHDR - s + s mod 4) mod 4 = 0)%nat).
  { replace (MAXHDR - s + s mod 4)%nat with ((64 - s / 4) * 4)%nat
      by (unfold MAXHDR; lia).
    apply Nat.Div0.mod_mul. }
  assert (Hin : fin w = c ++ skipn MAXHDR (fin w))
    by (unfold c; symmetry; apply firstn_skipn).
  unfold xbit2bin_header.
  rewrite read_nonempty
    by (intros E; rewrite E in Hlen; unfold MAXHDR in Hlen; cbn in Hlen; lia).
  fold c. rewrite Hc, Z.eqb_refl. cbn [negb].
  rewrite store_at_0, analyze_app, Han by exact Hc.
  destruct (Z.ltb_spec (Z.of_nat s) 0) as [Hneg | _]; [lia|].
  replace (Z.of_nat MAXHDR - Z.of_nat s) with (Z.of_nat (MAXHDR - s))
    by (unfold MAXHDR; lia).
  rewrite !Nat2Z.id, land_3.
  set (hdr1 := c ++ skipn (length c) hdr0).
  set (hdr2 := if 0 <? Z.of_nat s then memmove hdr1 0 s (MAXHDR - s) else hdr1).
  assert (H2 : firstn (MAXHDR - s) hdr2 = skipn s c).
  { unfold hdr2. destruct (Z.ltb_spec 0 (Z.of_nat s)) as [Hp | Hz].
    - unfold memmove. rewrite store_at_0, firstn_app.
      assert (E : firstn (MAXHDR - s) (skipn s hdr1) = skipn s c).
      { unfold hdr1. rewrite skipn_app, firstn_app.
        rewrite (firstn_all2 (skipn s c)) by (rewrite length_skipn; lia).
        rewrite length_skipn.
        replace (MAXHDR - s - (length c - s))%nat with 0%nat by lia.
        rewrite firstn_O, app_nil_r. reflexivity. }
      rewrite E, length_skipn.
      replace (MAXHDR - s - (length c - s))%nat with 0%nat by lia.
      rewrite firstn_O, app_nil_r. apply firstn_all2.
      rewrite length_skipn. lia.
    - assert (s = 0%nat) by lia. subst s. unfold hdr1.
      rewrite Nat.sub_0_r, skipn_O, <- Hc.
      rewrite firstn_app, Nat.sub_diag, firstn_O, app_nil_r.
      apply firstn_all. }
  assert (Hskip : skipn s (fin w) = skipn s c ++ skipn MAXHDR (fin w)).
  { rewrite Hin at 1. rewrite skipn_app.
    replace (s - length c)%nat with 0%nat by lia. reflexivity. }
  assert (Hlen_sc : length (skipn s c) = (MAXHDR - s)%nat)
    by (rewrite length_skipn; lia).
  assert (Ezmod : Z.of_nat (MAXHDR - s) mod 4
                  = Z.of_nat ((4 - s mod 4) mod 4)).
  { rewrite <- (Nat2Z.inj_mod _ 4).
    f_equal.
    replace (MAXHDR - s)%nat with ((4 - s mod 4) + (63 - s / 4) * 4)%nat
      by (unfold MAXHDR; lia).
    rewrite Nat.Div0.mod_add. reflexivity. }
  rewrite Ezmod.
  destruct (Nat.eq_dec (s mod 4) 0) as [Hz | Hnz].
  - rewrite Hz. cbn [Nat.sub Nat.modulo Nat.divmod fst snd Z.of_nat Z.eqb negb].
    exists hdr2. rewrite !Nat.add_0_r.
    split; [reflexivity|]. split; [|rewrite Hz, Nat.add_0_r in Hmod; auto].
    rewrite H2, Hskip, firstn_app, Hlen_sc, Nat.sub_diag, firstn_O, app_nil_r.
    symmetry. apply firstn_all2. lia.
  - rewrite (Nat.mod_small (4 - s mod 4) 4) by lia.
    destruct (Z.eqb_spec (Z.of_nat (4 - s mod 4)) 0) as [E | _]; [lia|].
    cbn [negb].
    replace (4 - Z.of_nat (4 - s mod 4)) with (Z.of_nat (s mod 4)) by lia.
    rewrite Nat2Z.id.
    rewrite read_nonempty; cbn [fin fin_error fout fout_room].
    2:{ intros E. apply (f_equal (@length byte)) in E.
        rewrite length_skipn in E. cbn [length] in E. lia. }
    set (got := firstn (s mod 4) (skipn MAXHDR (fin w))).
    assert (Hgot : length got = (s mod 4)%nat)
      by (unfold got; rewrite length_firstn, length_skipn; lia).
    rewrite Hgot, Z.eqb_refl. cbn [negb].
    rewrite skipn_skipn.
    replace (s mod 4 + MAXHDR)%nat with (MAXHDR + s mod 4)%nat by lia.
    replace (Z.of_nat (MAXHDR - s) + Z.of_nat (s mod 4))
      with (Z.of_nat (MAXHDR - s + s mod 4)) by lia.
    exists (store_at hdr2 (MAXHDR - s) got).
    split; [reflexivity|]. split; [|auto].
    unfold store_at. rewrite H2, app_assoc, firstn_app.
    rewrite length_app, Hlen_sc, Hgot, Nat.sub_diag, firstn_O, app_nil_r.
    rewrite firstn_all2 by (rewrite length_app, Hlen_sc, Hgot; lia).
    rewrite Hskip, firstn_app, Hlen_sc.
    rewrite (firstn_all2 (skipn s c)) by lia.
    replace (MAXHDR - s + s mod 4 - (MAXHDR - s))%nat with (s mod 4)%nat by lia.
    reflexivity.
Qed.

(** *** The whole conversion *)

(** On a regular input file that analyzes well and holds the padding
    bytes, with an output that takes everything, [xbit2bin] returns 0 and
    has written the input from [strip] on: as it is without swap, and with
    every complete word reversed with swap. *)
Lemma xbit2bin_converts (hdr0 datbuf0 input : list byte) (s : nat)
  (do_swap : bool) :
  (MAXHDR <= length input)%nat ->
  analyze_xilinx_header host (firstn MAXHDR input)
  = Some (Z.of_nat s, do_swap) ->
  (MAXHDR + s mod 4 <= length input)%nat ->
  exists out,
    xbit2bin host hdr0 datbuf0 (open_files input)
    = Some (Converted, mkWorld [] false out None) /\
    length out = length (skipn s input) /\
    (if do_swap
     then complete_words out = wordswap (complete_words (skipn s input))
     else out = skipn s input).
Proof.
  intros Hlen Han Hpad.
  pose proof (eq_refl : MAXHDR = 256%nat) as HM.
  destruct (xbit2bin_header_emits hdr0 (open_files input) s do_swap
              Hlen Han Hpad) as (hdr & Hst & Hfirst & Hmod & Hs).
  cbn [open_files fin fin_error fout fout_room] in Hst, Hfirst.
  unfold xbit2bin. rewrite Hst. clear Hst.
  set (N := (MAXHDR - s + s mod 4)%nat) in *.
  set (hd := firstn N (skipn s input)) in *.
  assert (Hhd : length hd = N)
    by (unfold hd; rewrite length_firstn, length_skipn; lia).
  assert (HN : (N <= length hdr)%nat).
  { apply (f_equal (@length byte)) in Hfirst.
    rewrite Hhd, length_firstn in Hfirst. lia. }
  assert (Hbody : skipn (MAXHDR + s mod 4) input = skipn N (skipn s input)).
  { rewrite skipn_skipn. f_equal. lia. }
  assert (Hsplit : skipn s input = hd ++ skipn (MAXHDR + s mod 4) input)
    by (rewrite Hbody; unfold hd; symmetry; apply firstn_skipn).
  rewrite write_unlimited by reflexivity.
  rewrite Nat2Z.id. cbn [fin fin_error fout fout_room app].
  destruct do_swap.
  - assert (Hout : firstn N (xbit2bin_bswap host hdr (Z.of_nat N))
                   = wordswap hd).
    { pose proof (Nat.div_mod_eq N 4) as E. rewrite Hmod, Nat.add_0_r in E.
      rewrite E at 1. rewrite xbit2bin_bswap_complete by exact HN.
      rewrite <- E, Hfirst. reflexivity. }
    rewrite Hout, wordswap_length, Hhd, Z.eqb_refl. cbn [negb].
    destruct (copy_rest_swap (S (length (skipn (MAXHDR + s mod 4) input)))
                datbuf0
                (mkWorld (skipn (MAXHDR + s mod 4) input) false
                         (wordswap hd) None))
      as (out & Hrun & Hl & Hw); cbn [fin fin_error fout fout_room]; auto.
    cbn [fin fout] in Hrun, Hl, Hw.
    exists (wordswap hd ++ out). split; [exact Hrun|]. split.
    + rewrite Hsplit, !length_app, wordswap_length, Hl. reflexivity.
    + rewrite Hsplit.
      rewrite !complete_words_app
        by (rewrite ?wordswap_length, Hhd; exact Hmod).
      rewrite wordswap_app by (rewrite Hhd; exact Hmod).
      rewrite Hw. reflexivity.
  - rewrite Hfirst, Hhd, Z.eqb_refl. cbn [negb].
    rewrite copy_rest_noswap; cbn [fin fin_error fout fout_room]; auto.
    exists (hd ++ skipn (MAXHDR + s mod 4) input).
    split; [reflexivity|]. rewrite <- Hsplit. auto.
Qed.

(** *** Termination *)

Lemma write_fin (w : world) (buf : list byte) (n : Z) :
  fin (snd (write w buf n)) = fin w.
Proof. reflexivity. Qed.

(** With more fuel than bytes to read the loop comes to its end. *)
Lemma copy_rest_returns (fuel : nat) :
  forall (do_swap : bool) (datbuf : list byte) (w : world),
    (length (fin w) < fuel)%nat ->
    exists o w', copy_rest host fuel do_swap datbuf w = Some (o, w').
Proof.
  induction fuel as [|fuel IH]; intros do_swap datbuf w Hfuel; [lia|].
  cbn [copy_rest].
  destruct (list_eq_dec Strings.Byte.byte_eq_dec (fin w) []) as [E | NE].
  - rewrite read_eof by exact E.
    destruct (fin_error w); cbn [Z.eqb Z.ltb Z.compare]; eauto.
  - rewrite read_nonempty by exact NE.
    set (got := firstn DATBUF_SIZE (fin w)).
    assert (Hgot : (0 < length got)%nat).
    { unfold got. rewrite length_firstn. pose proof DATBUF_SIZE_eq.
      destruct (fin w); [congruence|cbn [length]; lia]. }
    destruct (Z.eqb_spec (Z.of_nat (length got)) 0) as [E | _]; [lia|].
    destruct (Z.ltb_spec (Z.of_nat (length got)) 0) as [E | _]; [lia|].
    match goal with
    | |- context [write ?w0 ?buf ?n] =>
        pose proof (write_fin w0 buf n) as Hfin;
        destruct (write w0 buf n) as [m w2]
    end.
    cbn [snd fin] in Hfin.
    destruct (negb (m =? Z.of_nat (length got))); [eauto|].
    apply IH. rewrite Hfin, length_skipn.
    assert (0 < length (fin w))%nat
      by (destruct (fin w); [congruence|cbn [length]; lia]).
    pose proof DATBUF_SIZE_eq. lia.
Qed.

Lemma xbit2bin_header_returns (hdr0 : list byte) (w : world) :
  exists st, xbit2bin_header host hdr0 w = Some st.
Proof.
  unfold xbit2bin_header.
  pose proof (eq_refl : MAXHDR = 256%nat) as HM.
  destruct (list_eq_dec Strings.Byte.byte_eq_dec (fin w) []) as [E | NE].
  { rewrite read_eof by exact E.
    destruct (fin_error w);
      rewrite (proj2 (Z.eqb_neq _ _)) by lia; eexists; reflexivity. }
  rewrite read_nonempty by exact NE.
  set (c := firstn MAXHDR (fin w)).
  destruct (Nat.eq_dec (length c) MAXHDR) as [Hc | Hc].
  2:{ rewrite (proj2 (Z.eqb_neq _ _)) by lia. eexists; reflexivity. }
  rewrite Hc, Z.eqb_refl, store_at_0, analyze_app by exact Hc.
  destruct (analyze_defined host c ltac:(lia)) as ([strip sw] & Han).
  rewrite Han. cbn [negb].
  destruct (strip <? 0); [eauto|].
  destruct (negb (Z.land (Z.of_nat MAXHDR - strip) 3 =? 0)); [|eauto].
  match goal with
  | |- context [read ?w0 ?buf ?off ?count] =>
      destruct (read w0 buf off count) as [[r hdr'] w']
  end.
  destruct (negb (r =? 4 - Z.land (Z.of_nat MAXHDR - strip) 3)); eauto.
Qed.

(** [xbit2bin] returns, whatever the files and the arrays hold. *)
Lemma xbit2bin_returns (hdr0 datbuf0 : list byte) (w : world) :
  exists o w', xbit2bin host hdr0 datbuf0 w = Some (o, w').
Proof.
  unfold xbit2bin.
  destruct (xbit2bin_header_returns hdr0 w) as (st & Hst). rewrite Hst.
  destruct st as [o w1 | hdr n do_swap w1]; [eauto|].
  match goal with
  | |- context [write ?w0 ?buf ?n] => destruct (write w0 buf n) as [m w2]
  end.
  destruct (negb (m =? n)); [eauto|].
  apply copy_rest_returns. lia.
Qed.

End Transcoder.

(** * The claims *)

Lemma bitstream_length (host : endianness) (pre post : list byte) (k : nat)
  (sw : bool) :
  length (bitstream host pre k sw post)
  = (length pre + k + 8 + length post)%nat.
Proof.
  unfold bitstream. rewrite !length_app, repeat_length, marker_length. lia.
Qed.

(** The first [MAXHDR] bytes of a bitstream whose marker lies in them. *)
Lemma bitstream_header (host : endianness) (pre post : list byte) (k : nat)
  (sw : bool) :
  (length pre + k + 8 <= MAXHDR)%nat ->
  firstn MAXHDR (bitstream host pre k sw post)
  = bitstream host pre k sw (firstn (MAXHDR - (length pre + k + 8)) post).
Proof.
  intros H. unfold bitstream.
  rewrite !app_assoc.
  rewrite firstn_app. f_equal.
  - apply firstn_all2. rewrite !length_app, repeat_length, marker_length. lia.
  - rewrite !length_app, repeat_length, marker_length. reflexivity.
Qed.

(** The bitstream from the last 32 dummy bytes on. *)
Lemma bitstream_stripped (host : endianness) (pre post : list byte) (k : nat)
  (sw : bool) :
  (32 <= k)%nat ->
  skipn (length pre + k - 32) (bitstream host pre k sw post)
  = repeat xff 32 ++ marker host sw ++ post.
Proof.
  intros Hk. unfold bitstream.
  rewrite skipn_app, skipn_all2 by lia. cbn [app].
  replace (length pre + k - 32 - length pre)%nat with (k - 32)%nat by lia.
  replace k with ((k - 32) + 32)%nat at 2 by lia.
  rewrite repeat_app, <- app_assoc, skipn_app, repeat_length, Nat.sub_diag.
  rewrite skipn_all2 by (rewrite repeat_length; lia).
  reflexivity.
Qed.

(** The analysis of the header of a bitstream: the scan stops at the
    marker when no 32 dummy bytes in a row lie in the metadata. *)
Lemma analyze_bitstream (host : endianness) (pre post : list byte) (k : nat)
  (sw : bool) :
  ~ run32_in pre -> (32 <= k)%nat -> (length pre + k + 8 <= MAXHDR)%nat ->
  (MAXHDR <= length (bitstream host pre k sw post))%nat ->
  analyze_xilinx_header host (firstn MAXHDR (bitstream host pre k sw post))
  = Some (Z.of_nat (length pre + k - 32), sw).
Proof.
  intros Hpre Hk Hm Hlen.
  rewrite bitstream_header by exact Hm. unfold bitstream.
  rewrite analyze_structured; auto.
  - f_equal. f_equal. lia.
  - fold (bitstream host pre k sw
            (firstn (MAXHDR - (length pre + k + 8)) post)).
    rewrite bitstream_length in *. rewrite length_firstn. lia.
Qed.

(** C9: on a buffer of 256 bytes no access of the analysis leaves the
    buffer (the analysis has a result), and when it succeeds the offset
    returned is from 0 to 216, the 32 bytes from the offset on are 0xff and
    the 8 bytes after them are the marker that [do_swap] tells. *)
Theorem analyze_success_in_bounds (host : endianness) (hdr : list byte) :
  length hdr = MAXHDR ->
  exists strip do_swap,
    analyze_xilinx_header host hdr = Some (strip, do_swap) /\
    (0 <= strip ->
     strip <= 216 /\
     dummies_at hdr (Z.to_nat strip) 32 /\
     firstn 8 (skipn (Z.to_nat strip + 32) hdr) = marker host do_swap /\
     (Z.to_nat strip + 32 + 8 <= length hdr)%nat).
Proof.
  intros Hlen.
  destruct (analyze_defined host hdr ltac:(lia)) as ([strip do_swap] & Han).
  exists strip, do_swap. split; [exact Han|]. intros Hpos.
  destruct (analyze_success host hdr strip do_swap ltac:(lia) Han Hpos)
    as (i & d & Hscan & Hd & -> & Hm).
  apply scan_header_sound in Hscan. destruct Hscan as (Hi & Hdi & Hrun).
  replace (Z.to_nat (Z.of_nat i - 32)) with (i - 32)%nat by lia.
  split; [lia|]. split.
  - apply (dummies_at_shorter hdr (i - d) d); auto; lia.
  - replace (i - 32 + 32)%nat with i by lia.
    split; [exact Hm|]. rewrite Hlen. unfold MAXHDR. lia.
Qed.

(** C4, as amended: take a run of exactly 31 or 32 bytes 0xff (the bytes
    [pre] before it do not end with 0xff) followed by a valid marker, in a
    header of 256 bytes with no 32 bytes 0xff in a row in [pre].  The run
    of 31, when no 32 bytes 0xff in a row come in the bytes [post] after
    the marker either, makes the analysis fail; the run of 32 makes it
    succeed with the position of the marker minus 32. *)
Theorem analyze_run_boundary (host : endianness) (pre post post' : list byte)
  (do_swap : bool) :
  has_run32 pre = false ->
  is_dummy (last pre x00) = false ->
  (length (bitstream host pre 31 do_swap post) = MAXHDR ->
   has_run32 post = false ->
   analyze_xilinx_header host (bitstream host pre 31 do_swap post)
   = Some (-1, false)) /\
  (length (bitstream host pre 32 do_swap post') = MAXHDR ->
   analyze_xilinx_header host (bitstream host pre 32 do_swap post')
   = Some (Z.of_nat (length pre + 32) - 32, do_swap)).
Proof.
  intros Hpre Hlast.
  apply has_run32_false in Hpre. apply last_no_dummy in Hlast. split.
  - intros Hlen Hpost. apply has_run32_false in Hpost.
    apply analyze_no_run32; [rewrite Hlen; lia|].
    apply no_run32_structured; auto.
  - intros Hlen. apply analyze_structured; auto.
Qed.

(** C10, as amended: on a header of 256 bytes in which a run of [k > 32]
    bytes 0xff is followed by a valid marker, and in which no 32 bytes
    0xff in a row lie before that run, the analysis succeeds with the
    position of the marker minus 32: what is kept starts with the last 32
    bytes of the run. *)
Theorem analyze_long_run (host : endianness) (pre post : list byte)
  (k : nat) (do_swap : bool) :
  length (bitstream host pre k do_swap post) = MAXHDR ->
  has_run32 pre = false -> (32 < k)%nat ->
  analyze_xilinx_header host (bitstream host pre k do_swap post)
  = Some (Z.of_nat (length pre + k) - 32, do_swap) /\
  skipn (length pre + k - 32) (bitstream host pre k do_swap post)
  = repeat xff 32 ++ marker host do_swap ++ post.
Proof.
  intros Hlen Hpre Hk. apply has_run32_false in Hpre. split.
  - apply analyze_structured; auto; lia.
  - apply bitstream_stripped. lia.
Qed.

(** C7: swapping a buffer of a whole number of words twice gives the
    buffer back. *)
Theorem xbit2bin_bswap_twice (host : endianness) (buf : list byte) :
  (length buf mod 4 = 0)%nat ->
  xbit2bin_bswap host
    (xbit2bin_bswap host buf (Z.of_nat (length buf)))
    (Z.of_nat (length buf))
  = buf.
Proof.
  intros Hmod.
  rewrite xbit2bin_bswap_whole by exact Hmod.
  rewrite <- (wordswap_length buf).
  rewrite xbit2bin_bswap_whole by (rewrite wordswap_length; exact Hmod).
  apply wordswap_involutive.
Qed.

(** Everything the header stage has done when it ends ready to emit. *)
Lemma xbit2bin_header_inv (host : endianness) (hdr0 : list byte) (w : world)
  (hdr : list byte) (n : Z) (do_swap : bool) (w' : world) :
  xbit2bin_header host hdr0 w = Some (Emit hdr n do_swap w') ->
  exists strip pad,
    analyze_xilinx_header host (firstn MAXHDR (fin w))
    = Some (strip, do_swap) /\
    0 <= strip <= 216 /\ 0 <= pad <= 3 /\
    n = Z.of_nat MAXHDR - strip + pad /\ n mod 4 = 0 /\
    Z.of_nat (length (fin w))
    = Z.of_nat MAXHDR + pad + Z.of_nat (length (fin w')) /\
    fout w' = fout w /\
    (Z.to_nat n <= length hdr)%nat.
Proof.
  intros H. unfold xbit2bin_header in H.
  pose proof (eq_refl : MAXHDR = 256%nat) as HM.
  assert (Hne : fin w <> []).
  { intros E. rewrite read_eof in H by exact E.
    destruct (fin_error w); cbn [negb Z.eqb Z.of_nat] in H; discriminate. }
  rewrite read_nonempty in H by exact Hne.
  set (c := firstn MAXHDR (fin w)) in *.
  destruct (Nat.eq_dec (length c) MAXHDR) as [Hc | Hc].
  2:{ rewrite (proj2 (Z.eqb_neq _ _)) in H by lia. discriminate. }
  rewrite Hc, Z.eqb_refl, store_at_0, analyze_app in H by exact Hc.
  destruct (analyze_xilinx_header host c) as [[strip sw]|] eqn:Han;
    [|discriminate].
  cbn [negb] in H.
  destruct (Z.ltb_spec strip 0) as [Hneg | Hpos]; [discriminate|].
  pose proof (analyze_strip_bound host c strip sw ltac:(lia) Han Hpos) as Hb.
  rewrite land_3 in H.
  set (n0 := Z.of_nat MAXHDR - strip) in *.
  assert (Hn0 : n0 = Z.of_nat MAXHDR - strip) by reflexivity.
  set (hdr1 := c ++ skipn (length c) hdr0) in *.
  set (hdr2 := if 0 <? strip
               then memmove hdr1 0 (Z.to_nat strip) (Z.to_nat n0)
               else hdr1) in *.
  set (body := skipn MAXHDR (fin w)) in *.
  assert (Hc_rest : length (fin w) = (MAXHDR + length body)%nat).
  { unfold body. rewrite length_skipn.
    unfold c in Hc. rewrite length_firstn in Hc. lia. }
  assert (H1 : (MAXHDR <= length hdr1)%nat)
    by (unfold hdr1; rewrite length_app; lia).
  assert (H2 : (MAXHDR <= length hdr2)%nat).
  { unfold hdr2. destruct (0 <? strip); [|exact H1].
    unfold memmove. rewrite store_at_length; [exact H1|].
    rewrite length_firstn, length_skipn. unfold n0. lia. }
  pose proof (Z.mod_pos_bound n0 4 ltac:(lia)) as Bn.
  pose proof (Z.div_mod n0 4 ltac:(lia)) as En.
  destruct (Z.eqb_spec (n0 mod 4) 0) as [Hz | Hnz]; cbn [negb] in H.
  - assert (E : Emit hdr2 n0 sw
                  (mkWorld body (fin_error w) (fout w) (fout_room w))
                = Emit hdr n do_swap w') by congruence.
    clear H. revert E. generalize hdr2, H2. intros hdr2' H2' E.
    assert (hdr2' = hdr /\ n0 = n /\ sw = do_swap /\
            mkWorld body (fin_error w) (fout w) (fout_room w) = w')
      as (<- & <- & <- & <-) by (repeat apply conj; congruence).
    exists strip, 0. cbn [fin fout].
    repeat apply conj; try lia; auto.
  - assert (Hbody : body <> []).
    { intros E. rewrite read_eof in H by exact E. cbn [fin_error] in H.
      destruct (fin_error w);
        [destruct (Z.eqb_spec (-1) (4 - n0 mod 4))
        |destruct (Z.eqb_spec 0 (4 - n0 mod 4))]; try lia; discriminate. }
    rewrite read_nonempty in H by exact Hbody.
    cbn [fin fin_error fout fout_room] in H.
    set (got := firstn (Z.to_nat (4 - n0 mod 4)) body) in *.
    destruct (Z.eqb_spec (Z.of_nat (length got)) (4 - n0 mod 4)) as [Hg | Hg];
      [|discriminate].
    cbn [negb] in H.
    set (hdr3 := store_at hdr2 (Z.to_nat n0) got) in *.
    assert (H3 : (Z.to_nat (n0 + (4 - n0 mod 4)) <= length hdr3)%nat).
    { unfold hdr3, store_at. rewrite !length_app, length_firstn. lia. }
    set (rest := skipn (Z.to_nat (4 - n0 mod 4)) body) in *.
    assert (Hrest : length body = (length got + length rest)%nat).
    { unfold got, rest. rewrite <- length_app, firstn_skipn. reflexivity. }
    clearbody hdr3 rest.
    assert (hdr3 = hdr /\ n0 + (4 - n0 mod 4) = n /\ sw = do_swap /\
            mkWorld rest (fin_error w) (fout w) (fout_room w) = w')
      as (<- & <- & <- & <-) by (repeat apply conj; congruence).
    exists strip, (4 - n0 mod 4). cbn [fin fout].
    assert (Hmod : (n0 + (4 - n0 mod 4)) mod 4 = 0).
    { replace (n0 + (4 - n0 mod 4)) with ((n0 / 4 + 1) * 4) by lia.
      apply Z.mod_mul. lia. }
    repeat apply conj; try lia; auto.
Qed.

(** C6: when the header stage ends ready to emit, the count [n] of header
    bytes to write is 256 minus the offset plus the 0 to 3 bytes read to
    pad, and a multiple of 4; the swap of the header then reverses the
    [n / 4] words of these bytes and nothing else. *)
Theorem header_count_word_multiple (host : endianness) (hdr0 : list byte)
  (w : world) (hdr : list byte) (n : Z) (do_swap : bool) (w' : world) :
  xbit2bin_header host hdr0 w = Some (Emit hdr n do_swap w') ->
  n mod 4 = 0 /\ 0 < n <= 256 /\
  (exists strip pad,
     analyze_xilinx_header host (firstn MAXHDR (fin w))
     = Some (strip, do_swap) /\
     0 <= strip /\ 0 <= pad <= 3 /\ n = 256 - strip + pad /\
     Z.of_nat (length (fin w)) - Z.of_nat (length (fin w')) = 256 + pad) /\
  xbit2bin_bswap host hdr n
  = wordswap (firstn (Z.to_nat n) hdr) ++ skipn (Z.to_nat n) hdr.
Proof.
  intros H.
  destruct (xbit2bin_header_inv host hdr0 w hdr n do_swap w' H)
    as (strip & pad & Han & Hs & Hp & Hn & Hmod & Hfin & _ & Hlen).
  change (Z.of_nat MAXHDR) with 256 in *.
  split; [exact Hmod|]. split; [|split].
  - pose proof (Z.div_mod n 4 ltac:(lia)). lia.
  - exists strip, pad. repeat apply conj; auto; lia.
  - pose proof (Z.div_mod n 4 ltac:(lia)) as E. rewrite Hmod, Z.add_0_r in E.
    assert (En : n = Z.of_nat (4 * Z.to_nat (n / 4))) by lia.
    rewrite En at 1. rewrite xbit2bin_bswap_aligned by lia.
    replace (4 * Z.to_nat (n / 4))%nat with (Z.to_nat n) by lia.
    reflexivity.
Qed.

(** C5: when the input has fewer than 256 bytes, or the analysis of its
    first 256 bytes fails, [xbit2bin] returns -1 (after its message about
    the header) and the output is as it was. *)
Theorem xbit2bin_header_trouble_writes_nothing (host : endianness)
  (hdr0 datbuf0 : list byte) (w : world) :
  (length (fin w) < MAXHDR)%nat \/
  analyze_xilinx_header host (firstn MAXHDR (fin w)) = Some (-1, false) ->
  exists t w',
    xbit2bin host hdr0 datbuf0 w = Some (Trouble t, w') /\
    (t = ReadingHeader \/ t = AnalyzingHeader) /\
    return_value (Trouble t) = -1 /\
    fout w' = fout w.
Proof.
  intros H. unfold xbit2bin, xbit2bin_header.
  pose proof (eq_refl : MAXHDR = 256%nat) as HM.
  destruct (list_eq_dec Strings.Byte.byte_eq_dec (fin w) []) as [Hfin | Hfin].
  { rewrite read_eof by exact Hfin.
    exists ReadingHeader, w.
    destruct (fin_error w); cbn; auto. }
  rewrite read_nonempty by exact Hfin.
  set (c := firstn MAXHDR (fin w)) in *.
  destruct (Z.eqb_spec (Z.of_nat (length c)) (Z.of_nat MAXHDR)) as [Hc | Hc];
    cbn [negb].
  - apply Nat2Z.inj in Hc.
    destruct H as [Hshort | Hfail].
    { unfold c in Hc. rewrite length_firstn in Hc. lia. }
    rewrite store_at_0, analyze_app, Hfail by exact Hc.
    cbn [Z.ltb Z.compare].
    eexists AnalyzingHeader, _. split; [reflexivity|]. cbn. auto.
  - eexists ReadingHeader, _. split; [reflexivity|]. cbn. auto.
Qed.

(** C1: a bitstream is valid when no 32 bytes 0xff in a row lie in its
    metadata [pre], its marker lies in its first 256 bytes, and it holds
    the 0 to 3 bytes that pad the stripped header to a multiple of 4.  On
    a valid bitstream with the no-swap marker [xbit2bin] returns 0 and the
    output is the input from the last 32 bytes of the padding run to the
    end, unchanged. *)
Theorem xbit2bin_noswap_output (host : endianness)
  (hdr0 datbuf0 pre post : list byte) (k : nat) :
  has_run32 pre = false -> (32 <= k)%nat ->
  (length pre + k + 8 <= MAXHDR)%nat ->
  (MAXHDR + (length pre + k - 32) mod 4
   <= length (bitstream host pre k false post))%nat ->
  exists w',
    xbit2bin host hdr0 datbuf0 (open_files (bitstream host pre k false post))
    = Some (Converted, w') /\
    fout w' = skipn (length pre + k - 32) (bitstream host pre k false post) /\
    fout w' = repeat xff 32 ++ marker host false ++ post.
Proof.
  intros Hpre Hk Hm Hpad. apply has_run32_false in Hpre.
  destruct (xbit2bin_converts host hdr0 datbuf0
              (bitstream host pre k false post) (length pre + k - 32) false)
    as (out & Hrun & _ & Hout); try lia.
  { apply analyze_bitstream; auto; lia. }
  eexists. split; [exact Hrun|]. cbn [fout].
  split; [exact Hout|]. rewrite Hout. apply bitstream_stripped. exact Hk.
Qed.

(** X16: on a valid bitstream with the swap marker [xbit2bin] returns 0,
    the output is as long as the input from the last 32 bytes of the
    padding run to the end, and every complete 32-bit word of the output
    is the word of that part of the input at the same place, its four
    bytes reversed; when that part is a whole number of words, the output
    is all of it with every word reversed. *)
Theorem xbit2bin_swap_output (host : endianness)
  (hdr0 datbuf0 pre post : list byte) (k : nat) :
  has_run32 pre = false -> (32 <= k)%nat ->
  (length pre + k + 8 <= MAXHDR)%nat ->
  (MAXHDR + (length pre + k - 32) mod 4
   <= length (bitstream host pre k true post))%nat ->
  exists w',
    xbit2bin host hdr0 datbuf0 (open_files (bitstream host pre k true post))
    = Some (Converted, w') /\
    length (fout w') = length (repeat xff 32 ++ marker host true ++ post) /\
    complete_words (fout w')
    = wordswap (complete_words (repeat xff 32 ++ marker host true ++ post)) /\
    ((length (repeat xff 32 ++ marker host true ++ post) mod 4 = 0)%nat ->
     fout w' = wordswap (repeat xff 32 ++ marker host true ++ post)).
Proof.
  intros Hpre Hk Hm Hpad. apply has_run32_false in Hpre.
  destruct (xbit2bin_converts host hdr0 datbuf0
              (bitstream host pre k true post) (length pre + k - 32) true)
    as (out & Hrun & Hlen & Hout); try lia.
  { apply analyze_bitstream; auto; lia. }
  rewrite bitstream_stripped in Hlen, Hout by exact Hk.
  eexists. split; [exact Hrun|]. cbn [fout].
  split; [exact Hlen|]. split; [exact Hout|].
  intros Hmod.
  rewrite !complete_words_all in Hout by (rewrite ?Hlen; exact Hmod).
  exact Hout.
Qed.

(** C8, as amended: on an input of exactly 256 bytes whose analysis
    succeeds with an offset that is a multiple of 4, [xbit2bin] returns 0
    and the output is the header from the offset on, every word reversed
    when the marker asks for it. *)
Theorem xbit2bin_header_only (host : endianness)
  (hdr0 datbuf0 input : list byte) (s : nat) (do_swap : bool) :
  length input = MAXHDR ->
  analyze_xilinx_header host input = Some (Z.of_nat s, do_swap) ->
  (s mod 4 = 0)%nat ->
  exists w',
    xbit2bin host hdr0 datbuf0 (open_files input) = Some (Converted, w') /\
    fout w' = if do_swap then wordswap (skipn s input) else skipn s input.
Proof.
  intros Hlen Han Hs.
  pose proof (eq_refl : MAXHDR = 256%nat) as HM.
  assert (Hb : (s <= 216)%nat).
  { pose proof (analyze_strip_bound host input (Z.of_nat s) do_swap
                  ltac:(lia) Han ltac:(lia)). lia. }
  destruct (xbit2bin_converts host hdr0 datbuf0 input s do_swap)
    as (out & Hrun & Hl & Hout); try lia.
  { rewrite <- Hlen, firstn_all. exact Han. }
  eexists. split; [exact Hrun|]. cbn [fout].
  destruct do_swap; [|exact Hout].
  assert (Hmod : (length (skipn s input) mod 4 = 0)%nat).
  { rewrite length_skipn, Hlen.
    pose proof (Nat.div_mod_eq s 4) as E. rewrite Hs, Nat.add_0_r in E.
    replace (MAXHDR - s)%nat with ((64 - s / 4) * 4)%nat by lia.
    apply Nat.Div0.mod_mul. }
  rewrite !complete_words_all in Hout by (rewrite ?Hl; exact Hmod).
  exact Hout.
Qed.

(** ** The partial word at the end of a chunk *)

(** When [n] is not a multiple of 4 the loop of [xbit2bin_bswap] also runs
    for the word that holds the last [n mod 4] bytes: [n / 4 + 1] words of
    the array are reversed, the last of them made of these bytes and of
    what the array holds behind them. *)
Lemma xbit2bin_bswap_rounds_up (host : endianness) (datbuf : list byte)
  (n : nat) :
  (n mod 4 <> 0)%nat -> (4 * (n / 4 + 1) <= length datbuf)%nat ->
  xbit2bin_bswap host datbuf (Z.of_nat n)
  = wordswap (firstn (4 * (n / 4 + 1)) datbuf)
    ++ skipn (4 * (n / 4 + 1)) datbuf.
Proof.
  intros Hr Hlen.
  assert (Hw : nwords (Z.of_nat n) = (n / 4 + 1)%nat).
  { pose proof (Nat.div_mod_eq n 4) as E.
    pose proof (Nat.mod_upper_bound n 4 ltac:(lia)) as B.
    pose proof (proj1 (nwords_spec (Z.of_nat n) (n / 4)) ltac:(lia)) as H1.
    destruct (Nat.le_gt_cases (nwords (Z.of_nat n)) (n / 4 + 1)) as [H2 | H2];
      [lia|].
    pose proof (proj2 (nwords_spec (Z.of_nat n) (n / 4 + 1)) ltac:(lia)).
    lia. }
  rewrite xbit2bin_bswap_words; rewrite Hw; auto.
Qed.

(** * Examples *)

Example analyze_header_example_noswap :
  analyze_xilinx_header LittleEndian (header_example false) = Some (40, false).
Proof. vm_compute. reflexivity. Qed.

Example analyze_header_example_swap :
  analyze_xilinx_header LittleEndian (header_example true) = Some (40, true).
Proof. vm_compute. reflexivity. Qed.

(** The check of the accesses bites: one byte less and the comparison of
    the marker reads past the end. *)
Example analyze_reads_past_short_buffer :
  analyze_xilinx_header LittleEndian (repeat xff 255) = None.
Proof. vm_compute. reflexivity. Qed.

Example analyze_no_dummies_fails :
  analyze_xilinx_header LittleEndian (repeat x00 256) = Some (-1, false).
Proof. vm_compute. reflexivity. Qed.

Example analyze_unknown_marker_fails :
  analyze_xilinx_header LittleEndian
    (repeat x41 40 ++ repeat xff 32 ++ repeat x00 184) = Some (-1, false).
Proof. vm_compute. reflexivity. Qed.

Example xbit2bin_example_noswap :
  xbit2bin LittleEndian (repeat x00 MAXHDR) (repeat x00 DATBUF_SIZE)
    (open_files (input_example false))
  = Some (Converted,
          mkWorld [] false (skipn 40 (input_example false)) None).
Proof. vm_compute. reflexivity. Qed.

Example xbit2bin_example_swap :
  xbit2bin LittleEndian (repeat x00 MAXHDR) (repeat x00 DATBUF_SIZE)
    (open_files (input_example true))
  = Some (Converted,
          mkWorld [] false (wordswap (skipn 40 (input_example true))) None).
Proof. vm_compute. reflexivity. Qed.

(** ** The claims on the examples *)

Lemma xbit2bin_noswap_output_witness :
  exists w',
    xbit2bin LittleEndian (repeat x00 MAXHDR) (repeat x00 DATBUF_SIZE)
      (open_files (input_example false))
    = Some (Converted, w') /\
    fout w' = skipn (length metadata_example + 32 - 32) (input_example false) /\
    fout w' = repeat xff 32 ++ marker LittleEndian false
              ++ (repeat x00 176 ++ payload_example).
Proof.
  apply (xbit2bin_noswap_output LittleEndian (repeat x00 MAXHDR)
           (repeat x00 DATBUF_SIZE) metadata_example
           (repeat x00 176 ++ payload_example) 32).
  - reflexivity.
  - lia.
  - vm_compute. lia.
  - vm_compute. lia.
Defined.

Lemma xbit2bin_swap_output_witness :
  exists w',
    xbit2bin LittleEndian (repeat x00 MAXHDR) (repeat x00 DATBUF_SIZE)
      (open_files (input_example true))
    = Some (Converted, w') /\
    length (fout w')
    = length (repeat xff 32 ++ marker LittleEndian true
              ++ (repeat x00 176 ++ payload_example)) /\
    complete_words (fout w')
    = wordswap (complete_words
                  (repeat xff 32 ++ marker LittleEndian true
                   ++ (repeat x00 176 ++ payload_example))) /\
    ((length (repeat xff 32 ++ marker LittleEndian true
              ++ (repeat x00 176 ++ payload_example)) mod 4 = 0)%nat ->
     fout w' = wordswap (repeat xff 32 ++ marker LittleEndian true
                         ++ (repeat x00 176 ++ payload_example))).
Proof.
  apply (xbit2bin_swap_output LittleEndian (repeat x00 MAXHDR)
           (repeat x00 DATBUF_SIZE) metadata_example
           (repeat x00 176 ++ payload_example) 32).
  - reflexivity.
  - lia.
  - vm_compute. lia.
  - vm_compute. lia.
Defined.

(** C3, on the code: the header of [odd_payload_example] is 256 bytes
    that need no stripping, with the swap marker; the payload is 7 bytes,
    read by one [read] into a [datbuf] that holds 0xaa everywhere.  The
    loop of [xbit2bin_bswap] runs for [i = 0] and [i = 1], and the last
    three bytes written are not the bytes 05 06 07 of the input. *)
Theorem xbit2bin_partial_word_swapped :
  length (bitstream LittleEndian [] 32 true (repeat x00 216)) = MAXHDR /\
  exists w',
    xbit2bin LittleEndian (repeat x00 MAXHDR) (repeat xaa DATBUF_SIZE)
      (open_files odd_payload_example)
    = Some (Converted, w') /\
    skipn 256 (fout w') = [x04; x03; x02; x01; xaa; x07; x06].
Proof.
  split; [reflexivity|].
  eexists. split; [vm_compute; reflexivity|]. vm_compute. reflexivity.
Qed.

(** The same input with any contents of [datbuf]: the byte of [datbuf]
    behind the 7 bytes read takes the place of the byte 05, and the bytes
    06 and 07 change places. *)
Lemma xbit2bin_partial_word_any_datbuf (datbuf0 : list byte) :
  length datbuf0 = DATBUF_SIZE ->
  exists w',
    xbit2bin LittleEndian (repeat x00 MAXHDR) datbuf0
      (open_files odd_payload_example)
    = Some (Converted, w') /\
    skipn 256 (fout w')
    = [x04; x03; x02; x01; nth 7 datbuf0 x00; x07; x06].
Proof.
  intros Hlen. pose proof DATBUF_SIZE_eq as HD.
  destruct datbuf0 as [|d0 [|d1 [|d2 [|d3 [|d4 [|d5 [|d6 [|d7 tl]]]]]]]];
    try (exfalso; cbn [length] in Hlen; lia).
  set (header := bitstream LittleEndian [] 32 true (repeat x00 216)).
  set (payload := [x01; x02; x03; x04; x05; x06; x07]).
  set (datbuf0 := d0 :: d1 :: d2 :: d3 :: d4 :: d5 :: d6 :: d7 :: tl) in *.
  assert (Hst : xbit2bin_header LittleEndian (repeat x00 MAXHDR)
                  (open_files odd_payload_example)
                = Some (Emit header 256 true (mkWorld payload false [] None)))
    by (vm_compute; reflexivity).
  assert (Hwr : write (mkWorld payload false [] None)
                  (xbit2bin_bswap LittleEndian header 256) 256
                = (256, mkWorld payload false (wordswap header) None))
    by (vm_compute; reflexivity).
  unfold xbit2bin. rewrite Hst, Hwr, Z.eqb_refl. cbn [negb fin length].
  pose proof (copy_rest_step LittleEndian (length payload) true datbuf0
                (mkWorld payload false (wordswap header) None)) as Hstep.
  cbv zeta in Hstep. cbn [fin fin_error fout fout_room] in Hstep.
  assert (Hne : payload <> []) by discriminate.
  specialize (Hstep Hne eq_refl). rewrite Hstep. clear Hstep.
  assert (Hgot : firstn DATBUF_SIZE payload = payload)
    by (apply firstn_all2; change (length payload) with 7%nat; lia).
  assert (Hrest : skipn DATBUF_SIZE payload = [])
    by (apply skipn_all2; change (length payload) with 7%nat; lia).
  rewrite Hgot, Hrest.
  change (length payload) with 7%nat.
  rewrite copy_rest_eof by reflexivity.
  eexists. split; [reflexivity|]. cbn [fout].
  assert (Hh : length (wordswap header) = 256%nat)
    by (rewrite wordswap_length; vm_compute; reflexivity).
  rewrite skipn_app, Hh, skipn_all2 by lia.
  cbn [Nat.sub app skipn].
  rewrite xbit2bin_bswap_rounds_up.
  - reflexivity.
  - vm_compute. discriminate.
  - change (7 / 4)%nat with 1%nat.
    unfold store_at. rewrite !length_app, length_skipn.
    change (length payload) with 7%nat. unfold datbuf0 in *.
    cbn [length] in Hlen. cbn [length firstn]. lia.
Qed.

(** C2, on the code: [odd_payload_example] is a valid input with the
    swap marker, 32 dummy bytes at the start of its header and 7 bytes
    behind the header.  [xbit2bin] returns 0 on it, and whatever [datbuf]
    holds when the function is entered, the last three bytes written are
    [datbuf[7]] and the bytes 07 06 of the input, where the input with
    every complete word reversed has the bytes 05 06 07: the output is
    not the input with every complete word reversed. *)
Theorem xbit2bin_swap_output_trailing_bytes (datbuf0 : list byte) :
  length datbuf0 = DATBUF_SIZE ->
  odd_payload_example
  = bitstream LittleEndian [] 32 true
      (repeat x00 216 ++ [x01; x02; x03; x04; x05; x06; x07]) /\
  has_run32 [] = false /\
  (length (@nil byte) + 32 + 8 <= MAXHDR)%nat /\
  (MAXHDR + (length (@nil byte) + 32 - 32) mod 4
   <= length odd_payload_example)%nat /\
  skipn 256
    (wordswap (skipn (length (@nil byte) + 32 - 32) odd_payload_example))
  = [x04; x03; x02; x01; x05; x06; x07] /\
  exists w',
    xbit2bin LittleEndian (repeat x00 MAXHDR) datbuf0
      (open_files odd_payload_example)
    = Some (Converted, w') /\
    skipn 256 (fout w')
    = [x04; x03; x02; x01; nth 7 datbuf0 x00; x07; x06] /\
    fout w'
    <> wordswap (skipn (length (@nil byte) + 32 - 32) odd_payload_example).
Proof.
  intros Hlen.
  assert (Hexp : skipn 256
                   (wordswap
                      (skipn (length (@nil byte) + 32 - 32)
                         odd_payload_example))
                 = [x04; x03; x02; x01; x05; x06; x07])
    by (vm_compute; reflexivity).
  split; [vm_compute; reflexivity|].
  split; [reflexivity|].
  split; [vm_compute; lia|].
  split; [vm_compute; lia|].
  split; [exact Hexp|].
  destruct (xbit2bin_partial_word_any_datbuf datbuf0 Hlen)
    as (w' & Hrun & Htail).
  exists w'. split; [exact Hrun|]. split; [exact Htail|].
  intros E. apply (f_equal (skipn 256)) in E.
  rewrite Htail, Hexp in E. congruence.
Qed.

Lemma xbit2bin_swap_output_trailing_bytes_witness :
  exists w',
    xbit2bin LittleEndian (repeat x00 MAXHDR) (repeat x00 DATBUF_SIZE)
      (open_files odd_payload_example)
    = Some (Converted, w') /\
    skipn 256 (fout w')
    = [x04; x03; x02; x01; nth 7 (repeat x00 DATBUF_SIZE) x00; x07; x06] /\
    fout w'
    <> wordswap (skipn (length (@nil byte) + 32 - 32) odd_payload_example).
Proof.
  apply (xbit2bin_swap_output_trailing_bytes (repeat x00 DATBUF_SIZE)).
  apply repeat_length.
Defined.

(** C4, as it is stated, on two headers of 256 bytes.  In the first a run
    of exactly 31 bytes 0xff at [0..30] is followed by a valid marker at
    [31..38], and a run of 32 with its marker comes after: the analysis
    succeeds.  In the second a run of exactly 32 bytes 0xff at [40..71] is
    followed by a valid marker at [72..79], and a run of 32 followed by no
    marker comes before: the analysis fails. *)
Lemma analyze_run_boundary_other_runs :
  (length run31_then_sync = MAXHDR /\
   analyze_xilinx_header LittleEndian run31_then_sync = Some (39, true)) /\
  (length false_sync_then_run32 = MAXHDR /\
   analyze_xilinx_header LittleEndian false_sync_then_run32
   = Some (-1, false)).
Proof. repeat apply conj; vm_compute; reflexivity. Qed.

Lemma analyze_run_boundary_witness :
  analyze_xilinx_header LittleEndian
    (bitstream LittleEndian metadata_example 31 true (repeat x00 177))
  = Some (-1, false) /\
  analyze_xilinx_header LittleEndian
    (bitstream LittleEndian metadata_example 32 true (repeat x00 176))
  = Some (Z.of_nat (length metadata_example + 32) - 32, true).
Proof.
  destruct (analyze_run_boundary LittleEndian metadata_example
              (repeat x00 177) (repeat x00 176) true) as [H31 H32].
  - reflexivity.
  - reflexivity.
  - split.
    + apply H31; vm_compute; reflexivity.
    + apply H32. vm_compute. reflexivity.
Defined.

(** C10, as it is stated, on a header of 256 bytes with two runs of 33
    bytes 0xff, each followed by a valid marker: for the second run, at
    [41..73] with its marker at 74, the offset returned is not 74 - 32. *)
Lemma analyze_long_run_second_run :
  length two_long_runs = MAXHDR /\
  two_long_runs
  = bitstream LittleEndian (repeat xff 33 ++ marker LittleEndian true) 33 true
      (repeat x00 174) /\
  analyze_xilinx_header LittleEndian two_long_runs = Some (1, true) /\
  1 <> Z.of_nat (length (repeat xff 33 ++ marker LittleEndian true) + 33) - 32.
Proof. repeat apply conj; vm_compute; (reflexivity || discriminate). Qed.

Lemma analyze_long_run_witness :
  analyze_xilinx_header LittleEndian
    (bitstream LittleEndian metadata_example 33 true (repeat x00 175))
  = Some (Z.of_nat (length metadata_example + 33) - 32, true) /\
  skipn (length metadata_example + 33 - 32)
    (bitstream LittleEndian metadata_example 33 true (repeat x00 175))
  = repeat xff 32 ++ marker LittleEndian true ++ repeat x00 175.
Proof.
  apply (analyze_long_run LittleEndian metadata_example (repeat x00 175)
           33 true).
  - vm_compute. reflexivity.
  - reflexivity.
  - lia.
Defined.

Lemma xbit2bin_header_trouble_witness :
  exists t w',
    xbit2bin LittleEndian (repeat x00 MAXHDR) (repeat x00 DATBUF_SIZE)
      (open_files (repeat x41 100))
    = Some (Trouble t, w') /\
    (t = ReadingHeader \/ t = AnalyzingHeader) /\
    return_value (Trouble t) = -1 /\
    fout w' = fout (open_files (repeat x41 100)).
Proof.
  apply (xbit2bin_header_trouble_writes_nothing LittleEndian
           (repeat x00 MAXHDR) (repeat x00 DATBUF_SIZE)
           (open_files (repeat x41 100))).
  left. vm_compute. lia.
Defined.

Lemma header_count_word_multiple_witness :
  xbit2bin_header LittleEndian (repeat x00 MAXHDR)
    (open_files (input_example true))
  = Some (Emit (skipn 40 (header_example true)
                ++ skipn 216 (header_example true))
            216 true
            (mkWorld payload_example false [] None)) /\
  216 mod 4 = 0 /\ 0 < 216 <= 256.
Proof.
  assert (H : xbit2bin_header LittleEndian (repeat x00 MAXHDR)
                (open_files (input_example true))
              = Some (Emit (skipn 40 (header_example true)
                            ++ skipn 216 (header_example true))
                        216 true
                        (mkWorld payload_example false [] None)))
    by (vm_compute; reflexivity).
  split; [exact H|].
  destruct (header_count_word_multiple _ _ _ _ _ _ _ H) as (Hm & Hn & _).
  exact (conj Hm Hn).
Defined.

Lemma xbit2bin_bswap_twice_witness :
  xbit2bin_bswap LittleEndian
    (xbit2bin_bswap LittleEndian [x01; x02; x03; x04; x05; x06; x07; x08]
       (Z.of_nat (length [x01; x02; x03; x04; x05; x06; x07; x08])))
    (Z.of_nat (length [x01; x02; x03; x04; x05; x06; x07; x08]))
  = [x01; x02; x03; x04; x05; x06; x07; x08].
Proof.
  apply (xbit2bin_bswap_twice LittleEndian
           [x01; x02; x03; x04; x05; x06; x07; x08]).
  reflexivity.
Defined.

(** C8, as it is stated, on an input of exactly 256 bytes whose analysis
    succeeds with offset 1: 255 bytes are left in the header, the byte
    that would pad them cannot be read, and [xbit2bin] returns -1 with
    nothing written. *)
Lemma xbit2bin_header_only_unaligned :
  length header_only_unaligned = MAXHDR /\
  analyze_xilinx_header LittleEndian header_only_unaligned
  = Some (1, false) /\
  xbit2bin LittleEndian (repeat x00 MAXHDR) (repeat x00 DATBUF_SIZE)
    (open_files header_only_unaligned)
  = Some (Trouble ReadingData, mkWorld [] false [] None).
Proof. repeat apply conj; vm_compute; reflexivity. Qed.

Lemma xbit2bin_header_only_witness :
  exists w',
    xbit2bin LittleEndian (repeat x00 MAXHDR) (repeat x00 DATBUF_SIZE)
      (open_files (header_example true))
    = Some (Converted, w') /\
    fout w' = wordswap (skipn 40 (header_example true)).
Proof.
  apply (xbit2bin_header_only LittleEndian (repeat x00 MAXHDR)
           (repeat x00 DATBUF_SIZE) (header_example true) 40 true).
  - vm_compute. reflexivity.
  - vm_compute. reflexivity.
  - reflexivity.
Defined.

Lemma analyze_success_in_bounds_witness :
  exists strip do_swap,
    analyze_xilinx_header LittleEndian (header_example true)
    = Some (strip, do_swap) /\
    (0 <= strip ->
     strip <= 216 /\
     dummies_at (header_example true) (Z.to_nat strip) 32 /\
     firstn 8 (skipn (Z.to_nat strip + 32) (header_example true))
     = marker LittleEndian do_swap /\
     (Z.to_nat strip + 32 + 8 <= length (header_example true))%nat).
Proof.
  apply (analyze_success_in_bounds LittleEndian (header_example true)).
  vm_compute. reflexivity.
Defined.

(** * Further properties of the code *)

(** ** analyze_xilinx_header *)

Lemma bytes_eqb_false (p q : list byte) : bytes_eqb p q = false -> p <> q.
Proof.
  unfold bytes_eqb. destruct (list_eq_dec _ p q); [discriminate|auto].
Qed.

Lemma bytes_eqb_refl (p : list byte) : bytes_eqb p p = true.
Proof.
  unfold bytes_eqb. destruct (list_eq_dec _ p p); [reflexivity|congruence].
Qed.

(** X1: a header of 256 bytes is accepted with offset [strip] and flag
    [do_swap] exactly when it is made of bytes without 32 dummy bytes in a
    row, then 32 dummy bytes or more, then the marker of [do_swap], and
    [strip] is the position of the marker minus 32: the analyzer takes the
    first run of 32 dummy bytes and no other. *)
Theorem analyze_accepts_iff (host : endianness) (hdr : list byte)
  (strip : Z) (do_swap : bool) :
  length hdr = MAXHDR ->
  (analyze_xilinx_header host hdr = Some (strip, do_swap) /\ 0 <= strip) <->
  (exists pre k post,
     hdr = bitstream host pre k do_swap post /\
     has_run32 pre = false /\ (32 <= k)%nat /\
     strip = Z.of_nat (length pre + k) - 32).
Proof.
  intros Hlen. split.
  - intros [Han Hpos].
    exact (analyze_success_structure host hdr strip do_swap Hlen Han Hpos).
  - intros (pre & k & post & -> & Hpre & Hk & ->).
    unfold bitstream in *. split; [|lia].
    apply analyze_structured; auto. apply has_run32_false. exact Hpre.
Qed.

(** X2: when the first run of 32 dummy bytes or more is followed by eight
    bytes that are none of the two markers, the analysis fails, whatever
    comes after them: the analyzer does not look for a second run. *)
Theorem analyze_never_resyncs (host : endianness) (pre m post : list byte)
  (k : nat) :
  length (pre ++ repeat xff k ++ m ++ post) = MAXHDR ->
  has_run32 pre = false -> (32 <= k)%nat ->
  length m = 8%nat -> is_dummy (hd x00 m) = false ->
  bytes_eqb m (marker host false) = false ->
  bytes_eqb m (marker host true) = false ->
  analyze_xilinx_header host (pre ++ repeat xff k ++ m ++ post)
  = Some (-1, false).
Proof.
  intros Hlen Hpre Hk Hml Hm0 Hn0 Hn1.
  apply analyze_unknown_marker; auto.
  - apply has_run32_false. exact Hpre.
  - destruct m as [|b m']; [discriminate|]. cbn [hd] in Hm0.
    cbn [nth_error]. intros E. injection E as ->. discriminate.
  - apply bytes_eqb_false. exact Hn0.
  - apply bytes_eqb_false. exact Hn1.
Qed.

(** X3: the scan reads the first 248 bytes and no more; a header without
    32 dummy bytes in a row among them is rejected, also when such a run
    ends behind them. *)
Theorem analyze_scans_248_bytes (host : endianness) (hdr : list byte) :
  length hdr = MAXHDR ->
  has_run32 (firstn scan_steps hdr) = false ->
  analyze_xilinx_header host hdr = Some (-1, false).
Proof.
  intros Hlen Hno. apply has_run32_false in Hno.
  pose proof (eq_refl : MAXHDR = 256%nat) as HM.
  destruct (scan_dummies_defined scan_steps hdr 0 0)
    as (i & d & Hscan).
  { rewrite scan_steps_eq. lia. }
  rewrite (analyze_by_scan host hdr i d ltac:(lia) Hscan).
  destruct (Nat.ltb_spec d 32) as [Hd | Hd]; [reflexivity|].
  exfalso. apply Hno. exists (i - 32)%nat.
  apply scan_header_sound in Hscan. destruct Hscan as (Hi & Hdi & Hrun).
  intros j Hj. rewrite scan_steps_eq.
  rewrite <- (firstn_skipn 248 hdr) in Hrun.
  rewrite <- (Hrun (i - 32 - (i - d) + j)%nat ltac:(lia)).
  replace (i - d + (i - 32 - (i - d) + j))%nat with (i - 32 + j)%nat by lia.
  symmetry. apply nth_error_app1. rewrite length_firstn. lia.
Qed.

Lemma marker_host_flip (sw : bool) :
  marker BigEndian sw = marker LittleEndian (negb sw).
Proof. destruct sw; vm_compute; reflexivity. Qed.

(** X4: the markers are arrays of [uint32_t] compared byte by byte, so
    the answer depends on the host: a header accepted without swap on a
    little-endian host is accepted with swap, and the same offset, on a
    big-endian host, and the other way round. *)
Theorem analyze_host_flip (hdr : list byte) (strip : Z) (do_swap : bool) :
  length hdr = MAXHDR -> 0 <= strip ->
  (analyze_xilinx_header LittleEndian hdr = Some (strip, do_swap) <->
   analyze_xilinx_header BigEndian hdr = Some (strip, negb do_swap)).
Proof.
  intros Hlen Hpos.
  split; intros Han.
  - destruct (analyze_success_structure _ hdr strip do_swap Hlen Han Hpos)
      as (pre & k & post & -> & Hpre & Hk & ->).
    rewrite <- (Bool.negb_involutive do_swap) at 1.
    rewrite <- marker_host_flip.
    apply analyze_structured; auto.
    + apply has_run32_false. exact Hpre.
    + rewrite marker_host_flip, Bool.negb_involutive. exact Hlen.
  - destruct (analyze_success_structure _ hdr strip (negb do_swap) Hlen Han
                Hpos) as (pre & k & post & -> & Hpre & Hk & ->).
    rewrite marker_host_flip.
    rewrite Bool.negb_involutive.
    apply analyze_structured; auto.
    + apply has_run32_false. exact Hpre.
    + rewrite marker_host_flip, Bool.negb_involutive in Hlen. exact Hlen.
Qed.

(** ** The files and the header phase of xbit2bin *)

Lemma retag_self (w : world) :
  retag (fin_error w) (fout w) (fout_room w) w = w.
Proof. destruct w; reflexivity. Qed.

(** A [read] of one byte or more looks at the input only; at the end of
    the input it returns 0 or -1, never the count. *)
Lemma read_retag (e : bool) (o : list byte) (r : option nat) (w : world)
  (buf : list byte) (off count : nat) :
  (0 < count)%nat ->
  exists n',
    read (retag e o r w) buf off count
    = (n', snd (fst (read w buf off count)),
       retag e o r (snd (read w buf off count))) /\
    (n' =? Z.of_nat count) = (fst (fst (read w buf off count)) =? Z.of_nat count).
Proof.
  intros Hc.
  destruct (list_eq_dec Strings.Byte.byte_eq_dec (fin w) []) as [E | NE].
  - rewrite (read_eof w) by exact E.
    rewrite (read_eof (retag e o r w)) by exact E.
    eexists. split; [reflexivity|]. cbn [fst snd retag fin_error].
    destruct e, (fin_error w);
      rewrite ?(proj2 (Z.eqb_neq (-1) (Z.of_nat count))),
              ?(proj2 (Z.eqb_neq 0 (Z.of_nat count))) by lia; reflexivity.
  - rewrite (read_nonempty w) by exact NE.
    rewrite (read_nonempty (retag e o r w)) by exact NE.
    eexists. split; reflexivity.
Qed.

(** The header phase reads and does not write: the error flag of the
    input and the output do not change what it computes, and it hands
    them on as they are. *)
Lemma xbit2bin_header_frame (host : endianness) (e : bool) (o : list byte)
  (r : option nat) (hdr0 : list byte) (w : world) :
  xbit2bin_header host hdr0 (retag e o r w)
  = option_map (staged_map (retag e o r)) (xbit2bin_header host hdr0 w).
Proof.
  unfold xbit2bin_header.
  destruct (read_retag e o r w hdr0 0 MAXHDR ltac:(unfold MAXHDR; lia))
    as (n' & R' & E').
  destruct (read w hdr0 0 MAXHDR) as [[n b] w1].
  cbn [fst snd] in R', E'. rewrite R', E'. clear R' E' n'.
  destruct (negb (n =? Z.of_nat MAXHDR)); [reflexivity|].
  destruct (analyze_xilinx_header host b) as [[strip sw]|]; [|reflexivity].
  destruct (strip <? 0); [reflexivity|].
  cbv zeta.
  set (n0 := Z.of_nat MAXHDR - strip).
  set (hdr1 := if 0 <? strip then _ else b).
  destruct (negb (Z.land n0 3 =? 0)); [|reflexivity].
  pose proof (land_3 n0) as HL.
  pose proof (Z.mod_pos_bound n0 4 ltac:(lia)) as Hb.
  destruct (read_retag e o r w1 hdr1 (Z.to_nat n0)
              (Z.to_nat (4 - Z.land n0 3)) ltac:(lia)) as (n' & R' & E').
  rewrite Z2Nat.id in E' by lia.
  destruct (read w1 hdr1 (Z.to_nat n0) (Z.to_nat (4 - Z.land n0 3)))
    as [[n2 b2] w2].
  cbn [fst snd] in R', E'. rewrite R', E'.
  destruct (negb (n2 =? 4 - Z.land n0 3)); reflexivity.
Qed.

Lemma xbit2bin_header_keeps (host : endianness) (hdr0 : list byte)
  (w : world) (st : staged) :
  xbit2bin_header host hdr0 w = Some st ->
  fin_error (staged_world st) = fin_error w /\
  fout (staged_world st) = fout w /\
  fout_room (staged_world st) = fout_room w.
Proof.
  intros H. rewrite <- (retag_self w), xbit2bin_header_frame in H.
  destruct (xbit2bin_header host hdr0 w) as [st0|]; [|discriminate].
  injection H as <-. destruct st0; repeat apply conj; reflexivity.
Qed.

(** ** xbit2bin_bswap *)

(** X5: for a count [n] that is not negative, [xbit2bin_bswap] reverses
    the bytes of the first [n / 4] words of the array, rounded up, and
    leaves every byte behind them where it was; the array keeps its
    length. *)
Theorem xbit2bin_bswap_effect (host : endianness) (datbuf : list byte)
  (n : Z) :
  0 <= n -> (4 * nwords n <= length datbuf)%nat ->
  xbit2bin_bswap host datbuf n
  = wordswap (firstn (4 * nwords n) datbuf) ++ skipn (4 * nwords n) datbuf /\
  length (xbit2bin_bswap host datbuf n) = length datbuf /\
  Z.of_nat (4 * nwords n) - 4 < n <= Z.of_nat (4 * nwords n).
Proof.
  intros Hn Hlen. split; [|split].
  - apply xbit2bin_bswap_words. exact Hlen.
  - apply xbit2bin_bswap_length.
  - unfold nwords.
    pose proof (Z.div_mod (n + 3) 4 ltac:(lia)).
    pose proof (Z.mod_pos_bound (n + 3) 4 ltac:(lia)).
    assert (0 <= (n + 3) / 4) by (apply Z.div_pos; lia). lia.
Qed.

Lemma bswap_at_any_host (datbuf : list byte) (i : nat) :
  bswap_at LittleEndian datbuf i = bswap_at BigEndian datbuf i.
Proof.
  unfold bswap_at.
  destruct (firstn 4 (skipn (4 * i) datbuf))
    as [|b0 [|b1 [|b2 [|b3 [|b4 l]]]]]; try reflexivity.
  rewrite !swap_word_reverses. reflexivity.
Qed.

(** X6: what [xbit2bin_bswap] does to the bytes of an array is the same
    on a little-endian and on a big-endian host. *)
Theorem xbit2bin_bswap_any_host (datbuf : list byte) (n : Z) :
  0 <= n ->
  xbit2bin_bswap LittleEndian datbuf n = xbit2bin_bswap BigEndian datbuf n.
Proof.
  intros _. rewrite !xbit2bin_bswap_fold.
  generalize (seq 0 (nwords n)). intros l. revert datbuf.
  induction l as [|i l IH]; intros datbuf; [reflexivity|].
  cbn [fold_left]. rewrite bswap_at_any_host. apply IH.
Qed.

Lemma read_got_positive (w : world) :
  fin w <> [] -> (0 < length (firstn DATBUF_SIZE (fin w)))%nat.
Proof.
  intros NE. rewrite length_firstn. pose proof DATBUF_SIZE_eq.
  destruct (fin w); [congruence|cbn [length]; lia].
Qed.

Lemma bswap_at_checked_some (host : endianness) (datbuf : list byte)
  (i : nat) :
  (4 * i + 4 <= length datbuf)%nat ->
  bswap_at_checked host datbuf i = Some (bswap_at host datbuf i).
Proof.
  intros Hin. unfold bswap_at_checked, bswap_at.
  assert (L : length (firstn 4 (skipn (4 * i) datbuf)) = 4%nat)
    by (rewrite length_firstn, length_skipn; lia).
  destruct (firstn 4 (skipn (4 * i) datbuf))
    as [|b0 [|b1 [|b2 [|b3 [|b4 l]]]]]; cbn [length] in L;
    try discriminate.
  reflexivity.
Qed.

Lemma bswap_at_checked_none (host : endianness) (datbuf : list byte)
  (i : nat) :
  (length datbuf < 4 * i + 4)%nat -> bswap_at_checked host datbuf i = None.
Proof.
  intros Hout. unfold bswap_at_checked.
  assert (L : (length (firstn 4 (skipn (4 * i) datbuf)) < 4)%nat)
    by (rewrite length_firstn, length_skipn; lia).
  destruct (firstn 4 (skipn (4 * i) datbuf))
    as [|b0 [|b1 [|b2 [|b3 [|b4 l]]]]]; cbn [length] in L;
    try reflexivity; lia.
Qed.

Lemma bswap_loop_checked_some (host : endianness) (steps : nat) :
  forall (datbuf : list byte) (n : Z) (i : nat),
    (forall j, (i <= j)%nat -> Z.of_nat j * 4 < n ->
               (4 * j + 4 <= length datbuf)%nat) ->
    bswap_loop_checked host steps datbuf n i
    = Some (bswap_loop host steps datbuf n i).
Proof.
  induction steps as [|steps IH]; intros datbuf n i Hin; [reflexivity|].
  cbn [bswap_loop_checked bswap_loop].
  destruct (Z.ltb_spec (Z.of_nat i * 4) n) as [Hlt | _]; [|reflexivity].
  rewrite bswap_at_checked_some by (apply Hin; [lia|exact Hlt]).
  apply IH. intros j Hj Hjn. rewrite bswap_at_length. apply Hin; [lia|exact Hjn].
Qed.

(** The checked swap has a result when the words up to [n], rounded up,
    are inside the array, and the result is that of [xbit2bin_bswap]. *)
Lemma xbit2bin_bswap_checked_some (host : endianness) (datbuf : list byte)
  (n : Z) :
  (4 * nwords n <= length datbuf)%nat ->
  xbit2bin_bswap_checked host datbuf n = Some (xbit2bin_bswap host datbuf n).
Proof.
  intros Hin. unfold xbit2bin_bswap_checked, xbit2bin_bswap.
  apply bswap_loop_checked_some. intros j _ Hj.
  apply nwords_spec in Hj. lia.
Qed.

(** With a [datbuf] of the size the program gives it, the checked loop
    is the loop. *)
Lemma copy_rest_checked_eq (host : endianness) (fuel : nat) :
  forall (do_swap : bool) (datbuf : list byte) (w : world),
    length datbuf = DATBUF_SIZE ->
    copy_rest_checked host fuel do_swap datbuf w
    = copy_rest host fuel do_swap datbuf w.
Proof.
  induction fuel as [|fuel IH]; intros do_swap datbuf w Hlen; [reflexivity|].
  cbn [copy_rest_checked copy_rest].
  destruct (list_eq_dec Strings.Byte.byte_eq_dec (fin w) []) as [E | NE].
  - rewrite read_eof by exact E.
    destruct (fin_error w); cbn [Z.eqb Z.ltb Z.compare]; reflexivity.
  - rewrite read_nonempty by exact NE.
    pose proof (read_got_positive w NE) as Hgot.
    set (got := firstn DATBUF_SIZE (fin w)) in *.
    assert (Hle : (length got <= DATBUF_SIZE)%nat)
      by (unfold got; rewrite length_firstn; lia).
    destruct (Z.eqb_spec (Z.of_nat (length got)) 0) as [E | _]; [lia|].
    destruct (Z.ltb_spec (Z.of_nat (length got)) 0) as [E | _]; [lia|].
    set (datbuf1 := store_at datbuf 0 got).
    assert (Hl1 : length datbuf1 = DATBUF_SIZE).
    { unfold datbuf1. rewrite store_at_length by lia. exact Hlen. }
    assert (Hin : (4 * nwords (Z.of_nat (length got)) <= length datbuf1)%nat).
    { rewrite Hl1. unfold nwords.
      pose proof DATBUF_SIZE_eq as HD.
      pose proof (Z.div_mod (Z.of_nat (length got) + 3) 4 ltac:(lia)).
      pose proof (Z.mod_pos_bound (Z.of_nat (length got) + 3) 4 ltac:(lia)).
      assert (0 <= (Z.of_nat (length got) + 3) / 4)
        by (apply Z.div_pos; lia).
      lia. }
    set (datbuf2 := if do_swap
                    then xbit2bin_bswap host datbuf1 (Z.of_nat (length got))
                    else datbuf1).
    assert (Hl2 : length datbuf2 = DATBUF_SIZE).
    { unfold datbuf2. destruct do_swap; [rewrite xbit2bin_bswap_length|];
        exact Hl1. }
    assert (Hsw : (if do_swap
                   then xbit2bin_bswap_checked host datbuf1
                          (Z.of_nat (length got))
                   else Some datbuf1) = Some datbuf2).
    { unfold datbuf2. destruct do_swap; [|reflexivity].
      apply xbit2bin_bswap_checked_some. exact Hin. }
    rewrite Hsw. fold datbuf2.
    match goal with
    | |- context [write ?w0 datbuf2 ?n] => destruct (write w0 datbuf2 n) as [m w2]
    end.
    destruct (negb (m =? Z.of_nat (length got))); [reflexivity|].
    apply IH. exact Hl2.
Qed.

(** X7: the swap of the copy loop stays inside [datbuf].  With the
    array of 64 * 1024 bytes that [xbit2bin] declares, the loop in which
    [xbit2bin_bswap] fails on a word that is not wholly inside the array
    comes to its end, with the result of the loop of the program. *)
Theorem copy_loop_swap_in_bounds (host : endianness) (fuel : nat)
  (do_swap : bool) (datbuf : list byte) (w : world) :
  length datbuf = DATBUF_SIZE ->
  (length (fin w) < fuel)%nat ->
  exists o w',
    copy_rest_checked host fuel do_swap datbuf w = Some (o, w') /\
    copy_rest host fuel do_swap datbuf w = Some (o, w').
Proof.
  intros Hlen Hfuel.
  destruct (copy_rest_returns host fuel do_swap datbuf w Hfuel)
    as (o & w' & Hrun).
  exists o, w'. split; [|exact Hrun].
  rewrite copy_rest_checked_eq by exact Hlen. exact Hrun.
Qed.

(** The check bites: seven bytes read into an array of seven bytes, and
    the second word that the swap touches ends behind the array. *)
Example copy_rest_checked_small_array :
  copy_rest_checked LittleEndian 8 true (repeat x00 7)
    (open_files [x01; x02; x03; x04; x05; x06; x07]) = None /\
  xbit2bin_bswap_checked LittleEndian [x01; x02; x03; x04; x05; x06; x07] 7
  = None /\
  xbit2bin_bswap_checked LittleEndian
    [x01; x02; x03; x04; x05; x06; x07; x08] 7
  = Some [x04; x03; x02; x01; x08; x07; x06; x05].
Proof. repeat apply conj; vm_compute; reflexivity. Qed.

(** ** xbit2bin and the state of the files *)

Lemma write_with_error (w : world) (buf : list byte) (n : Z) :
  write (with_error w) buf n
  = (fst (write w buf n), with_error (snd (write w buf n))).
Proof. reflexivity. Qed.

Lemma write_fin_error (w : world) (buf : list byte) (n : Z) :
  fin_error (snd (write w buf n)) = fin_error w.
Proof. reflexivity. Qed.

(** The loop on an input that ends with a read error: the same turns, and
    -1 from the [read] that would have returned 0. *)
Lemma copy_rest_with_error (host : endianness) (fuel : nat) :
  forall (do_swap : bool) (datbuf : list byte) (w : world) (o : outcome)
         (w1 : world),
    fin_error w = false ->
    copy_rest host fuel do_swap datbuf w = Some (o, w1) ->
    copy_rest host fuel do_swap datbuf (with_error w)
    = Some (outcome_with_error o, with_error w1).
Proof.
  induction fuel as [|fuel IH]; intros do_swap datbuf w o w1 Herr H;
    [discriminate|].
  cbn [copy_rest] in H |- *.
  destruct (list_eq_dec Strings.Byte.byte_eq_dec (fin w) []) as [E | NE].
  - rewrite (read_eof w) in H by exact E.
    rewrite (read_eof (with_error w)) by exact E.
    rewrite Herr in H. cbn [Z.eqb] in H. injection H as <- <-.
    reflexivity.
  - rewrite (read_nonempty w) in H by exact NE.
    rewrite (read_nonempty (with_error w)) by exact NE.
    pose proof (read_got_positive w NE) as Hgot.
    cbn [with_error fin fin_error fout fout_room].
    set (got := firstn DATBUF_SIZE (fin w)) in *.
    destruct (Z.eqb_spec (Z.of_nat (length got)) 0) as [E | _]; [lia|].
    destruct (Z.ltb_spec (Z.of_nat (length got)) 0) as [E | _]; [lia|].
    set (datbuf2 := if do_swap then _ else _) in *.
    set (w2 := mkWorld (skipn DATBUF_SIZE (fin w)) (fin_error w) (fout w)
                       (fout_room w)) in *.
    change (mkWorld (skipn DATBUF_SIZE (fin w)) true (fout w) (fout_room w))
      with (with_error w2).
    rewrite write_with_error.
    pose proof (write_fin_error w2 datbuf2 (Z.of_nat (length got))) as Hfe.
    destruct (write w2 datbuf2 (Z.of_nat (length got))) as [m w3].
    cbn [fst snd] in Hfe |- *.
    destruct (negb (m =? Z.of_nat (length got))).
    + injection H as <- <-. reflexivity.
    + apply IH; [|exact H]. rewrite Hfe. exact Herr.
Qed.

Lemma xbit2bin_header_stop (host : endianness) (hdr0 : list byte)
  (w : world) (o : outcome) (w1 : world) :
  xbit2bin_header host hdr0 w = Some (Stop o w1) ->
  o = Trouble ReadingHeader \/ o = Trouble AnalyzingHeader
  \/ o = Trouble ReadingData.
Proof.
  unfold xbit2bin_header.
  destruct (read w hdr0 0 MAXHDR) as [[n b] w2].
  destruct (negb (n =? Z.of_nat MAXHDR));
    [intros H; injection H as <- _; auto|].
  destruct (analyze_xilinx_header host b) as [[strip sw]|]; [|discriminate].
  destruct (strip <? 0); [intros H; injection H as <- _; auto|].
  cbv zeta.
  destruct (negb (Z.land (Z.of_nat MAXHDR - strip) 3 =? 0));
    [|discriminate].
  match goal with
  | |- context [read ?w0 ?buf ?off ?count] =>
      destruct (read w0 buf off count) as [[r hdr'] w']
  end.
  destruct (negb (r =? 4 - Z.land (Z.of_nat MAXHDR - strip) 3));
    [intros H; injection H as <- _; auto|discriminate].
Qed.

(** X8: a read error at the end of the input does not change a byte of
    what [xbit2bin] writes; it turns success into the failure of reading
    data, and leaves every other failure as it is. *)
Theorem xbit2bin_read_error_at_end (host : endianness)
  (hdr0 datbuf0 : list byte) (w : world) (o : outcome) (w1 : world) :
  fin_error w = false ->
  xbit2bin host hdr0 datbuf0 w = Some (o, w1) ->
  xbit2bin host hdr0 datbuf0 (with_error w)
  = Some (outcome_with_error o, with_error w1) /\
  fout (with_error w1) = fout w1 /\
  return_value (outcome_with_error o) = -1.
Proof.
  intros Herr H.
  assert (Hret : return_value (outcome_with_error o) = -1)
    by (destruct o; reflexivity).
  split; [|split; [reflexivity|exact Hret]].
  unfold xbit2bin in H |- *.
  change (with_error w) with (retag true (fout w) (fout_room w) w).
  rewrite xbit2bin_header_frame.
  destruct (xbit2bin_header host hdr0 w) as [st|] eqn:Hst; [|discriminate].
  pose proof (xbit2bin_header_keeps host hdr0 w st Hst) as (Ke & Ko & Kr).
  destruct st as [o0 w2 | hdr n do_swap w2];
    cbn [option_map staged_map staged_world] in *.
  - injection H as <- <-.
    destruct (xbit2bin_header_stop host hdr0 w o0 w2 Hst) as [-> | [-> | ->]];
      unfold retag, with_error; rewrite Ko, Kr; reflexivity.
  - replace (retag true (fout w) (fout_room w) w2) with (with_error w2)
      by (unfold retag, with_error; rewrite Ko, Kr; reflexivity).
    rewrite write_with_error.
    match goal with
    | |- context [write w2 ?buf n] =>
        pose proof (write_fin_error w2 buf n) as Hfe;
        destruct (write w2 buf n) as [m w3]
    end.
    cbn [fst snd] in Hfe |- *.
    destruct (negb (m =? n)).
    + injection H as <- <-. reflexivity.
    + apply copy_rest_with_error; [congruence|exact H].
Qed.

Lemma write_with_room (w : world) (buf : list byte) (n : Z) (r : nat) :
  fout_room w = None ->
  (Z.to_nat n <= length buf)%nat -> 0 <= n ->
  write (with_room r w) buf n
  = if (Z.to_nat n <=? r)%nat
    then (n, with_room (r - Z.to_nat n) (snd (write w buf n)))
    else (Z.of_nat r,
          mkWorld (fin w) (fin_error w)
                  (fout w ++ firstn r (firstn (Z.to_nat n) buf)) (Some 0%nat)).
Proof.
  intros Hroom Hlen Hn.
  rewrite (write_unlimited w) by exact Hroom.
  unfold write, with_room. cbn [fin fin_error fout fout_room option_map snd].
  assert (Hd : length (firstn (Z.to_nat n) buf) = Z.to_nat n)
    by (rewrite length_firstn; lia).
  destruct (Nat.leb_spec (Z.to_nat n) r) as [Hle | Hgt].
  - rewrite (firstn_all2 (n := r)) by lia.
    rewrite Hd, Z2Nat.id by lia. reflexivity.
  - rewrite length_firstn, Hd, Nat.min_l by lia.
    rewrite Nat.sub_diag. reflexivity.
Qed.

(** The loop with an output that takes [r] more bytes: it writes the
    first [r] of the bytes it writes without limit, and fails at the
    first [write] that the room cuts short. *)
Lemma copy_rest_with_room (host : endianness) (fuel : nat) :
  forall (do_swap : bool) (datbuf : list byte) (w : world) (o : outcome)
         (w1 : world),
    fout_room w = None ->
    copy_rest host fuel do_swap datbuf w = Some (o, w1) ->
    exists new,
      fout w1 = fout w ++ new /\
      forall r, exists o' w1',
        copy_rest host fuel do_swap datbuf (with_room r w) = Some (o', w1') /\
        fout w1' = fout w ++ firstn r new /\
        ((length new <= r)%nat -> o' = o) /\
        ((r < length new)%nat -> o' = Trouble WritingData).
Proof.
  induction fuel as [|fuel IH]; intros do_swap datbuf w o w1 Hroom H;
    [discriminate|].
  destruct (list_eq_dec Strings.Byte.byte_eq_dec (fin w) []) as [E | NE].
  - cbn [copy_rest] in H. rewrite (read_eof w) in H by exact E.
    assert (Hw1 : w1 = w).
    { destruct (fin_error w); cbn [Z.eqb Z.ltb Z.compare] in H;
        injection H as _ <-; reflexivity. }
    subst w1. exists []. split; [symmetry; apply app_nil_r|].
    intros r. exists o, (with_room r w).
    repeat apply conj.
    + cbn [copy_rest]. rewrite (read_eof (with_room r w)) by exact E.
      cbn [with_room fin_error].
      destruct (fin_error w); cbn [Z.eqb Z.ltb Z.compare] in H |- *;
        injection H as <-; reflexivity.
    + rewrite firstn_nil, app_nil_r. reflexivity.
    + reflexivity.
    + cbn [length]. lia.
  - pose proof (copy_rest_step host fuel do_swap datbuf w NE Hroom) as Hstep.
    cbv zeta in Hstep. rewrite Hstep in H. clear Hstep.
    pose proof (read_got_positive w NE) as Hgot.
    set (got := firstn DATBUF_SIZE (fin w)) in *.
    set (datbuf2 := if do_swap then _ else _) in *.
    assert (Hlen : (length got <= length datbuf2)%nat).
    { unfold datbuf2. destruct do_swap; [rewrite xbit2bin_bswap_length|];
        rewrite store_at_0, length_app; lia. }
    set (data := firstn (length got) datbuf2) in *.
    assert (Hdata : length data = length got)
      by (unfold data; rewrite length_firstn; lia).
    set (w2 := mkWorld (skipn DATBUF_SIZE (fin w)) (fin_error w)
                       (fout w ++ data) None) in *.
    destruct (IH do_swap datbuf2 w2 o w1 eq_refl H) as (new' & Hout & Hr).
    exists (data ++ new'). split.
    { rewrite Hout. unfold w2. cbn [fout]. symmetry. apply app_assoc. }
    intros r. cbn [copy_rest].
    rewrite (read_nonempty (with_room r w)) by exact NE.
    cbn [with_room fin fin_error fout fout_room]. fold got.
    destruct (Z.eqb_spec (Z.of_nat (length got)) 0) as [E | _]; [lia|].
    destruct (Z.ltb_spec (Z.of_nat (length got)) 0) as [E | _]; [lia|].
    fold datbuf2.
    pose proof (write_with_room
                  (mkWorld (skipn DATBUF_SIZE (fin w)) (fin_error w) (fout w)
                           None)
                  datbuf2 (Z.of_nat (length got)) r eq_refl
                  ltac:(rewrite Nat2Z.id; exact Hlen) ltac:(lia)) as Hw.
    unfold with_room at 1 in Hw. cbn [fin fin_error fout] in Hw.
    rewrite Hw. clear Hw. rewrite Nat2Z.id.
    destruct (Nat.leb_spec (length got) r) as [Hle | Hgt].
    + rewrite Z.eqb_refl. cbn [negb].
      rewrite write_unlimited by reflexivity.
      rewrite Nat2Z.id. cbn [snd fin fin_error fout]. fold data.
      change (with_room (r - length got)
                (mkWorld (skipn DATBUF_SIZE (fin w)) (fin_error w)
                         (fout w ++ data) None))
        with (with_room (r - length got) w2).
      destruct (Hr (r - length got)%nat) as (o' & w1' & Hrun & Ho & Hs & Hf).
      exists o', w1'. repeat apply conj.
      * exact Hrun.
      * rewrite Ho. unfold w2. cbn [fout].
        rewrite firstn_app, Hdata, (firstn_all2 data) by lia.
        symmetry. apply app_assoc.
      * intros Hl. apply Hs. rewrite length_app in Hl. lia.
      * intros Hl. apply Hf. rewrite length_app in Hl. lia.
    + destruct (Z.eqb_spec (Z.of_nat r) (Z.of_nat (length got))) as [E | _];
        [lia|].
      cbn [negb]. eexists _, _. repeat apply conj.
      * reflexivity.
      * cbn [fout]. fold data. rewrite firstn_app.
        replace (r - length data)%nat with 0%nat by lia.
        rewrite firstn_O, app_nil_r. reflexivity.
      * intros Hl. rewrite length_app in Hl. lia.
      * reflexivity.
Qed.

(** X9: with an output that takes [r] bytes and no more, [xbit2bin]
    writes the first [r] of the bytes it writes to an output without
    limit; when they all fit the result is the same, and when they do not
    it is the failure of writing the header or of writing data. *)
Theorem xbit2bin_short_write (host : endianness) (hdr0 datbuf0 : list byte)
  (w : world) (r : nat) :
  fout_room w = None ->
  exists o w1 new o' w1',
    xbit2bin host hdr0 datbuf0 w = Some (o, w1) /\
    fout w1 = fout w ++ new /\
    xbit2bin host hdr0 datbuf0 (with_room r w) = Some (o', w1') /\
    fout w1' = fout w ++ firstn r new /\
    ((length new <= r)%nat -> o' = o) /\
    ((r < length new)%nat ->
     o' = Trouble WritingHeader \/ o' = Trouble WritingData).
Proof.
  intros Hroom.
  destruct (xbit2bin_returns host hdr0 datbuf0 w) as (o & w1 & H).
  exists o, w1.
  enough (exists new o' w1',
            fout w1 = fout w ++ new /\
            xbit2bin host hdr0 datbuf0 (with_room r w) = Some (o', w1') /\
            fout w1' = fout w ++ firstn r new /\
            ((length new <= r)%nat -> o' = o) /\
            ((r < length new)%nat ->
             o' = Trouble WritingHeader \/ o' = Trouble WritingData))
    as (new & o' & w1' & A & B)
    by (exists new, o', w1'; split; [exact H | split; [exact A | exact B]]).
  unfold xbit2bin in H |- *.
  change (with_room r w) with (retag (fin_error w) (fout w) (Some r) w).
  rewrite xbit2bin_header_frame.
  destruct (xbit2bin_header host hdr0 w) as [st|] eqn:Hst; [|discriminate].
  pose proof (xbit2bin_header_keeps host hdr0 w st Hst) as (Ke & Ko & Kr).
  destruct st as [o0 w2 | hdr n do_swap w2];
    cbn [option_map staged_map staged_world] in *.
  - injection H as <- <-. exists [], o0, (retag (fin_error w) (fout w) (Some r) w2).
    repeat apply conj; try reflexivity.
    + rewrite Ko. symmetry. apply app_nil_r.
    + cbn [retag fout]. rewrite firstn_nil, app_nil_r. reflexivity.
    + cbn [length]. lia.
  - destruct (xbit2bin_header_inv host hdr0 w hdr n do_swap w2 Hst)
      as (strip & pad & _ & Hs & Hp & Hn & _ & _ & _ & Hlen).
    pose proof (eq_refl : MAXHDR = 256%nat) as HM.
    replace (retag (fin_error w) (fout w) (Some r) w2) with (with_room r w2)
      by (unfold retag, with_room; rewrite Ke, Ko; reflexivity).
    rewrite Hroom in Kr.
    set (hdr2 := if do_swap then xbit2bin_bswap host hdr n else hdr) in *.
    assert (Hlen2 : (Z.to_nat n <= length hdr2)%nat).
    { unfold hdr2. destruct do_swap; [rewrite xbit2bin_bswap_length|]; lia. }
    rewrite write_unlimited in H by exact Kr.
    rewrite write_with_room by (try exact Kr; try exact Hlen2; lia).
    rewrite write_unlimited by exact Kr.
    set (data := firstn (Z.to_nat n) hdr2) in *.
    assert (Hdata : length data = Z.to_nat n)
      by (unfold data; rewrite length_firstn; lia).
    rewrite Hdata, Z2Nat.id in H by lia.
    rewrite Z.eqb_refl in H. cbn [negb snd fin] in H |- *.
    set (w3 := mkWorld (fin w2) (fin_error w2) (fout w2 ++ data) None) in *.
    destruct (copy_rest_with_room host _ do_swap datbuf0 w3 o w1 eq_refl H)
      as (new' & Hout & Hr).
    exists (data ++ new').
    destruct (Nat.leb_spec (Z.to_nat n) r) as [Hle | Hgt].
    + rewrite Z.eqb_refl. cbn [negb].
      destruct (Hr (r - Z.to_nat n)%nat) as (o' & w1' & Hrun & Ho & Hsm & Hf).
      exists o', w1'. repeat apply conj.
      * rewrite Hout. unfold w3. cbn [fout]. rewrite Ko.
        symmetry. apply app_assoc.
      * exact Hrun.
      * rewrite Ho. unfold w3. cbn [fout]. rewrite Ko.
        rewrite firstn_app, Hdata, (firstn_all2 data) by lia.
        symmetry. apply app_assoc.
      * intros Hl. apply Hsm. rewrite length_app in Hl. lia.
      * intros Hl. right. apply Hf. rewrite length_app in Hl. lia.
    + destruct (Z.eqb_spec (Z.of_nat r) n) as [E | _]; [lia|].
      cbn [negb]. eexists _, _. repeat apply conj.
      * rewrite Hout. unfold w3. cbn [fout]. rewrite Ko.
        symmetry. apply app_assoc.
      * reflexivity.
      * cbn [fout]. rewrite Ko, firstn_app.
        replace (r - length data)%nat with 0%nat by lia.
        rewrite firstn_O, app_nil_r. reflexivity.
      * intros Hl. rewrite length_app in Hl. lia.
      * intros _. left. reflexivity.
Qed.

(** With an input without read error and an output without limit, the
    phase after the header cannot fail. *)
Lemma xbit2bin_emit_converts (host : endianness) (hdr0 datbuf0 : list byte)
  (w : world) (hdr : list byte) (n : Z) (do_swap : bool) (w2 : world) :
  fin_error w = false -> fout_room w = None ->
  xbit2bin_header host hdr0 w = Some (Emit hdr n do_swap w2) ->
  exists w1, xbit2bin host hdr0 datbuf0 w = Some (Converted, w1).
Proof.
  intros Herr Hroom Hst. unfold xbit2bin. rewrite Hst.
  pose proof (xbit2bin_header_keeps host hdr0 w _ Hst) as (Ke & Ko & Kr).
  cbn [staged_world] in *.
  destruct (xbit2bin_header_inv host hdr0 w hdr n do_swap w2 Hst)
    as (strip & pad & _ & Hs & Hp & Hn & _ & _ & _ & Hlen).
  pose proof (eq_refl : MAXHDR = 256%nat) as HM.
  rewrite Hroom in Kr. rewrite Herr in Ke.
  set (hdr2 := if do_swap then xbit2bin_bswap host hdr n else hdr) in *.
  assert (Hlen2 : (Z.to_nat n <= length hdr2)%nat).
  { unfold hdr2. destruct do_swap; [rewrite xbit2bin_bswap_length|]; lia. }
  rewrite write_unlimited by exact Kr.
  rewrite length_firstn, Nat.min_l, Z2Nat.id, Z.eqb_refl by lia.
  cbn [negb fin].
  destruct do_swap.
  - destruct (copy_rest_swap host (S (length (fin w2))) datbuf0
                (mkWorld (fin w2) (fin_error w2)
                   (fout w2 ++ firstn (Z.to_nat n) hdr2) None))
      as (out & Hrun & _); cbn [fin fin_error fout_room]; auto.
    rewrite Hrun. eexists. reflexivity.
  - rewrite copy_rest_noswap; cbn [fin fin_error fout_room]; auto.
    eexists. reflexivity.
Qed.

Lemma xbit2bin_clean_run (host : endianness) (hdr0 datbuf0 : list byte)
  (w : world) (o : outcome) (w1 : world) :
  fin_error w = false -> fout_room w = None ->
  xbit2bin host hdr0 datbuf0 w = Some (o, w1) ->
  o = Converted \/
  ((o = Trouble ReadingHeader \/ o = Trouble AnalyzingHeader
    \/ o = Trouble ReadingData) /\ fout w1 = fout w).
Proof.
  intros Herr Hroom H.
  destruct (xbit2bin_header host hdr0 w) as [st|] eqn:Hst.
  2:{ unfold xbit2bin in H. rewrite Hst in H. discriminate. }
  destruct st as [o0 w2 | hdr n do_swap w2].
  - pose proof (xbit2bin_header_keeps host hdr0 w _ Hst) as (_ & Ko & _).
    unfold xbit2bin in H. rewrite Hst in H. injection H as <- <-.
    right. split; [|exact Ko].
    exact (xbit2bin_header_stop host hdr0 w o0 w2 Hst).
  - destruct (xbit2bin_emit_converts host hdr0 datbuf0 w hdr n do_swap w2
                Herr Hroom Hst) as (w1' & E).
    left. congruence.
Qed.

(** What stops the header phase. *)
Lemma xbit2bin_header_stop_cause (host : endianness) (hdr0 : list byte)
  (w : world) (o : outcome) (w1 : world) :
  xbit2bin_header host hdr0 w = Some (Stop o w1) ->
  (o = Trouble ReadingHeader /\ (length (fin w) < MAXHDR)%nat) \/
  (o = Trouble AnalyzingHeader /\ (MAXHDR <= length (fin w))%nat /\
   exists strip sw,
     analyze_xilinx_header host (firstn MAXHDR (fin w)) = Some (strip, sw) /\
     strip < 0) \/
  (o = Trouble ReadingData /\ (MAXHDR <= length (fin w))%nat /\
   exists s sw,
     analyze_xilinx_header host (firstn MAXHDR (fin w))
     = Some (Z.of_nat s, sw) /\
     (length (fin w) < MAXHDR + s mod 4)%nat).
Proof.
  intros H. unfold xbit2bin_header in H.
  pose proof (eq_refl : MAXHDR = 256%nat) as HM.
  destruct (list_eq_dec Strings.Byte.byte_eq_dec (fin w) []) as [E | Hne].
  { left. rewrite read_eof in H by exact E.
    destruct (fin_error w);
      rewrite (proj2 (Z.eqb_neq _ _)) in H by lia;
      cbn [negb] in H; injection H as <- _;
      (split; [reflexivity|rewrite E; cbn [length]; lia]). }
  rewrite read_nonempty in H by exact Hne.
  set (c := firstn MAXHDR (fin w)) in *.
  destruct (Nat.eq_dec (length c) MAXHDR) as [Hc | Hc].
  2:{ left. rewrite (proj2 (Z.eqb_neq _ _)) in H by lia.
      cbn [negb] in H. injection H as <- _. split; [reflexivity|].
      unfold c in Hc. rewrite length_firstn in Hc. lia. }
  assert (Hlen : (MAXHDR <= length (fin w))%nat)
    by (unfold c in Hc; rewrite length_firstn in Hc; lia).
  rewrite Hc, Z.eqb_refl, store_at_0, analyze_app in H by exact Hc.
  destruct (analyze_xilinx_header host c) as [[strip sw]|] eqn:Han;
    [|discriminate].
  cbn [negb] in H.
  destruct (Z.ltb_spec strip 0) as [Hneg | Hpos].
  { right; left. injection H as <- _. split; [reflexivity|].
    split; [exact Hlen|]. exists strip, sw. split; [reflexivity|exact Hneg]. }
  right; right.
  pose proof (analyze_strip_bound host c strip sw ltac:(lia) Han Hpos) as Hb.
  rewrite land_3 in H.
  set (n0 := Z.of_nat MAXHDR - strip) in *.
  assert (Hn0 : n0 = Z.of_nat MAXHDR - strip) by reflexivity.
  set (hdr1 := c ++ skipn (length c) hdr0) in *.
  set (hdr2 := if 0 <? strip
               then memmove hdr1 0 (Z.to_nat strip) (Z.to_nat n0)
               else hdr1) in *.
  set (body := skipn MAXHDR (fin w)) in *.
  assert (Hc_rest : length (fin w) = (MAXHDR + length body)%nat).
  { unfold body. rewrite length_skipn. lia. }
  pose proof (Z.mod_pos_bound n0 4 ltac:(lia)) as Bn.
  pose proof (Z.div_mod n0 4 ltac:(lia)) as En.
  pose proof (Z.mod_pos_bound strip 4 ltac:(lia)) as Bs.
  pose proof (Z.div_mod strip 4 ltac:(lia)) as Es.
  assert (Hs : Z.of_nat (Z.to_nat strip mod 4) = strip mod 4).
  { rewrite Nat2Z.inj_mod, Z2Nat.id by lia. reflexivity. }
  destruct (Z.eqb_spec (n0 mod 4) 0) as [Hz | Hnz]; cbn [negb] in H;
    [discriminate|].
  assert (Hpad : 4 - n0 mod 4 = strip mod 4) by lia.
  assert (Hshort : (length body < Z.to_nat strip mod 4)%nat).
  { destruct (list_eq_dec Strings.Byte.byte_eq_dec body []) as [E | Hbody].
    - rewrite E. cbn [length]. lia.
    - rewrite read_nonempty in H by exact Hbody.
      cbn [fin fin_error fout fout_room] in H.
      set (got := firstn (Z.to_nat (4 - n0 mod 4)) body) in *.
      destruct (Z.eqb_spec (Z.of_nat (length got)) (4 - n0 mod 4))
        as [Hg | Hg]; [discriminate|].
      unfold got in Hg. rewrite length_firstn in Hg. lia. }
  assert (Ho : o = Trouble ReadingData).
  { match type of H with
    | context [read ?w0 ?buf ?off ?count] =>
        destruct (read w0 buf off count) as [[r hdr'] w']
    end.
    destruct (negb (r =? 4 - n0 mod 4)); [|discriminate].
    injection H as <- _. reflexivity. }
  split; [exact Ho|]. split; [exact Hlen|].
  exists (Z.to_nat strip), sw. rewrite Z2Nat.id by lia.
  split; [reflexivity|lia].
Qed.

(** What it takes for [xbit2bin] to return 0. *)
Lemma xbit2bin_converted_cause (host : endianness)
  (hdr0 datbuf0 input : list byte) (w' : world) :
  xbit2bin host hdr0 datbuf0 (open_files input) = Some (Converted, w') ->
  (MAXHDR <= length input)%nat /\
  exists s do_swap,
    analyze_xilinx_header host (firstn MAXHDR input)
    = Some (Z.of_nat s, do_swap) /\
    (MAXHDR + s mod 4 <= length input)%nat.
Proof.
  intros H. unfold xbit2bin in H.
  destruct (xbit2bin_header host hdr0 (open_files input)) as [st|] eqn:Hst;
    [|discriminate].
  destruct st as [o0 w2 | hdr n do_swap w2].
  - injection H as -> _.
    destruct (xbit2bin_header_stop host hdr0 _ _ w2 Hst)
      as [E | [E | E]]; discriminate.
  - clear H.
    destruct (xbit2bin_header_inv host hdr0 _ hdr n do_swap w2 Hst)
      as (strip & pad & Han & Hs & Hp & Hn & Hmod & Hfin & _ & _).
    cbn [open_files fin] in Han, Hfin.
    pose proof (eq_refl : MAXHDR = 256%nat) as HM.
    split; [lia|]. exists (Z.to_nat strip), do_swap.
    rewrite Z2Nat.id by lia. split; [exact Han|].
    assert (Hpad : Z.of_nat (Z.to_nat strip mod 4) = pad).
    { rewrite Nat2Z.inj_mod, Z2Nat.id by lia.
      change (Z.of_nat 4) with 4. subst n. rewrite HM in Hmod.
      pose proof (Z.div_mod strip 4 ltac:(lia)).
      pose proof (Z.mod_pos_bound strip 4 ltac:(lia)).
      pose proof (Z.div_mod (Z.of_nat 256 - strip + pad) 4 ltac:(lia)).
      lia. }
    lia.
Qed.

(** X10: on an input without read error and an output without limit,
    every failure of [xbit2bin] comes before its first [write]: it is a
    failure of reading or analyzing the header, or of reading the bytes
    that pad it, and the output is as it was. *)
Theorem xbit2bin_failure_writes_nothing (host : endianness)
  (hdr0 datbuf0 : list byte) (w : world) (t : trouble) (w1 : world) :
  fin_error w = false -> fout_room w = None ->
  xbit2bin host hdr0 datbuf0 w = Some (Trouble t, w1) ->
  (t = ReadingHeader \/ t = AnalyzingHeader \/ t = ReadingData) /\
  fout w1 = fout w.
Proof.
  intros Herr Hroom H.
  destruct (xbit2bin_clean_run host hdr0 datbuf0 w _ w1 Herr Hroom H)
    as [E | [[E | [E | E]] Ho]]; try discriminate;
    injection E as ->; auto.
Qed.

(** X11: [xbit2bin] returns 0 on a regular input file, with an output
    that takes everything, exactly when the file has 256 bytes or more,
    the analysis of the first 256 succeeds, and the bytes that pad the
    stripped header to a multiple of 4 are there. *)
Theorem xbit2bin_converts_iff (host : endianness) (hdr0 datbuf0 : list byte)
  (input : list byte) :
  (exists w', xbit2bin host hdr0 datbuf0 (open_files input)
              = Some (Converted, w')) <->
  ((MAXHDR <= length input)%nat /\
   exists s do_swap,
     analyze_xilinx_header host (firstn MAXHDR input)
     = Some (Z.of_nat s, do_swap) /\
     (MAXHDR + s mod 4 <= length input)%nat).
Proof.
  split.
  - intros (w' & H).
    exact (xbit2bin_converted_cause host hdr0 datbuf0 input w' H).
  - intros (Hlen & s & do_swap & Han & Hpad).
    destruct (xbit2bin_converts host hdr0 datbuf0 input s do_swap
                Hlen Han Hpad) as (out & Hrun & _).
    eexists. exact Hrun.
Qed.

(** X12: [xbit2bin] fails on a regular input file, with an output that
    takes everything: in reading the header when the file has fewer than
    256 bytes; in analyzing it when the analysis returns -1; in reading
    data when the bytes that pad the stripped header are not there; and in
    no other way. *)
Theorem xbit2bin_failure_cause (host : endianness)
  (hdr0 datbuf0 input : list byte) (t : trouble) :
  (exists w', xbit2bin host hdr0 datbuf0 (open_files input)
              = Some (Trouble t, w')) <->
  failure_cause host input t.
Proof.
  assert (Fwd : forall t' w',
            xbit2bin host hdr0 datbuf0 (open_files input)
            = Some (Trouble t', w') -> failure_cause host input t').
  { intros t' w' H.
    destruct (xbit2bin_header host hdr0 (open_files input)) as [st|] eqn:Hst.
    2:{ unfold xbit2bin in H. rewrite Hst in H. discriminate. }
    destruct st as [o0 w2 | hdr n do_swap w2].
    - unfold xbit2bin in H. rewrite Hst in H. injection H as -> _.
      destruct (xbit2bin_header_stop_cause host hdr0 _ _ w2 Hst)
        as [[E C] | [[E C] | [E C]]]; injection E as ->; exact C.
    - destruct (xbit2bin_emit_converts host hdr0 datbuf0 (open_files input)
                  hdr n do_swap w2 eq_refl eq_refl Hst) as (w1' & E).
      congruence. }
  split; [intros (w' & H); exact (Fwd t w' H)|].
  intros C.
  destruct (xbit2bin_returns host hdr0 datbuf0 (open_files input))
    as (o & w' & H).
  exists w'. rewrite H. f_equal. f_equal.
  destruct o as [|t'].
  - destruct (xbit2bin_converted_cause host hdr0 datbuf0 input w' H)
      as (Hlen & s & sw & Han & Hpad).
    exfalso. destruct t; cbn [failure_cause] in C.
    + lia.
    + destruct C as (_ & strip & sw' & Han' & Hneg).
      rewrite Han in Han'. injection Han' as <- _. lia.
    + destruct C as (_ & s' & sw' & Han' & Hshort).
      rewrite Han in Han'. injection Han' as E _.
      apply Nat2Z.inj in E. subst s'. lia.
    + exact C.
    + exact C.
  - f_equal. pose proof (Fwd t' w' H) as C'.
    destruct t, t'; cbn [failure_cause] in C, C';
      try reflexivity; try contradiction; exfalso.
    + destruct C' as (Hlen & _). lia.
    + destruct C' as (Hlen & _). lia.
    + destruct C as (Hlen & _). lia.
    + destruct C as (_ & strip & sw & Han & Hneg).
      destruct C' as (_ & s' & sw' & Han' & _).
      rewrite Han in Han'. injection Han' as -> _. lia.
    + destruct C as (Hlen & _). lia.
    + destruct C' as (_ & strip & sw & Han & Hneg).
      destruct C as (_ & s' & sw' & Han' & _).
      rewrite Han in Han'. injection Han' as -> _. lia.
Qed.

(** ** main *)

Lemma fs_write_other (fs : filesystem) (p q : cstring) (data : list byte) :
  q <> p -> fs_write fs p data q = fs q.
Proof.
  intros NE. unfold fs_write, bytes_eqb.
  destruct (list_eq_dec Strings.Byte.byte_eq_dec q p); [contradiction|].
  reflexivity.
Qed.

Lemma fs_write_same (fs : filesystem) (p : cstring) (data old : list byte) :
  fs p = Some old ->
  fs_write fs p data p = Some (data ++ skipn (length data) old).
Proof.
  intros E. unfold fs_write. rewrite bytes_eqb_refl, E. reflexivity.
Qed.

Lemma fs_write_nothing (fs : filesystem) (p : cstring) (old : list byte) :
  fs p = Some old -> forall q, fs_write fs p [] q = fs q.
Proof.
  intros E q. unfold fs_write, bytes_eqb.
  destruct (list_eq_dec Strings.Byte.byte_eq_dec q p) as [-> | NE];
    [|reflexivity].
  rewrite E. reflexivity.
Qed.

(** X13: [main] comes to its end with status 0 or 1, whatever the
    arguments and the files; with status 1 no file has been changed, and
    status 0 means that [xbit2bin] has returned 0. *)
Theorem main_exit_status (host : endianness) (hdr0 datbuf0 : list byte)
  (argv : list cstring) (fs : filesystem) :
  exists rep fs',
    main host hdr0 datbuf0 argv fs = Some (rep, fs') /\
    (exit_status rep = 0 \/ exit_status rep = 1) /\
    (exit_status rep = 1 -> forall p, fs' p = fs p) /\
    (exit_status rep = 0 -> rep = Ran Converted).
Proof.
  unfold main. cbv zeta.
  destruct (Z.of_nat (length argv) <? 2).
  { exists Usage, fs. repeat apply conj; auto; discriminate. }
  destruct (fs (nth 1 argv [])) as [input|].
  2:{ exists OpeningForRead, fs. repeat apply conj; auto; discriminate. }
  set (filename_out := if 2 <? Z.of_nat (length argv) then _ else _).
  destruct (fs filename_out) as [old|] eqn:Hout.
  2:{ exists OpeningForWrite, fs. repeat apply conj; auto; discriminate. }
  destruct (xbit2bin_returns host hdr0 datbuf0 (open_files input))
    as (o & w1 & Hrun).
  rewrite Hrun. eexists _, _. split; [reflexivity|].
  destruct (xbit2bin_clean_run host hdr0 datbuf0 (open_files input) o w1
              eq_refl eq_refl Hrun)
    as [-> | [[-> | [-> | ->]] Ho]]; cbn [open_files fout] in *.
  - repeat apply conj; auto; discriminate.
  - rewrite Ho. repeat apply conj; auto; try discriminate.
    intros _. apply (fs_write_nothing fs filename_out old Hout).
  - rewrite Ho. repeat apply conj; auto; try discriminate.
    intros _. apply (fs_write_nothing fs filename_out old Hout).
  - rewrite Ho. repeat apply conj; auto; try discriminate.
    intros _. apply (fs_write_nothing fs filename_out old Hout).
Qed.

(** X14: [main] on a bitstream file that [xbit2bin] converts: the status
    is 0; the output file, which is the third argument, or /dev/devcfg
    when there are two, starts with the converted bytes and keeps behind
    them what it held (it is not truncated); no other file changes, and
    arguments after the third are ignored. *)
Theorem main_converts (host : endianness) (hdr0 datbuf0 : list byte)
  (prog path_in : cstring) (rest : list cstring) (fs : filesystem)
  (input old : list byte) (s : nat) (do_swap : bool) :
  fs path_in = Some input ->
  fs (hd devcfg rest) = Some old ->
  (MAXHDR <= length input)%nat ->
  analyze_xilinx_header host (firstn MAXHDR input)
  = Some (Z.of_nat s, do_swap) ->
  (MAXHDR + s mod 4 <= length input)%nat ->
  exists out fs',
    main host hdr0 datbuf0 (prog :: path_in :: rest) fs
    = Some (Ran Converted, fs') /\
    exit_status (Ran Converted) = 0 /\
    length out = length (skipn s input) /\
    (if do_swap
     then complete_words out = wordswap (complete_words (skipn s input))
     else out = skipn s input) /\
    fs' (hd devcfg rest) = Some (out ++ skipn (length out) old) /\
    (forall p, p <> hd devcfg rest -> fs' p = fs p).
Proof.
  intros Hin Hout Hlen Han Hpad.
  destruct (xbit2bin_converts host hdr0 datbuf0 input s do_swap
              Hlen Han Hpad) as (out & Hrun & Hl & Hsw).
  exists out, (fs_write fs (hd devcfg rest) out).
  repeat apply conj.
  - unfold main. cbv zeta.
    destruct (Z.ltb_spec (Z.of_nat (length (prog :: path_in :: rest))) 2)
      as [Hlt | _]; [cbn [length] in Hlt; lia|].
    assert (Hname : (if 2 <? Z.of_nat (length (prog :: path_in :: rest))
                     then nth 2 (prog :: path_in :: rest) []
                     else devcfg) = hd devcfg rest).
    { destruct rest as [|a rest']; [reflexivity|].
      destruct (Z.ltb_spec 2 (Z.of_nat (length (prog :: path_in :: a :: rest'))))
        as [_ | Hge]; [reflexivity|cbn [length] in Hge; lia]. }
    rewrite Hname. cbn [nth]. rewrite Hin, Hout, Hrun. reflexivity.
  - reflexivity.
  - exact Hl.
  - exact Hsw.
  - apply fs_write_same. exact Hout.
  - intros p NE. apply fs_write_other. exact NE.
Qed.

(** ** The output as an input *)

Lemma wordswap_firstn (k : nat) :
  forall l : list byte,
    firstn (4 * k) (wordswap l) = wordswap (firstn (4 * k) l).
Proof.
  induction k as [|k IH]; intros l; [reflexivity|].
  replace (4 * S k)%nat with (S (S (S (S (4 * k))))) by lia.
  destruct l as [|b0 [|b1 [|b2 [|b3 l]]]]; try reflexivity.
  cbn [wordswap firstn]. rewrite IH. reflexivity.
Qed.

Lemma marker_wordswap (host : endianness) :
  wordswap (marker host true) = marker host false.
Proof. destruct host; vm_compute; reflexivity. Qed.

Lemma sync_wordswap : wordswap (repeat xff 32) = repeat xff 32.
Proof. vm_compute. reflexivity. Qed.

(** X15: whatever marker the input has, the output of a conversion starts
    with 32 dummy bytes and the marker that asks for no swap; with 256
    bytes or more it is an input that [xbit2bin] converts to itself. *)
Theorem xbit2bin_output_normal_form (host : endianness)
  (hdr0 datbuf0 hdr0' datbuf0' : list byte) (pre post : list byte)
  (k : nat) (do_swap : bool) :
  has_run32 pre = false -> (32 <= k)%nat ->
  (length pre + k + 8 <= MAXHDR)%nat ->
  (MAXHDR + (length pre + k - 32) mod 4
   <= length (bitstream host pre k do_swap post))%nat ->
  exists out,
    xbit2bin host hdr0 datbuf0
      (open_files (bitstream host pre k do_swap post))
    = Some (Converted, mkWorld [] false out None) /\
    firstn 40 out = repeat xff 32 ++ marker host false /\
    ((MAXHDR <= length out)%nat ->
     xbit2bin host hdr0' datbuf0' (open_files out)
     = Some (Converted, mkWorld [] false out None)).
Proof.
  intros Hpre Hk Hfit Hpad.
  pose proof (eq_refl : MAXHDR = 256%nat) as HM.
  set (input := bitstream host pre k do_swap post) in *.
  assert (Hlen : (MAXHDR <= length input)%nat) by lia.
  pose proof (analyze_bitstream host pre post k do_swap
                (has_run32_false pre Hpre) Hk Hfit Hlen) as Han.
  fold input in Han.
  destruct (xbit2bin_converts host hdr0 datbuf0 input _ do_swap
              Hlen Han Hpad) as (out & Hrun & Hl & Hsw).
  pose proof (bitstream_stripped host pre post k do_swap Hk) as Hstrip.
  fold input in Hstrip. rewrite Hstrip in Hl, Hsw.
  set (X := repeat xff 32 ++ marker host do_swap ++ post) in *.
  assert (HX : firstn 40 X = repeat xff 32 ++ marker host do_swap).
  { unfold X. rewrite app_assoc, firstn_app.
    rewrite length_app, repeat_length, marker_length.
    cbn [Nat.add Nat.sub]. rewrite firstn_O, app_nil_r.
    apply firstn_all2. rewrite length_app, repeat_length, marker_length. lia. }
  assert (HlX : (40 <= length X)%nat).
  { unfold X. rewrite !length_app, repeat_length, marker_length. lia. }
  assert (Hhead : firstn 40 out = repeat xff 32 ++ marker host false).
  { destruct do_swap.
    - assert (Hcw : forall l : list byte, (40 <= length l)%nat ->
                firstn 40 (complete_words l) = firstn 40 l).
      { intros l Hll. unfold complete_words. rewrite firstn_firstn.
        pose proof (Nat.div_mod_eq (length l) 4).
        pose proof (Nat.mod_upper_bound (length l) 4 ltac:(lia)).
        rewrite Nat.min_l by lia. reflexivity. }
      rewrite <- (Hcw out) by lia. rewrite Hsw.
      change 40%nat with (4 * 10)%nat at 1.
      rewrite wordswap_firstn.
      change (4 * 10)%nat with 40%nat.
      rewrite (Hcw X HlX), HX.
      rewrite wordswap_app by (rewrite repeat_length; reflexivity).
      rewrite sync_wordswap, marker_wordswap. reflexivity.
    - rewrite Hsw. exact HX. }
  exists out. split; [exact Hrun|]. split; [exact Hhead|].
  intros Hlo.
  assert (Hout : out = bitstream host [] 32 false (skipn 40 out)).
  { unfold bitstream. cbn [app]. rewrite <- (firstn_skipn 40 out) at 1.
    rewrite Hhead, <- app_assoc. reflexivity. }
  assert (Hnil : ~ run32_in []).
  { apply has_run32_false. reflexivity. }
  pose proof (analyze_bitstream host [] (skipn 40 out) 32 false Hnil
                (Nat.le_refl 32) ltac:(cbn [length]; lia)) as Han2.
  rewrite <- Hout in Han2. specialize (Han2 Hlo).
  cbn [length Nat.add Nat.sub] in Han2.
  destruct (xbit2bin_converts host hdr0' datbuf0' out 0 false Hlo Han2
              ltac:(cbn [Nat.modulo Nat.divmod fst snd]; lia))
    as (out2 & Hrun2 & _ & Hsame).
  rewrite skipn_O in Hsame. rewrite Hrun2, Hsame. reflexivity.
Qed.

(** ** The further properties on the examples *)

Lemma analyze_accepts_iff_witness :
  (analyze_xilinx_header LittleEndian (header_example true) = Some (40, true)
   /\ 0 <= 40) <->
  (exists pre k post,
     header_example true = bitstream LittleEndian pre k true post /\
     has_run32 pre = false /\ (32 <= k)%nat /\
     40 = Z.of_nat (length pre + k) - 32).
Proof.
  apply (analyze_accepts_iff LittleEndian (header_example true) 40 true).
  reflexivity.
Defined.

Lemma analyze_never_resyncs_witness :
  analyze_xilinx_header LittleEndian
    ([] ++ repeat xff 32 ++ repeat x00 8
        ++ (repeat xff 32 ++ marker LittleEndian true ++ repeat x00 176))
  = Some (-1, false).
Proof.
  apply (analyze_never_resyncs LittleEndian [] (repeat x00 8)
           (repeat xff 32 ++ marker LittleEndian true ++ repeat x00 176) 32).
  - reflexivity.
  - reflexivity.
  - lia.
  - reflexivity.
  - reflexivity.
  - vm_compute. reflexivity.
  - vm_compute. reflexivity.
Defined.

Lemma analyze_scans_248_bytes_witness :
  analyze_xilinx_header LittleEndian late_run_example = Some (-1, false).
Proof.
  apply (analyze_scans_248_bytes LittleEndian late_run_example).
  - reflexivity.
  - vm_compute. reflexivity.
Defined.

Lemma analyze_host_flip_witness :
  analyze_xilinx_header LittleEndian (header_example false)
  = Some (40, false) <->
  analyze_xilinx_header BigEndian (header_example false)
  = Some (40, negb false).
Proof.
  apply (analyze_host_flip (header_example false) 40 false).
  - reflexivity.
  - lia.
Defined.

Lemma xbit2bin_bswap_effect_witness :
  xbit2bin_bswap LittleEndian [x01; x02; x03; x04; x05; x06; x07; x08] 5
  = wordswap (firstn (4 * nwords 5) [x01; x02; x03; x04; x05; x06; x07; x08])
    ++ skipn (4 * nwords 5) [x01; x02; x03; x04; x05; x06; x07; x08] /\
  length (xbit2bin_bswap LittleEndian
            [x01; x02; x03; x04; x05; x06; x07; x08] 5)
  = length [x01; x02; x03; x04; x05; x06; x07; x08] /\
  Z.of_nat (4 * nwords 5) - 4 < 5 <= Z.of_nat (4 * nwords 5).
Proof.
  apply (xbit2bin_bswap_effect LittleEndian
           [x01; x02; x03; x04; x05; x06; x07; x08] 5).
  - lia.
  - vm_compute. lia.
Defined.

Lemma xbit2bin_bswap_any_host_witness :
  xbit2bin_bswap LittleEndian [x01; x02; x03; x04; x05; x06; x07; x08] 5
  = xbit2bin_bswap BigEndian [x01; x02; x03; x04; x05; x06; x07; x08] 5.
Proof.
  apply (xbit2bin_bswap_any_host [x01; x02; x03; x04; x05; x06; x07; x08] 5).
  lia.
Defined.

Lemma copy_loop_swap_in_bounds_witness :
  exists o w',
    copy_rest_checked LittleEndian 8 true (repeat x00 DATBUF_SIZE)
      (open_files [x01; x02; x03; x04; x05; x06; x07]) = Some (o, w') /\
    copy_rest LittleEndian 8 true (repeat x00 DATBUF_SIZE)
      (open_files [x01; x02; x03; x04; x05; x06; x07]) = Some (o, w').
Proof.
  apply (copy_loop_swap_in_bounds LittleEndian 8 true
           (repeat x00 DATBUF_SIZE)
           (open_files [x01; x02; x03; x04; x05; x06; x07])).
  - apply repeat_length.
  - vm_compute. lia.
Defined.

Lemma xbit2bin_output_normal_form_witness :
  exists out,
    xbit2bin LittleEndian (repeat x00 MAXHDR) (repeat x00 DATBUF_SIZE)
      (open_files
         (bitstream LittleEndian metadata_example 32 true
            (repeat x00 176 ++ payload_example)))
    = Some (Converted, mkWorld [] false out None) /\
    firstn 40 out = repeat xff 32 ++ marker LittleEndian false /\
    ((MAXHDR <= length out)%nat ->
     xbit2bin LittleEndian (repeat xaa MAXHDR) (repeat xaa DATBUF_SIZE)
       (open_files out)
     = Some (Converted, mkWorld [] false out None)).
Proof.
  apply (xbit2bin_output_normal_form LittleEndian
           (repeat x00 MAXHDR) (repeat x00 DATBUF_SIZE)
           (repeat xaa MAXHDR) (repeat xaa DATBUF_SIZE)
           metadata_example (repeat x00 176 ++ payload_example) 32 true).
  - reflexivity.
  - lia.
  - vm_compute. lia.
  - vm_compute. lia.
Defined.

Lemma xbit2bin_read_error_at_end_witness :
  xbit2bin LittleEndian (repeat x00 MAXHDR) (repeat x00 DATBUF_SIZE)
    (with_error (open_files (input_example false)))
  = Some (outcome_with_error Converted,
          with_error (mkWorld [] false (skipn 40 (input_example false)) None))
  /\
  fout (with_error (mkWorld [] false (skipn 40 (input_example false)) None))
  = fout (mkWorld [] false (skipn 40 (input_example false)) None) /\
  return_value (outcome_with_error Converted) = -1.
Proof.
  apply (xbit2bin_read_error_at_end LittleEndian
           (repeat x00 MAXHDR) (repeat x00 DATBUF_SIZE)
           (open_files (input_example false)) Converted
           (mkWorld [] false (skipn 40 (input_example false)) None)).
  - reflexivity.
  - vm_compute. reflexivity.
Defined.

Lemma xbit2bin_short_write_witness :
  exists o w1 new o' w1',
    xbit2bin LittleEndian (repeat x00 MAXHDR) (repeat x00 DATBUF_SIZE)
      (open_files (input_example false)) = Some (o, w1) /\
    fout w1 = fout (open_files (input_example false)) ++ new /\
    xbit2bin LittleEndian (repeat x00 MAXHDR) (repeat x00 DATBUF_SIZE)
      (with_room 100 (open_files (input_example false))) = Some (o', w1') /\
    fout w1' = fout (open_files (input_example false)) ++ firstn 100 new /\
    ((length new <= 100)%nat -> o' = o) /\
    ((100 < length new)%nat ->
     o' = Trouble WritingHeader \/ o' = Trouble WritingData).
Proof.
  apply (xbit2bin_short_write LittleEndian
           (repeat x00 MAXHDR) (repeat x00 DATBUF_SIZE)
           (open_files (input_example false)) 100).
  reflexivity.
Defined.

Lemma xbit2bin_failure_writes_nothing_witness :
  (ReadingData = ReadingHeader \/ ReadingData = AnalyzingHeader
   \/ ReadingData = ReadingData) /\
  fout (mkWorld [] false [] None) = fout (open_files header_only_unaligned).
Proof.
  apply (xbit2bin_failure_writes_nothing LittleEndian
           (repeat x00 MAXHDR) (repeat x00 DATBUF_SIZE)
           (open_files header_only_unaligned) ReadingData
           (mkWorld [] false [] None)).
  - reflexivity.
  - reflexivity.
  - vm_compute. reflexivity.
Defined.

Lemma main_converts_witness :
  exists out fs',
    main LittleEndian (repeat x00 MAXHDR) (repeat x00 DATBUF_SIZE)
      ([x78] :: path_example :: []) fs_example
    = Some (Ran Converted, fs') /\
    exit_status (Ran Converted) = 0 /\
    length out = length (skipn 40 (input_example true)) /\
    (if true
     then complete_words out
          = wordswap (complete_words (skipn 40 (input_example true)))
     else out = skipn 40 (input_example true)) /\
    fs' (hd devcfg []) = Some (out ++ skipn (length out) (repeat xaa 2000)) /\
    (forall p, p <> hd devcfg [] -> fs' p = fs_example p).
Proof.
  apply (main_converts LittleEndian (repeat x00 MAXHDR)
           (repeat x00 DATBUF_SIZE) [x78] path_example [] fs_example
           (input_example true) (repeat xaa 2000) 40 true).
  - vm_compute. reflexivity.
  - vm_compute. reflexivity.
  - vm_compute. lia.
  - vm_compute. reflexivity.
  - vm_compute. lia.
Defined.
